(** * GeoSketch-OSM: the feature store and the polygon overlap validation

    A shallow embedding of
    - [src/types/geometry.ts]           (shape kinds, features, validation results),
    - [src/config/shapeLimits.ts]       (the per-kind caps),
    - [src/utils/polygonUtils.ts]       (overlap validation on top of Turf.js),
    - [src/store/featureStore.ts]       (the zustand store with undo/redo history),
    - [src/hooks/useOverlapValidation.ts] (the memoised validation hook),
    - [src/components/ImportButton.tsx] (the GeoJSON import loop).

    JavaScript numbers that carry measurements (areas, lengths, coordinates)
    are IEEE-754 doubles and are modelled by Rocq's primitive floats; array
    lengths and counters are natural numbers; [Date.now()] is an integer.
    Calls that may raise a JavaScript exception live in the [Exc] monad. *)

From Stdlib Require Import List String Ascii Bool ZArith Floats Lia.
From Stdlib Require Import DecimalString.
Import ListNotations.

(* ------------------------------------------------------------------ *)
(** ** Exceptions *)

Inductive Exc (A : Type) : Type :=
| Ret (a : A)
| Throw (msg : string).

Arguments Ret {A} a.
Arguments Throw {A} msg.

Definition bindE {A B : Type} (m : Exc A) (k : A -> Exc B) : Exc B :=
  match m with
  | Ret a => k a
  | Throw e => Throw e
  end.

Notation "x <- m ;; k" := (bindE m (fun x => k))
  (at level 61, m at next level, right associativity).

(* ------------------------------------------------------------------ *)
(** ** types/geometry.ts *)

Inductive ShapeType : Type := polygon | rectangle | circle | line.

Definition ShapeType_eqb (a b : ShapeType) : bool :=
  match a, b with
  | polygon, polygon | rectangle, rectangle | circle, circle | line, line => true
  | _, _ => false
  end.

(** The string a shape kind is at run time. *)
Definition shapeTypeString (k : ShapeType) : string :=
  match k with
  | polygon => "polygon"
  | rectangle => "rectangle"
  | circle => "circle"
  | line => "line"
  end.

(** GeoJSON [Position]: an array of numbers, longitude first. *)
Definition Position : Type := list float.

(** GeoJSON [Geometry], by its [type] tag.  The store only ever looks at
    polygons, multi-polygons and line strings; the other tags of the GeoJSON
    union are kept with their tag alone. *)
Inductive Geometry : Type :=
| Polygon (coordinates : list (list Position))
| MultiPolygon (coordinates : list (list (list Position)))
| LineString (coordinates : list Position)
| OtherGeometry (type : string).

Record FeatureProperties : Type := mkProps {
  prop_id : string;
  prop_shapeType : ShapeType;
  prop_createdAt : Z;
  prop_name : option string;
  prop_area : option float;
  prop_length : option float;
  prop_radius : option float;
  prop_center : option Position
}.

(** [Partial<FeatureProperties>]: every key may be absent. *)
Record PartialProperties : Type := mkPartial {
  part_id : option string;
  part_shapeType : option ShapeType;
  part_createdAt : option Z;
  part_name : option string;
  part_area : option float;
  part_length : option float;
  part_radius : option float;
  part_center : option Position
}.

Definition noProps : PartialProperties :=
  mkPartial None None None None None None None None.

Definition over {A : Type} (base : A) (o : option A) : A :=
  match o with Some v => v | None => base end.

Definition overOpt {A : Type} (base : option A) (o : option A) : option A :=
  match o with Some v => Some v | None => base end.

(** Object spread [{ ...base, ...p }]. *)
Definition spread (base : FeatureProperties) (p : PartialProperties)
  : FeatureProperties :=
  mkProps (over (prop_id base) (part_id p))
          (over (prop_shapeType base) (part_shapeType p))
          (over (prop_createdAt base) (part_createdAt p))
          (overOpt (prop_name base) (part_name p))
          (overOpt (prop_area base) (part_area p))
          (overOpt (prop_length base) (part_length p))
          (overOpt (prop_radius base) (part_radius p))
          (overOpt (prop_center base) (part_center p)).

Record GeoFeature : Type := mkFeature {
  id : string;
  geometry : Geometry;
  shapeType : ShapeType;
  properties : FeatureProperties
}.

Record ValidationResult : Type := mkValidation {
  isValid : bool;
  (** [None]: the key is absent; [Some None]: [null]; [Some (Some g)]. *)
  trimmedGeometry : option (option Geometry);
  error : option string
}.

(* ------------------------------------------------------------------ *)
(** ** config/shapeLimits.ts *)

Definition shapeLimits (k : ShapeType) : nat :=
  match k with
  | polygon => 10
  | rectangle => 5
  | circle => 5
  | line => 20
  end.

Definition isLimitReached (k : ShapeType) (currentCount : nat) : bool :=
  shapeLimits k <=? currentCount.

(* ------------------------------------------------------------------ *)
(** ** Turf.js

    The geometry primitives come from [@turf/turf]; the repository only
    calls them.  They are an interface here.  The constructors and the two
    clipping operations may raise. *)

Class Turf : Type := {
  (** [Feature<Polygon | MultiPolygon>] *)
  PolyFeature : Type;
  feature_geometry : PolyFeature -> Geometry;
  turf_polygon : list (list Position) -> Exc PolyFeature;
  turf_multiPolygon : list (list (list Position)) -> Exc PolyFeature;
  turf_intersect : PolyFeature -> PolyFeature -> Exc (option PolyFeature);
  turf_difference : PolyFeature -> PolyFeature -> Exc (option PolyFeature);
  turf_area : PolyFeature -> float;
  (** [turf.length(turf.lineString(c), { units: 'kilometers' })] *)
  turf_lineString_length : list Position -> Exc float
}.

(* ------------------------------------------------------------------ *)
(** ** utils/polygonUtils.ts *)

Module PolygonUtils.

Definition isPolygonalShape (k : ShapeType) : bool :=
  match k with
  | polygon | rectangle | circle => true
  | line => false
  end.

(** The double nearest to the literal [0.99]. *)
Definition threshold : float := 0x1.fae147ae147aep-1%float.

(** The four texts [validatePolygonOverlap] rejects with. *)
Definition msgContained : string :=
  "Cannot create a polygon that is fully contained within an existing polygon.".
Definition msgContains : string :=
  "Cannot create a polygon that fully contains an existing polygon.".
Definition msgRemoved : string :=
  "Polygon would be completely removed after trimming overlaps.".
Definition msgFailed : string :=
  "Failed to validate polygon overlap. Please try again.".

Definition rejected (reason : string) : ValidationResult :=
  mkValidation false None (Some reason).

(** [{ isValid: true }] *)
Definition validOnly : ValidationResult := mkValidation true None None.

Section WithTurf.
Context {turf : Turf}.

Definition getPolygonFromGeometry (g : Geometry) : Exc (option PolyFeature) :=
  match g with
  | Polygon c => p <- turf_polygon c ;; Ret (Some p)
  | MultiPolygon c => p <- turf_multiPolygon c ;; Ret (Some p)
  | LineString _ | OtherGeometry _ => Ret None
  end.

(** [existingFeatures.filter(...).map(...)]: the map calls
    [getPolygonFromGeometry] on each kept feature, in order, outside of any
    [try]; the first exception ends it. *)
Fixpoint mapPolygons (fs : list GeoFeature)
  : Exc (list (string * option PolyFeature)) :=
  match fs with
  | [] => Ret []
  | f :: rest =>
      p <- getPolygonFromGeometry (geometry f) ;;
      ps <- mapPolygons rest ;;
      Ret ((id f, p) :: ps)
  end.

Definition notExcluded (excludeId : option string) (f : GeoFeature) : bool :=
  match excludeId with
  | Some x => negb (String.eqb (id f) x)
  | None => true
  end.

Definition nonNull (p : string * option PolyFeature) : bool :=
  match snd p with Some _ => true | None => false end.

Definition existingPolygons (existingFeatures : list GeoFeature)
    (excludeId : option string) : Exc (list (string * option PolyFeature)) :=
  ps <- mapPolygons
          (filter (fun f => isPolygonalShape (shapeType f) && notExcluded excludeId f)
                  existingFeatures) ;;
  Ret (filter nonNull ps).

(** The [for ... of] loop, with its two variables [currentPolygon] and
    [wasTrimmed] as arguments.  The body is one [try]: an exception of
    [turf.intersect] or [turf.difference] becomes the [msgFailed] result. *)
Fixpoint overlapLoop (existing : list (string * option PolyFeature))
    (currentPolygon : PolyFeature) (wasTrimmed : bool) : ValidationResult :=
  match existing with
  | [] =>
      mkValidation true
        (Some (if wasTrimmed then Some (feature_geometry currentPolygon) else None))
        None
  | (_, None) :: rest => overlapLoop rest currentPolygon wasTrimmed
  | (_, Some existingPolygon) :: rest =>
      match turf_intersect currentPolygon existingPolygon with
      | Throw _ => rejected msgFailed
      | Ret None => overlapLoop rest currentPolygon wasTrimmed
      | Ret (Some intersection) =>
          let currentArea := turf_area currentPolygon in
          let existingArea := turf_area existingPolygon in
          let intersectionArea := turf_area intersection in
          let newContainedRatio := (intersectionArea / currentArea)%float in
          if (threshold <? newContainedRatio)%float then rejected msgContained
          else
            let existingContainedRatio := (intersectionArea / existingArea)%float in
            if (threshold <? existingContainedRatio)%float then rejected msgContains
            else
              match turf_difference currentPolygon existingPolygon with
              | Throw _ => rejected msgFailed
              | Ret None => rejected msgRemoved
              | Ret (Some difference) => overlapLoop rest difference true
              end
      end
  end.

Definition validatePolygonOverlap (newGeometry : Geometry)
    (existingFeatures : list GeoFeature) (excludeId : option string)
  : Exc ValidationResult :=
  newPolygonFeature <- getPolygonFromGeometry newGeometry ;;
  match newPolygonFeature with
  | None => Ret validOnly
  | Some p =>
      ps <- existingPolygons existingFeatures excludeId ;;
      Ret (overlapLoop ps p false)
  end.

Definition calculateArea (g : Geometry) : Exc float :=
  poly <- getPolygonFromGeometry g ;;
  match poly with
  | None => Ret 0%float
  | Some p => Ret (turf_area p)
  end.

Definition calculateLength (g : Geometry) : Exc float :=
  match g with
  | LineString c => turf_lineString_length c
  | _ => Ret 0%float
  end.

End WithTurf.

End PolygonUtils.

(* ------------------------------------------------------------------ *)
(** ** store/featureStore.ts *)

Module FeatureStore.

Inductive ToastType : Type := toastSuccess | toastError | toastWarning | toastInfo.

Record ToastMessage : Type := mkToast {
  toastId : string;
  toastType : ToastType;
  message : string;
  duration : option Z
}.

Record HistoryState : Type := mkHistory {
  past : list (list GeoFeature);
  present : list GeoFeature;
  future : list (list GeoFeature)
}.

(** [Record<ShapeType, number>] *)
Record ShapeCounts : Type := mkCounts {
  polygonCount : nat;
  rectangleCount : nat;
  circleCount : nat;
  lineCount : nat
}.

Definition getCount (c : ShapeCounts) (k : ShapeType) : nat :=
  match k with
  | polygon => polygonCount c
  | rectangle => rectangleCount c
  | circle => circleCount c
  | line => lineCount c
  end.

(** [{ ...c, [k]: v }] *)
Definition setCount (c : ShapeCounts) (k : ShapeType) (v : nat) : ShapeCounts :=
  match k with
  | polygon => mkCounts v (rectangleCount c) (circleCount c) (lineCount c)
  | rectangle => mkCounts (polygonCount c) v (circleCount c) (lineCount c)
  | circle => mkCounts (polygonCount c) (rectangleCount c) v (lineCount c)
  | line => mkCounts (polygonCount c) (rectangleCount c) (circleCount c) v
  end.

Definition zeroCounts : ShapeCounts := mkCounts 0 0 0 0.

Record FeatureState : Type := mkState {
  features : list GeoFeature;
  selectedFeatureId : option string;
  error : option string;
  toasts : list ToastMessage;
  history : HistoryState;
  shapeCounts : ShapeCounts
}.

Definition MAX_HISTORY_LENGTH : nat := 50.

Definition natToString (n : nat) : string :=
  NilEmpty.string_of_uint (Nat.to_uint n).

Definition toUpperCase (c : ascii) : ascii :=
  let n := nat_of_ascii c in
  if (97 <=? n) && (n <=? 122) then ascii_of_nat (n - 32) else c.

(** [s.charAt(0).toUpperCase() + s.slice(1)] *)
Definition capitalize (s : string) : string :=
  match s with
  | EmptyString => EmptyString
  | String c rest => String (toUpperCase c) rest
  end.

Definition generateShapeName (k : ShapeType) (count : nat) : string :=
  (capitalize (shapeTypeString k) ++ "-" ++ natToString (count + 1))%string.

(** [a.slice(-n)] for a positive [n]: the last [n] elements. *)
Definition sliceLast {A : Type} (n : nat) (a : list A) : list A :=
  skipn (List.length a - n) a.

Definition pushToHistory (h : HistoryState) (newPresent : list GeoFeature)
  : HistoryState :=
  let newPast := sliceLast MAX_HISTORY_LENGTH (past h ++ [present h]) in
  mkHistory newPast newPresent [].

Definition initialState : FeatureState :=
  mkState [] None None [] (mkHistory [] [] []) zeroCounts.

(** The [persist] middleware stores [features] and [shapeCounts] only
    ([partialize]) and, on start, merges what it stored over the initial
    state. *)
Definition rehydrate (storedFeatures : list GeoFeature)
    (storedCounts : ShapeCounts) : FeatureState :=
  mkState storedFeatures None None [] (mkHistory [] [] []) storedCounts.

Definition ofKind (k : ShapeType) (f : GeoFeature) : bool :=
  ShapeType_eqb (shapeType f) k.

Definition hasId (x : string) (f : GeoFeature) : bool := String.eqb (id f) x.

Definition getFeaturesByType (k : ShapeType) (s : FeatureState) : list GeoFeature :=
  filter (ofKind k) (features s).

Definition getFeatureCount (k : ShapeType) (s : FeatureState) : nat :=
  List.length (filter (ofKind k) (features s)).

Definition canAddFeature (k : ShapeType) (s : FeatureState) : bool :=
  getFeatureCount k s <? shapeLimits k.

Definition canUndo (s : FeatureState) : bool :=
  negb (List.length (past (history s)) =? 0).

Definition canRedo (s : FeatureState) : bool :=
  negb (List.length (future (history s)) =? 0).

Definition limitError (k : ShapeType) : string :=
  ("Maximum " ++ natToString (shapeLimits k) ++ " " ++ shapeTypeString k
     ++ "(s) allowed. Limit reached.")%string.

Definition limitToast (k : ShapeType) : string :=
  ("Limit reached: Maximum " ++ natToString (shapeLimits k) ++ " "
     ++ shapeTypeString k ++ "(s) allowed.")%string.

Section WithTurf.
Context {turf : Turf}.

(** [{ length }] for a line, [{ area }] otherwise. *)
Definition calculateMetadata (g : Geometry) (k : ShapeType)
  : Exc PartialProperties :=
  match k with
  | line =>
      l <- PolygonUtils.calculateLength g ;;
      Ret (mkPartial None None None None None (Some l) None None)
  | _ =>
      a <- PolygonUtils.calculateArea g ;;
      Ret (mkPartial None None None None (Some a) None None None)
  end.

(** [addFeature].  [newToastId], [newId] and [now] are what
    [generateToastId()], [generateFeatureId()] and [Date.now()] return in
    this call.  [Throw]: the exception leaves the call before any [set], the
    store is as it was. *)
Definition addFeature (g : Geometry) (k : ShapeType)
    (additionalProps : PartialProperties)
    (newToastId newId : string) (now : Z) (state : FeatureState)
  : Exc (option string * FeatureState) :=
  let currentCount := List.length (filter (ofKind k) (features state)) in
  if shapeLimits k <=? currentCount then
    Ret (None,
         mkState (features state) (selectedFeatureId state)
           (Some (limitError k))
           (toasts state ++ [mkToast newToastId toastError (limitToast k) (Some 4000%Z)])
           (history state) (shapeCounts state))
  else
    let name := generateShapeName k currentCount in
    metadata <- calculateMetadata g k ;;
    let newFeature :=
      mkFeature newId g k
        (spread (spread (mkProps newId k now (Some name) None None None None)
                        metadata)
                additionalProps) in
    let newFeatures := features state ++ [newFeature] in
    Ret (Some newId,
         mkState newFeatures (selectedFeatureId state) None (toasts state)
           (pushToHistory (history state) newFeatures)
           (setCount (shapeCounts state) k (getCount (shapeCounts state) k + 1))).

Definition updateFeature (x : string) (g : Geometry) (state : FeatureState)
  : Exc FeatureState :=
  match find (hasId x) (features state) with
  | None => Ret state
  | Some feature =>
      metadata <- calculateMetadata g (shapeType feature) ;;
      let newFeatures :=
        map (fun f =>
               if hasId x f
               then mkFeature (id f) g (shapeType f) (spread (properties f) metadata)
               else f)
            (features state) in
      Ret (mkState newFeatures (selectedFeatureId state) (error state)
             (toasts state) (pushToHistory (history state) newFeatures)
             (shapeCounts state))
  end.

End WithTurf.

Definition sameId (a : option string) (x : string) : bool :=
  match a with Some y => String.eqb y x | None => false end.

Definition removeFeature (x : string) (state : FeatureState) : FeatureState :=
  let newFeatures := filter (fun f => negb (hasId x f)) (features state) in
  mkState newFeatures
    (if sameId (selectedFeatureId state) x then None else selectedFeatureId state)
    (error state) (toasts state)
    (pushToHistory (history state) newFeatures)
    (shapeCounts state).

Definition selectFeature (x : option string) (state : FeatureState) : FeatureState :=
  mkState (features state) x (error state) (toasts state) (history state)
    (shapeCounts state).

Definition clearFeatures (state : FeatureState) : FeatureState :=
  mkState [] None None (toasts state) (pushToHistory (history state) [])
    zeroCounts.

Definition setError (e : option string) (state : FeatureState) : FeatureState :=
  mkState (features state) (selectedFeatureId state) e (toasts state)
    (history state) (shapeCounts state).

(** [addToast]; a call without [duration] passes the default, 4000. *)
Definition addToast (t : ToastType) (msg : string) (d : Z) (newToastId : string)
    (state : FeatureState) : FeatureState :=
  mkState (features state) (selectedFeatureId state) (error state)
    (toasts state ++ [mkToast newToastId t msg (Some d)])
    (history state) (shapeCounts state).

Definition removeToast (x : string) (state : FeatureState) : FeatureState :=
  mkState (features state) (selectedFeatureId state) (error state)
    (filter (fun t => negb (String.eqb (toastId t) x)) (toasts state))
    (history state) (shapeCounts state).

Definition undo (state : FeatureState) : FeatureState :=
  match past (history state) with
  | [] => state
  | p0 :: ps =>
      let previous := last (past (history state)) p0 in
      let newPast := removelast (past (history state)) in
      mkState previous (selectedFeatureId state) (error state) (toasts state)
        (mkHistory newPast previous (features state :: future (history state)))
        (shapeCounts state)
  end.

Definition redo (state : FeatureState) : FeatureState :=
  match future (history state) with
  | [] => state
  | next :: newFuture =>
      mkState next (selectedFeatureId state) (error state) (toasts state)
        (mkHistory (past (history state) ++ [features state]) next newFuture)
        (shapeCounts state)
  end.

Definition setFeatures (fs : list GeoFeature) (state : FeatureState) : FeatureState :=
  mkState fs (selectedFeatureId state) (error state) (toasts state)
    (pushToHistory (history state) fs) (shapeCounts state).

Definition importFeatures (fs : list GeoFeature) (state : FeatureState)
  : FeatureState :=
  let newFeatures := features state ++ fs in
  mkState newFeatures (selectedFeatureId state) (error state) (toasts state)
    (pushToHistory (history state) newFeatures) (shapeCounts state).

(** One call on the store. *)
Inductive Action : Type :=
| AddFeature (g : Geometry) (k : ShapeType) (additionalProps : PartialProperties)
             (newToastId newId : string) (now : Z)
| UpdateFeature (x : string) (g : Geometry)
| RemoveFeature (x : string)
| SelectFeature (x : option string)
| ClearFeatures
| SetError (e : option string)
| AddToast (t : ToastType) (msg : string) (d : Z) (newToastId : string)
| RemoveToast (x : string)
| Undo
| Redo
| SetFeatures (fs : list GeoFeature)
| ImportFeatures (fs : list GeoFeature).

Section Run.
Context {turf : Turf}.

(** The store after the call; a call that raised left it untouched. *)
Definition step (state : FeatureState) (a : Action) : FeatureState :=
  match a with
  | AddFeature g k props tid fid now =>
      match addFeature g k props tid fid now state with
      | Ret (_, s') => s'
      | Throw _ => state
      end
  | UpdateFeature x g =>
      match updateFeature x g state with
      | Ret s' => s'
      | Throw _ => state
      end
  | RemoveFeature x => removeFeature x state
  | SelectFeature x => selectFeature x state
  | ClearFeatures => clearFeatures state
  | SetError e => setError e state
  | AddToast t msg d tid => addToast t msg d tid state
  | RemoveToast x => removeToast x state
  | Undo => undo state
  | Redo => redo state
  | SetFeatures fs => setFeatures fs state
  | ImportFeatures fs => importFeatures fs state
  end.

Definition run (state : FeatureState) (acts : list Action) : FeatureState :=
  fold_left step acts state.

(** The states the store can be in: it starts from the initial state with
    whatever [persist] had stored merged in, and then serves calls. *)
Definition reachable (s : FeatureState) : Prop :=
  exists storedFeatures storedCounts acts,
    s = run (rehydrate storedFeatures storedCounts) acts.

(** A call that changes the feature collection: [addFeature] below the cap,
    [updateFeature] of an id the collection has, and the four calls that
    always write. *)
Definition mutates (state : FeatureState) (a : Action) : bool :=
  match a with
  | AddFeature g k props tid fid now =>
      match addFeature g k props tid fid now state with
      | Ret (Some _, _) => true
      | _ => false
      end
  | UpdateFeature x g =>
      match find (hasId x) (features state), updateFeature x g state with
      | Some _, Ret _ => true
      | _, _ => false
      end
  | RemoveFeature _ | ClearFeatures | SetFeatures _ | ImportFeatures _ => true
  | _ => false
  end.

(** A run in which every call is a mutating one. *)
Fixpoint allMutate (s : FeatureState) (acts : list Action) : bool :=
  match acts with
  | [] => true
  | a :: rest => mutates s a && allMutate (step s a) rest
  end.

End Run.

(** Nothing to undo or redo yet, or [present] is the collection. *)
Definition settled (s : FeatureState) : Prop :=
  (past (history s) = [] /\ future (history s) = [])
  \/ features s = present (history s).

End FeatureStore.

(* ------------------------------------------------------------------ *)
(** ** hooks/useOverlapValidation.ts *)

Module OverlapValidation.

Definition VALIDATION_DEBOUNCE_MS : Z := 50.

(** The two refs of the hook: the [Map] from cache key to result, in
    insertion order, and the time of the last validation. *)
Record HookState : Type := mkHook {
  validationCache : list (string * ValidationResult);
  lastValidationTime : Z
}.

Definition emptyHook : HookState := mkHook [] 0%Z.

Fixpoint mapGet {V : Type} (key : string) (m : list (string * V)) : option V :=
  match m with
  | [] => None
  | (k, v) :: rest => if String.eqb k key then Some v else mapGet key rest
  end.

(** [Map.set]: a known key keeps its place, a new one goes last. *)
Fixpoint mapSet {V : Type} (key : string) (v : V) (m : list (string * V))
  : list (string * V) :=
  match m with
  | [] => [(key, v)]
  | (k, w) :: rest =>
      if String.eqb k key then (k, v) :: rest else (k, w) :: mapSet key v rest
  end.

Fixpoint mapDelete {V : Type} (key : string) (m : list (string * V))
  : list (string * V) :=
  match m with
  | [] => []
  | (k, w) :: rest =>
      if String.eqb k key then rest else (k, w) :: mapDelete key rest
  end.

(** [if (cache.size > 100) { firstKey = cache.keys().next().value;
    if (firstKey) cache.delete(firstKey) }] *)
Definition evictOldest {V : Type} (m : list (string * V)) : list (string * V) :=
  if 100 <? List.length m then
    match m with
    | (EmptyString, _) :: _ | [] => m
    | (firstKey, _) :: _ => mapDelete firstKey m
    end
  else m.

Section WithTurf.
Context {turf : Turf}.

(** [JSON.stringify({ geometry, excludeId, featureCount })] *)
Variable stringify : Geometry -> option string -> nat -> string.

Definition existingPolygonalFeatures (features : list GeoFeature)
  : list GeoFeature :=
  filter (fun f => PolygonUtils.isPolygonalShape (shapeType f)) features.

Definition getCacheKey (features : list GeoFeature) (g : Geometry)
    (excludeId : option string) : string :=
  stringify g excludeId (List.length features).

(** [cachedResult && now - lastValidationTime.current < VALIDATION_DEBOUNCE_MS] *)
Definition cacheHit (h : HookState) (cacheKey : string) (now : Z)
  : option ValidationResult :=
  match mapGet cacheKey (validationCache h) with
  | Some cachedResult =>
      if (now - lastValidationTime h <? VALIDATION_DEBOUNCE_MS)%Z
      then Some cachedResult else None
  | None => None
  end.

(** [validateNewPolygon]; [features] is the store's collection the hook was
    rendered with, [now] what [Date.now()] returns in this call. *)
Definition validateNewPolygon (features : list GeoFeature) (g : Geometry)
    (k : ShapeType) (now : Z) (h : HookState)
  : Exc (ValidationResult * HookState) :=
  if negb (PolygonUtils.isPolygonalShape k) then Ret (PolygonUtils.validOnly, h)
  else
    let cacheKey := getCacheKey features g None in
    match cacheHit h cacheKey now with
    | Some cachedResult => Ret (cachedResult, h)
    | None =>
        result <- PolygonUtils.validatePolygonOverlap g features None ;;
        Ret (result,
             mkHook (evictOldest (mapSet cacheKey result (validationCache h))) now)
    end.

Definition validateEditedPolygon (features : list GeoFeature) (g : Geometry)
    (k : ShapeType) (featureId : string) (now : Z) (h : HookState)
  : Exc (ValidationResult * HookState) :=
  if negb (PolygonUtils.isPolygonalShape k) then Ret (PolygonUtils.validOnly, h)
  else
    let cacheKey := getCacheKey features g (Some featureId) in
    match cacheHit h cacheKey now with
    | Some cachedResult => Ret (cachedResult, h)
    | None =>
        result <- PolygonUtils.validatePolygonOverlap g features (Some featureId) ;;
        Ret (result, mkHook (mapSet cacheKey result (validationCache h)) now)
    end.

End WithTurf.

(** What the callers ([handleCreated], [handleEdited], the import loop)
    commit after a valid result: [validation.trimmedGeometry] when it is
    there, the geometry they passed in otherwise. *)
Definition finalGeometry (g : Geometry) (validation : ValidationResult) : Geometry :=
  match trimmedGeometry validation with
  | Some (Some trimmed) => trimmed
  | _ => g
  end.

Definition wasTrimmed (validation : ValidationResult) : bool :=
  match trimmedGeometry validation with
  | Some (Some _) => true
  | _ => false
  end.

End OverlapValidation.

(* ------------------------------------------------------------------ *)
(** ** components/ImportButton.tsx *)

Module ImportButton.

Definition detectShapeType (g : Geometry) : option ShapeType :=
  match g with
  | Polygon _ => Some polygon
  | LineString _ => Some line
  | MultiPolygon _ => Some polygon
  | OtherGeometry _ => None
  end.

(** A GeoJSON [Feature] of the file: its geometry and properties, each
    possibly [null]. *)
Record FileFeature : Type := mkFileFeature {
  fileGeometry : option Geometry;
  fileProperties : option PartialProperties
}.

(** What the loop body draws from the environment for one feature:
    [Date.now()] inside [validateNewPolygon], [generateFeatureId()], and
    [Date.now()] for [createdAt]. *)
Record Draw : Type := mkDraw {
  validationNow : Z;
  newId : string;
  createdNow : Z
}.

Record LoopState : Type := mkLoop {
  importedFeatures : list GeoFeature;
  skippedCount : nat;
  trimmedCount : nat;
  hook : OverlapValidation.HookState
}.

(** [existingName || `Imported-${shapeType}-${importedFeatures.length + 1}`] *)
Definition importName (props : option PartialProperties) (k : ShapeType)
    (imported : nat) : string :=
  let fallback :=
    ("Imported-" ++ shapeTypeString k ++ "-"
       ++ FeatureStore.natToString (imported + 1))%string in
  match props with
  | Some p =>
      match part_name p with
      | Some EmptyString | None => fallback
      | Some existingName => existingName
      end
  | None => fallback
  end.

Definition skip (st : LoopState) : LoopState :=
  mkLoop (importedFeatures st) (S (skippedCount st)) (trimmedCount st) (hook st).

Section WithTurf.
Context {turf : Turf}.
Variable stringify : Geometry -> option string -> nat -> string.

(** [features] and [getFeatureCount] both read the store's collection. *)
Variable store : FeatureStore.FeatureState.

(** The body of [for (const feature of featuresToImport)]. *)
Definition importOne (st : LoopState) (feature : FileFeature) (d : Draw)
  : Exc LoopState :=
  match fileGeometry feature with
  | None => Ret (skip st)
  | Some g =>
      match detectShapeType g with
      | None => Ret (skip st)
      | Some k =>
          let currentCount :=
            FeatureStore.getFeatureCount k store
            + List.length (filter (FeatureStore.ofKind k) (importedFeatures st)) in
          if shapeLimits k <=? currentCount then Ret (skip st)
          else
            let commit (final : Geometry) (trimmed : nat)
                       (h : OverlapValidation.HookState) :=
              let name :=
                importName (fileProperties feature) k
                  (List.length (importedFeatures st)) in
              let base := mkProps (newId d) k (createdNow d) (Some name)
                                  None None None None in
              let props :=
                match fileProperties feature with
                | Some p => spread base p
                | None => base
                end in
              mkLoop (importedFeatures st ++ [mkFeature (newId d) final k props])
                     (skippedCount st) trimmed h in
            if PolygonUtils.isPolygonalShape k then
              r <- OverlapValidation.validateNewPolygon stringify
                     (FeatureStore.features store) g k (validationNow d) (hook st) ;;
              let (validation, h) := r in
              if negb (isValid validation) then
                Ret (mkLoop (importedFeatures st) (S (skippedCount st))
                            (trimmedCount st) h)
              else
                match trimmedGeometry validation with
                | Some (Some trimmed) => Ret (commit trimmed (S (trimmedCount st)) h)
                | _ => Ret (commit g (trimmedCount st) h)
                end
            else Ret (commit g (trimmedCount st) (hook st))
      end
  end.

(** The loop; beside its result, the hook as the loop left it (an exception
    does not undo what earlier rounds wrote to the cache). *)
Fixpoint importLoop (st : LoopState) (fs : list (FileFeature * Draw))
  : Exc LoopState * OverlapValidation.HookState :=
  match fs with
  | [] => (Ret st, hook st)
  | (feature, d) :: rest =>
      match importOne st feature d with
      | Ret st' => importLoop st' rest
      | Throw e => (Throw e, hook st)
      end
  end.

End WithTurf.

(** [JSON.parse(content)] by its [type]: a collection, one feature, some
    other JSON value, or text that does not parse. *)
Inductive FileContent : Type :=
| FeatureCollection (fs : list FileFeature)
| Feature (f : FileFeature)
| OtherJson
| NotJson.

Definition msgParseFailed : string :=
  "Failed to parse GeoJSON file. Please check the format.".
Definition msgNoFeatures : string := "No valid features found to import.".
Definition msgInvalidFormat : string :=
  "Invalid GeoJSON format. Expected Feature or FeatureCollection.".

Definition importMessage (imported skipped trimmed : nat) : string :=
  let n := FeatureStore.natToString in
  ("Successfully imported " ++ n imported ++ " feature(s)."
     ++ (if (0 <? trimmed)%nat
         then " " ++ n trimmed ++ " were trimmed to avoid overlaps." else "")
     ++ (if (0 <? skipped)%nat then " " ++ n skipped ++ " were skipped." else ""))%string.

Section WithTurf.
Context {turf : Turf}.
Variable stringify : Geometry -> option string -> nat -> string.

(** [reader.onload]: the store and the hook after the file was handled.
    [draws i] feeds the loop's round for the [i]-th feature of the file;
    [newToastId] is the id of the one toast every path ends with. *)
Definition onload (content : FileContent) (draws : nat -> Draw)
    (newToastId : string) (h : OverlapValidation.HookState)
    (store : FeatureStore.FeatureState)
  : FeatureStore.FeatureState * OverlapValidation.HookState :=
  let toast (t : FeatureStore.ToastType) (msg : string) :=
    FeatureStore.addToast t msg 4000%Z newToastId in
  let load (featuresToImport : list FileFeature) :=
    match importLoop stringify store (mkLoop [] 0 0 h)
            (combine featuresToImport
                     (map draws (seq 0 (List.length featuresToImport)))) with
    | (Throw _, h') =>
        (toast FeatureStore.toastError
           msgParseFailed store, h')
    | (Ret st, _) =>
        match importedFeatures st with
        | [] =>
            (toast FeatureStore.toastWarning
               msgNoFeatures store, hook st)
        | _ :: _ =>
            (toast FeatureStore.toastSuccess
               (importMessage (List.length (importedFeatures st))
                              (skippedCount st) (trimmedCount st))
               (FeatureStore.importFeatures (importedFeatures st) store),
             hook st)
        end
    end in
  match content with
  | FeatureCollection fs => load fs
  | Feature f => load [f]
  | OtherJson =>
      (toast FeatureStore.toastError
         msgInvalidFormat store, h)
  | NotJson =>
      (toast FeatureStore.toastError
         msgParseFailed store, h)
  end.

End WithTurf.

End ImportButton.

(* ------------------------------------------------------------------ *)
(** ** A small Turf to evaluate with

    Regions made of the three unit squares [[k, k+1] x [0, 1]], [k = 0, 1, 2]:
    a [Polygon] that is one of the squares, or a [MultiPolygon] of such
    squares.  On these the clipping is exact: intersection and difference
    are taken square by square, the area is the number of squares.  Any
    other geometry covers none of the squares.  The constructors follow
    [@turf/helpers]: [polygon] raises on a ring of fewer than four positions
    and on a ring whose last position differs from its first; [multiPolygon]
    checks nothing; [lineString] raises on fewer than two positions. *)

Module Strip.

Fixpoint positionSame (a b : Position) : bool :=
  match a, b with
  | [], [] => true
  | x :: a', y :: b' => PrimFloat.eqb x y && positionSame a' b'
  | _, _ => false
  end.

Fixpoint ringSame (a b : list Position) : bool :=
  match a, b with
  | [], [] => true
  | p :: a', q :: b' => positionSame p q && ringSame a' b'
  | _, _ => false
  end.

Definition unitSquare (k : float) : list Position :=
  [[k; 0]; [k + 1; 0]; [k + 1; 1]; [k; 1]; [k; 0]]%float.

Definition isSquare (k : float) (rings : list (list Position)) : bool :=
  match rings with
  | [ring] => ringSame ring (unitSquare k)
  | _ => false
  end.

Definition covers (g : Geometry) (k : float) : bool :=
  match g with
  | Polygon c => isSquare k c
  | MultiPolygon cs => existsb (isSquare k) cs
  | _ => false
  end.

(** Which of the three squares a region is made of. *)
Definition Cells : Type := (bool * bool * bool)%type.

Definition cells (g : Geometry) : Cells :=
  (covers g 0%float, covers g 1%float, covers g 2%float).

Definition mosaic (c : Cells) : Geometry :=
  let '(c0, c1, c2) := c in
  MultiPolygon
    ((if c0 then [[unitSquare 0%float]] else [])
       ++ (if c1 then [[unitSquare 1%float]] else [])
       ++ (if c2 then [[unitSquare 2%float]] else [])).

Definition both (a b : Cells) : Cells :=
  let '(a0, a1, a2) := a in
  let '(b0, b1, b2) := b in
  (a0 && b0, a1 && b1, a2 && b2).

Definition without (a b : Cells) : Cells :=
  let '(a0, a1, a2) := a in
  let '(b0, b1, b2) := b in
  (a0 && negb b0, a1 && negb b1, a2 && negb b2).

Definition region (c : Cells) : Exc (option Geometry) :=
  match c with
  | (false, false, false) => Ret None
  | _ => Ret (Some (mosaic c))
  end.

Definition count (c : Cells) : float :=
  let '(c0, c1, c2) := c in
  ((if c0 then 1 else 0) + (if c1 then 1 else 0) + (if c2 then 1 else 0))%float.

Definition ringOk (ring : list Position) : Exc unit :=
  if List.length ring <? 4
  then Throw "Each LinearRing of a Polygon must have 4 or more Positions."
  else if positionSame (last ring []) (hd [] ring) then Ret tt
  else Throw "First and last Position are not equivalent.".

Fixpoint ringsOk (rings : list (list Position)) : Exc unit :=
  match rings with
  | [] => Ret tt
  | ring :: rest => _ <- ringOk ring ;; ringsOk rest
  end.

Definition polygonOf (c : list (list Position)) : Exc Geometry :=
  _ <- ringsOk c ;; Ret (Polygon c).

Definition lineLength (c : list Position) : Exc float :=
  if List.length c <? 2
  then Throw "coordinates must be an array of two or more positions"
  else Ret (fold_left (fun acc _ => (acc + 1)%float) (tl c) 0%float).

#[export] Instance turf : Turf := {
  PolyFeature := Geometry;
  feature_geometry := fun g => g;
  turf_polygon := polygonOf;
  turf_multiPolygon := fun c => Ret (MultiPolygon c);
  turf_intersect := fun a b => region (both (cells a) (cells b));
  turf_difference := fun a b => region (without (cells a) (cells b));
  turf_area := fun g => count (cells g);
  turf_lineString_length := lineLength
}.

Definition square (k : float) : Geometry := Polygon [unitSquare k].

(** The same regions over a clipping kernel that gives up on an operand
    made of none of the squares. *)
Definition empty (c : Cells) : bool :=
  match c with
  | (false, false, false) => true
  | _ => false
  end.

Definition clipOrRaise (op : Cells -> Cells -> Cells) (a b : Geometry)
  : Exc (option Geometry) :=
  if empty (cells a) || empty (cells b)
  then Throw "Unable to complete output ring"
  else region (op (cells a) (cells b)).

Definition brittle : Turf := {|
  PolyFeature := Geometry;
  feature_geometry := fun g => g;
  turf_polygon := polygonOf;
  turf_multiPolygon := fun c => Ret (MultiPolygon c);
  turf_intersect := clipOrRaise both;
  turf_difference := clipOrRaise without;
  turf_area := fun g => count (cells g);
  turf_lineString_length := lineLength
|}.

End Strip.

(* ------------------------------------------------------------------ *)
(** ** A Turf of plots of unequal area

    Three rectangles [[k, k+1] x [0, h_k]], [k = 0, 1, 2], of heights
    [h_0], [h_1], [h_2].  The clipping is exact on the coordinates, plot by
    plot, as on the squares of [Strip]; the area of a region is the sum of
    the areas of its plots, and the sum is taken in doubles, as the numbers
    [turf.area] returns are. *)

Module Plots.

Definition Heights : Type := (float * float * float)%type.

Section WithHeights.
Variable heights : Heights.

Definition plot (k h : float) : list Position :=
  [[k; 0]; [k + 1; 0]; [k + 1; h]; [k; h]; [k; 0]]%float.

Definition isPlot (k h : float) (rings : list (list Position)) : bool :=
  match rings with
  | [ring] => Strip.ringSame ring (plot k h)
  | _ => false
  end.

Definition covers (g : Geometry) (k h : float) : bool :=
  match g with
  | Polygon c => isPlot k h c
  | MultiPolygon cs => existsb (isPlot k h) cs
  | _ => false
  end.

Definition cells (g : Geometry) : Strip.Cells :=
  let '(h0, h1, h2) := heights in
  (covers g 0%float h0, covers g 1%float h1, covers g 2%float h2).

Definition mosaic (c : Strip.Cells) : Geometry :=
  let '(h0, h1, h2) := heights in
  let '(c0, c1, c2) := c in
  MultiPolygon
    ((if c0 then [[plot 0%float h0]] else [])
       ++ (if c1 then [[plot 1%float h1]] else [])
       ++ (if c2 then [[plot 2%float h2]] else [])).

Definition region (c : Strip.Cells) : Exc (option Geometry) :=
  match c with
  | (false, false, false) => Ret None
  | _ => Ret (Some (mosaic c))
  end.

(** Each plot is one unit wide: its area is its height. *)
Definition measure (c : Strip.Cells) : float :=
  let '(h0, h1, h2) := heights in
  let '(c0, c1, c2) := c in
  ((if c0 then h0 else 0) + (if c1 then h1 else 0) + (if c2 then h2 else 0))%float.

Definition turf : Turf := {|
  PolyFeature := Geometry;
  feature_geometry := fun g => g;
  turf_polygon := Strip.polygonOf;
  turf_multiPolygon := fun c => Ret (MultiPolygon c);
  turf_intersect := fun a b => region (Strip.both (cells a) (cells b));
  turf_difference := fun a b => region (Strip.without (cells a) (cells b));
  turf_area := fun g => measure (cells g);
  turf_lineString_length := Strip.lineLength
|}.

End WithHeights.

(** A plot of area [2^53] beside two of area 1: the sum [2^53 + 1] is not a
    double and rounds to [2^53]. *)
Definition tall : Heights := (0x1p+53, 1, 1)%float.

(** A plot of no height, a ring that encloses no area, beside two of
    area 1. *)
Definition flat : Heights := (0, 1, 1)%float.

(** Over [tall]: a candidate on the plots 0 and 1, a committed polygon on
    the plots 1 and 2, the plot 1 they share, the plot 0 that is left. *)
Definition candidate : Geometry := mosaic tall (true, true, false).
Definition neighbour : Geometry := mosaic tall (false, true, true).
Definition shared : Geometry := mosaic tall (false, true, false).
Definition remainder : Geometry := mosaic tall (true, false, false).

(** Over [flat]: a candidate that is the plot 0, of no area, and a
    committed polygon on the plots 0 and 1. *)
Definition sliver : Geometry := mosaic flat (true, false, false).
Definition host : Geometry := mosaic flat (true, true, false).

End Plots.

(* ------------------------------------------------------------------ *)
(** ** Malformed coordinate arrays

    The three defects the specification names: a coordinate that is [NaN],
    a ring of fewer than three points, a ring that does not end where it
    starts. *)

Module Malformed.

Definition isNaN (x : float) : bool := negb (PrimFloat.eqb x x).

Definition ringHasNaN (ring : list Position) : bool :=
  existsb (existsb isNaN) ring.

Definition ringTooShort (ring : list Position) : bool := List.length ring <? 3.

Definition ringOpen (ring : list Position) : bool :=
  negb (Strip.positionSame (hd [] ring) (last ring [])).

Definition badRing (ring : list Position) : bool :=
  ringHasNaN ring || ringTooShort ring || ringOpen ring.

Definition malformed (g : Geometry) : bool :=
  match g with
  | Polygon c => existsb badRing c
  | MultiPolygon cs => existsb (existsb badRing) cs
  | LineString c => existsb (existsb isNaN) c
  | OtherGeometry _ => false
  end.

End Malformed.

(* ------------------------------------------------------------------ *)
(** ** The loop of [validatePolygonOverlap], part way

    [advance existing currentPolygon wasTrimmed]: the loop's two variables
    after it went through all of [existing] without returning; [None] when
    one of the rounds returned. *)

Module Loop.
Import PolygonUtils.

Section WithTurf.
Context {turf : Turf}.

Fixpoint advance (existing : list (string * option PolyFeature))
    (currentPolygon : PolyFeature) (wasTrimmed : bool)
  : option (PolyFeature * bool) :=
  match existing with
  | [] => Some (currentPolygon, wasTrimmed)
  | (_, None) :: rest => advance rest currentPolygon wasTrimmed
  | (_, Some existingPolygon) :: rest =>
      match turf_intersect currentPolygon existingPolygon with
      | Throw _ => None
      | Ret None => advance rest currentPolygon wasTrimmed
      | Ret (Some intersection) =>
          if (threshold <? turf_area intersection / turf_area currentPolygon)%float
          then None
          else if (threshold <? turf_area intersection / turf_area existingPolygon)%float
          then None
          else
            match turf_difference currentPolygon existingPolygon with
            | Ret (Some difference) => advance rest difference true
            | _ => None
            end
      end
  end.

(** The result of a loop that ran to its end. *)
Definition accepted (currentPolygon : PolyFeature) (wasTrimmed : bool)
  : ValidationResult :=
  mkValidation true
    (Some (if wasTrimmed then Some (feature_geometry currentPolygon) else None))
    None.

Definition polygonalGeometry (f : GeoFeature) : bool :=
  match geometry f with
  | Polygon _ | MultiPolygon _ => true
  | _ => false
  end.

(** A committed feature takes part in the validation: it is of a polygonal
    kind, it is not the excluded one, and its geometry gives a polygon. *)
Definition takesPart (excludeId : option string) (f : GeoFeature) : bool :=
  isPolygonalShape (shapeType f) && notExcluded excludeId f
  && polygonalGeometry f.

End WithTurf.

(** What the clipping of an exact geometry kernel satisfies: taking an
    overlapping region away leaves strictly less area, the difference does
    not meet what was taken away, and taking something away from a region
    never makes it meet what it did not meet before. *)
Class TurfLaws (turf : Turf) : Prop := {
  difference_shrinks : forall a b i d,
    turf_intersect a b = Ret (Some i) ->
    turf_difference a b = Ret (Some d) ->
    (turf_area d <? turf_area a)%float = true;
  difference_disjoint : forall a b d,
    turf_difference a b = Ret (Some d) ->
    turf_intersect d b = Ret None;
  difference_keeps_disjoint : forall a b e d,
    turf_intersect a e = Ret None ->
    turf_difference a b = Ret (Some d) ->
    turf_intersect d e = Ret None
}.

End Loop.

(* ------------------------------------------------------------------ *)
(** ** Concrete runs of the store, over the small Turf *)

Module Scenario.
Import FeatureStore.

(** A committed feature with nothing but the mandatory properties. *)
Definition featureOf (x : string) (g : Geometry) (k : ShapeType) : GeoFeature :=
  mkFeature x g k (mkProps x k 0%Z None None None None None).

(** The squares 0 and 1, the squares 1 and 2, the square 2 alone. *)
Definition squares01 : Geometry := Strip.mosaic (true, true, false).
Definition squares12 : Geometry := Strip.mosaic (false, true, true).
Definition squares2 : Geometry := Strip.mosaic (false, false, true).

(** Three malformed candidates: a closed ring with a [NaN] vertex, a
    multi-polygon whose ring is open, a ring of two points. *)
Definition nanRing : Geometry :=
  Polygon [[[0; 0]; [nan; 1]; [1; 1]; [0; 0]]]%float.
Definition openRing : Geometry :=
  MultiPolygon [[[[0; 0]; [1; 0]; [1; 1]; [0; 1]]]]%float.
Definition shortRing : Geometry := Polygon [[[0; 0]; [1; 1]]]%float.

(** A well-formed triangle, none of the three squares. *)
Definition triangle : Geometry :=
  Polygon [[[0; 0]; [5; 0]; [5; 5]; [0; 0]]]%float.

(** The [i]-th call [addFeature(square, 'polygon')] of a session. *)
Definition addPolygon (i : nat) : Action :=
  AddFeature (Strip.square 0%float) polygon noProps
    ("toast-" ++ natToString i)%string ("feature-" ++ natToString i)%string
    (Z.of_nat i).

Definition onePolygon : FeatureState :=
  run (turf := Strip.turf) initialState [addPolygon 1].

Definition twoPolygons : FeatureState :=
  run (turf := Strip.turf) (rehydrate [] zeroCounts) [addPolygon 1; addPolygon 2].

Definition tenPolygons : FeatureState :=
  run (turf := Strip.turf) initialState (map addPolygon (seq 1 10)).

(** Ten polygons drawn, then [clearFeatures] 41 times: 51 mutating calls. *)
Definition fiftyOneCalls : list Action :=
  map addPolygon (seq 1 10) ++ repeat ClearFeatures 41.

(** A file that holds the unit square at the origin twice, and the store
    after it was imported into the empty store. *)
Definition squareTwice : ImportButton.FileContent :=
  ImportButton.FeatureCollection
    [ImportButton.mkFileFeature (Some (Strip.square 0%float)) None;
     ImportButton.mkFileFeature (Some (Strip.square 0%float)) None].

Definition afterImport (stringify : Geometry -> option string -> nat -> string)
    (draws : nat -> ImportButton.Draw) (newToastId : string) : FeatureState :=
  fst (ImportButton.onload (turf := Strip.turf) stringify squareTwice draws
         newToastId OverlapValidation.emptyHook initialState).

End Scenario.

(* ------------------------------------------------------------------ *)
(** ** What runs of the store keep *)

Module StoreInv.
Import FeatureStore.

(** No kind has more features than its cap. *)
Definition withinCaps (fs : list GeoFeature) : Prop :=
  forall k, List.length (filter (ofKind k) fs) <= shapeLimits k.

(** The collection and every snapshot of the history are within the caps. *)
Definition capsKept (s : FeatureState) : Prop :=
  withinCaps (features s)
  /\ withinCaps (present (history s))
  /\ Forall withinCaps (past (history s))
  /\ Forall withinCaps (future (history s)).

(** The two calls that write a collection handed to them. *)
Definition bulk (a : Action) : bool :=
  match a with
  | SetFeatures _ | ImportFeatures _ => true
  | _ => false
  end.

(** Each counter is the number of features of its kind. *)
Definition countsAgree (s : FeatureState) : Prop :=
  forall k, getCount (shapeCounts s) k = getFeatureCount k s.

(** The same ids, kinds and names in the same order, and the same counters
    and selection. *)
Definition sameFeatures (s s' : FeatureState) : Prop :=
  map id (features s') = map id (features s)
  /\ map shapeType (features s') = map shapeType (features s)
  /\ map (fun f => prop_name (properties f)) (features s')
     = map (fun f => prop_name (properties f)) (features s)
  /\ shapeCounts s' = shapeCounts s
  /\ selectedFeatureId s' = selectedFeatureId s.

(** The selection is [null] or the id of a feature of the collection. *)
Definition selectionKnown (s : FeatureState) : Prop :=
  match selectedFeatureId s with
  | None => True
  | Some x => existsb (hasId x) (features s) = true
  end.

(** The calls after which a known selection is still known: all but [undo],
    [redo], [setFeatures], and [selectFeature] of an id the collection does
    not hold. *)
Definition keepsSelection (s : FeatureState) (a : Action) : bool :=
  match a with
  | Undo | Redo | SetFeatures _ => false
  | SelectFeature (Some x) => existsb (hasId x) (features s)
  | _ => true
  end.

(** The calls that change the collection without writing the counters. *)
Definition skipsCounters (a : Action) : bool :=
  match a with
  | RemoveFeature _ | Undo | Redo | SetFeatures _ | ImportFeatures _ => true
  | _ => false
  end.

Section Run.
Context {turf : Turf}.

Fixpoint allKeepSelection (s : FeatureState) (acts : list Action) : bool :=
  match acts with
  | [] => true
  | a :: rest => keepsSelection s a && allKeepSelection (step s a) rest
  end.

End Run.

End StoreInv.

(* ------------------------------------------------------------------ *)
(** ** What the validation cache keeps *)

Module HookInv.
Import OverlapValidation.

(** At most 100 entries, none under the empty key. *)
Definition cacheOk (h : HookState) : Prop :=
  List.length (validationCache h) <= 100
  /\ Forall (fun kv => fst kv <> EmptyString) (validationCache h).

(** A cache key to evaluate with: the feature count and the excluded id. *)
Definition keyOf (g : Geometry) (excludeId : option string) (n : nat) : string :=
  ("n=" ++ FeatureStore.natToString n ++ ";x="
     ++ match excludeId with Some x => x | None => "" end)%string.

End HookInv.

(* ------------------------------------------------------------------ *)
(** ** Concrete imports, over the small Turf *)

Module Cases.
Import ImportButton.

Definition draws (i : nat) : Draw :=
  mkDraw (Z.of_nat (1000 * i))
         ("imported-" ++ FeatureStore.natToString i)%string (Z.of_nat i).

(** A unit square without properties; a line that an export of a rectangle
    named "old-7" would have its properties from; a point; a feature with
    no geometry. *)
Definition fileSquare : FileFeature :=
  mkFileFeature (Some (Strip.square 0%float)) None.
Definition fileLine : FileFeature :=
  mkFileFeature (Some (LineString [[0; 0]; [1; 1]]%float))
    (Some (mkPartial (Some "old-7"%string) (Some rectangle) (Some 7%Z)
                     None None None None None)).
Definition filePoint : FileFeature :=
  mkFileFeature (Some (OtherGeometry "Point")) None.
Definition fileNull : FileFeature := mkFileFeature None None.

Definition start : LoopState := mkLoop [] 0 0 OverlapValidation.emptyHook.

Definition mixedRounds : list (FileFeature * Draw) :=
  combine [fileSquare; fileLine; filePoint; fileNull] (map draws (seq 0 4)).

Definition stateOr (r : Exc LoopState) (dflt : LoopState) : LoopState :=
  match r with Ret st => st | Throw _ => dflt end.

(** The loop's state after the four features, on the empty store. *)
Definition mixedEnd : LoopState :=
  stateOr (fst (importLoop (turf := Strip.turf) HookInv.keyOf
                  FeatureStore.initialState start mixedRounds)) start.

(** The loop's state after the line alone. *)
Definition lineEnd : LoopState :=
  stateOr (importOne (turf := Strip.turf) HookInv.keyOf
             FeatureStore.initialState start fileLine (draws 0)) start.

End Cases.

(* ------------------------------------------------------------------ *)
(** ** utils/geojson.ts *)

Module Geojson.

(** [const [lng, lat] = coord]: an element the array does not have is
    [undefined], whose [typeof] is not ['number']. *)
Definition isValidCoordinate (coord : Position) : bool :=
  match coord with
  | lng :: lat :: _ =>
      (-180 <=? lng)%float && (lng <=? 180)%float
      && (-90 <=? lat)%float && (lat <=? 90)%float
  | _ => false
  end.

End Geojson.

(* ------------------------------------------------------------------ *)
(** ** hooks/useDrawing.ts *)

(** [validation.error] *)
Definition validationError (validation : ValidationResult) : option string :=
  error validation.

Module Drawing.
Import FeatureStore.

Record LatLng : Type := mkLatLng { lat : float; lng : float }.

(** A Leaflet layer, by its class, with what [L.Util.stamp] gives for it.
    [L.Rectangle] extends [L.Polygon], which extends [L.Polyline];
    [L.Circle] does not.  For a polygon or rectangle, [ring] is
    [getLatLngs()[0]]. *)
Inductive Layer : Type :=
| LCircle (stamp : nat) (center : LatLng) (radius : float)
| LRectangle (stamp : nat) (ring : list LatLng)
| LPolygon (stamp : nat) (ring : list LatLng)
| LPolyline (stamp : nat) (latLngs : list LatLng)
| LMarker (stamp : nat).

Definition stampOf (layer : Layer) : nat :=
  match layer with
  | LCircle n _ _ | LRectangle n _ | LPolygon n _ | LPolyline n _ | LMarker n => n
  end.

Definition mapLayerTypeToShapeType (layerType : string) : ShapeType :=
  if String.eqb layerType "polygon" then polygon
  else if String.eqb layerType "rectangle" then rectangle
  else if String.eqb layerType "circle" then circle
  else if String.eqb layerType "polyline" then line
  else polygon.

Definition CIRCLE_SEGMENTS : nat := 64.

Definition toPosition (ll : LatLng) : Position := [lng ll; lat ll].

(** [coordinates.push(coordinates[0])] when there is a first one. *)
Definition closeRing (coordinates : list Position) : list Position :=
  match coordinates with
  | [] => []
  | first :: _ => coordinates ++ [first]
  end.

Section WithCircle.

(** [turf.circle(center, radius, { steps, units: 'kilometers' }).geometry] *)
Variable turf_circle : Position -> float -> nat -> Geometry.

Definition circleToPolygon (center : Position) (radiusInMeters : float)
  : Geometry :=
  turf_circle center (radiusInMeters / 1000)%float CIRCLE_SEGMENTS.

Definition extractGeometryFromLayer (layer : Layer) (layerType : string)
  : option (Geometry * PartialProperties) :=
  match layer with
  | LCircle _ center radius =>
      if String.eqb layerType "circle" then
        let centerPosition := toPosition center in
        Some (circleToPolygon centerPosition radius,
              mkPartial None None None None None None
                        (Some radius) (Some centerPosition))
      else None
  | LRectangle _ ring | LPolygon _ ring =>
      Some (Polygon [closeRing (map toPosition ring)], noProps)
  | LPolyline _ latLngs => Some (LineString (map toPosition latLngs), noProps)
  | LMarker _ => None
  end.

End WithCircle.

(** [Map<number, string>] *)
Definition LayerMap : Type := list (nat * string).

Fixpoint layerGet (key : nat) (m : LayerMap) : option string :=
  match m with
  | [] => None
  | (k, v) :: rest => if Nat.eqb k key then Some v else layerGet key rest
  end.

Fixpoint layerSet (key : nat) (v : string) (m : LayerMap) : LayerMap :=
  match m with
  | [] => [(key, v)]
  | (k, w) :: rest =>
      if Nat.eqb k key then (k, v) :: rest else (k, w) :: layerSet key v rest
  end.

Fixpoint layerDelete (key : nat) (m : LayerMap) : LayerMap :=
  match m with
  | [] => []
  | (k, w) :: rest =>
      if Nat.eqb k key then rest else (k, w) :: layerDelete key rest
  end.

(** What the handlers read and write: the store, the refs of the validation
    hook, the layer-to-feature map, and the layers of the feature group
    ([None]: the ref is not set). *)
Record World : Type := mkWorld {
  store : FeatureState;
  hook : OverlapValidation.HookState;
  layerToFeatureMap : LayerMap;
  group : option (list nat)
}.

(** [if (featureGroupRef.current) featureGroupRef.current.removeLayer(layer)] *)
Definition removeLayer (layer : Layer) (g : option (list nat)) : option (list nat) :=
  match g with
  | Some layers => Some (filter (fun n => negb (Nat.eqb n (stampOf layer))) layers)
  | None => None
  end.

(** What one [handleCreated] draws from the environment: the id of the toast
    it adds itself, the id of the toast [addFeature] adds at the cap,
    [generateFeatureId()], and [Date.now()] in the validation and in
    [addFeature]. *)
Record CreateDraw : Type := mkCreateDraw {
  toastDraw : string;
  limitToastDraw : string;
  idDraw : string;
  validationClock : Z;
  createdClock : Z
}.

(** [text || fallback] *)
Definition orElse (text : option string) (fallback : string) : string :=
  match text with
  | Some EmptyString | None => fallback
  | Some t => t
  end.

Section WithTurf.
Context {turf : Turf}.
Variable turf_circle : Position -> float -> nat -> Geometry.
Variable stringify : Geometry -> option string -> nat -> string.

(** The tail of [handleCreated], from the call of [addFeature] on; with the
    world, the message of an exception that left the handler. *)
Definition commitCreated (layer : Layer) (k : ShapeType) (final : Geometry)
    (additionalProps : PartialProperties) (trimmed : bool) (d : CreateDraw)
    (w : World) : World * option string :=
  match addFeature final k additionalProps (limitToastDraw d) (idDraw d)
                   (createdClock d) (store w) with
  | Throw e => (w, Some e)
  | Ret (None, s') | Ret (Some EmptyString, s') =>
      (mkWorld s' (hook w) (layerToFeatureMap w) (group w), None)
  | Ret (Some featureId, s') =>
      let s1 := setError None s' in
      let s2 :=
        if trimmed
        then addToast toastWarning
               "Shape was auto-trimmed to avoid overlap with existing polygons."
               4000%Z (toastDraw d) s1
        else addToast toastSuccess
               (capitalize (shapeTypeString k) ++ " created successfully.")%string
               4000%Z (toastDraw d) s1 in
      (mkWorld s2 (hook w)
         (layerSet (stampOf layer) featureId (layerToFeatureMap w)) (group w),
       None)
  end.

(** [handleCreated].  The hook validates against the collection it was
    rendered with, which is the store's. *)
Definition handleCreated (layer : Layer) (layerType : string) (d : CreateDraw)
    (w : World) : World * option string :=
  let k := mapLayerTypeToShapeType layerType in
  if negb (canAddFeature k (store w)) then
    let s1 :=
      setError (Some ("Maximum limit reached for " ++ shapeTypeString k ++ "s.")%string)
               (store w) in
    let s2 :=
      addToast toastError
        ("Limit reached: Maximum " ++ shapeTypeString k ++ "s allowed.")%string
        4000%Z (toastDraw d) s1 in
    (mkWorld s2 (hook w) (layerToFeatureMap w) (removeLayer layer (group w)), None)
  else
    match extractGeometryFromLayer turf_circle layer layerType with
    | None =>
        let s1 :=
          setError (Some "Failed to extract geometry from drawn shape."%string)
                   (store w) in
        let s2 :=
          addToast toastError "Failed to create shape. Please try again."
                   4000%Z (toastDraw d) s1 in
        (mkWorld s2 (hook w) (layerToFeatureMap w) (group w), None)
    | Some (g, additionalProps) =>
        if PolygonUtils.isPolygonalShape k then
          match OverlapValidation.validateNewPolygon stringify
                  (features (store w)) g k (validationClock d) (hook w) with
          | Throw e => (w, Some e)
          | Ret (validation, h') =>
              if negb (isValid validation) then
                let s1 :=
                  setError
                    (Some (orElse (validationError validation)
                                  "Invalid polygon placement."))
                    (store w) in
                let s2 :=
                  addToast toastError
                    (orElse (validationError validation)
                            "Cannot place polygon here due to overlap.")
                    4000%Z (toastDraw d) s1 in
                (mkWorld s2 h' (layerToFeatureMap w) (removeLayer layer (group w)),
                 None)
              else
                match trimmedGeometry validation with
                | Some (Some trimmed) =>
                    commitCreated layer k trimmed additionalProps true d
                      (mkWorld (setError None (store w)) h'
                               (layerToFeatureMap w) (group w))
                | _ =>
                    commitCreated layer k g additionalProps false d
                      (mkWorld (store w) h' (layerToFeatureMap w) (group w))
                end
          end
        else commitCreated layer k g additionalProps false d w
    end.

(** The body of [layers.eachLayer] in [handleDeleted], with the count of
    deletions so far. *)
Definition deleteOne (acc : World * nat) (layer : Layer) : World * nat :=
  let (w, deleteCount) := acc in
  match layerGet (stampOf layer) (layerToFeatureMap w) with
  | None | Some EmptyString => acc
  | Some featureId =>
      (mkWorld (removeFeature featureId (store w)) (hook w)
         (layerDelete (stampOf layer) (layerToFeatureMap w)) (group w),
       S deleteCount)
  end.

(** A feature whose id is none of [ids]. *)
Definition keptAfter (ids : list string) (f : GeoFeature) : bool :=
  negb (existsb (String.eqb (id f)) ids).

(** The ids [handleDeleted] removes, in the order of the layers. *)
Fixpoint deletedIds (layers : list Layer) (m : LayerMap) : list string :=
  match layers with
  | [] => []
  | layer :: rest =>
      match layerGet (stampOf layer) m with
      | None | Some EmptyString => deletedIds rest m
      | Some featureId =>
          featureId :: deletedIds rest (layerDelete (stampOf layer) m)
      end
  end.

Definition handleDeleted (layers : list Layer) (newToastId : string) (w : World)
  : World :=
  let (w1, deleteCount) := fold_left deleteOne layers (w, 0) in
  let s1 := setError None (store w1) in
  let s2 :=
    if 0 <? deleteCount
    then addToast toastInfo
           (natToString deleteCount ++ " shape(s) deleted.")%string
           4000%Z newToastId s1
    else s1 in
  mkWorld s2 (hook w1) (layerToFeatureMap w1) (group w1).

(** What one round of [handleEdited] draws from the environment:
    [Date.now()] in the validation and the id of the toast the round adds. *)
Record EditDraw : Type := mkEditDraw {
  editClock : Z;
  editToast : string
}.

(** The [instanceof] chain of [handleEdited]. *)
Definition layerTypeOf (layer : Layer) : string :=
  match layer with
  | LCircle _ _ _ => "circle"
  | LRectangle _ _ => "rectangle"
  | LPolygon _ _ => "polygon"
  | LPolyline _ _ | LMarker _ => "polyline"
  end.

(** [updateFeature(featureId, finalGeometry); editCount++] *)
Definition commitEdited (featureId : string) (final : Geometry) (w : World)
    (editCount : nat) : World * nat * option string :=
  match updateFeature featureId final (store w) with
  | Ret s' =>
      (mkWorld s' (hook w) (layerToFeatureMap w) (group w), S editCount, None)
  | Throw e => (w, editCount, Some e)
  end.

(** The body of [layers.eachLayer] in [handleEdited].  [rendered] is the
    collection the hook was rendered with: [validateEditedPolygon] validates
    against it in every round, while the feature is looked up in the
    store as it is now. *)
Definition editOne (rendered : list GeoFeature) (layer : Layer) (d : EditDraw)
    (w : World) (editCount : nat) : World * nat * option string :=
  match layerGet (stampOf layer) (layerToFeatureMap w) with
  | None | Some EmptyString => (w, editCount, None)
  | Some featureId =>
      match find (hasId featureId) (features (store w)) with
      | None => (w, editCount, None)
      | Some feature =>
          match extractGeometryFromLayer turf_circle layer (layerTypeOf layer) with
          | None => (w, editCount, None)
          | Some (g, _) =>
              if PolygonUtils.isPolygonalShape (shapeType feature) then
                match OverlapValidation.validateEditedPolygon stringify rendered g
                        (shapeType feature) featureId (editClock d) (hook w) with
                | Throw e => (w, editCount, Some e)
                | Ret (validation, h') =>
                    if negb (isValid validation) then
                      let s1 :=
                        setError
                          (Some (orElse (validationError validation)
                                        "Invalid edit - overlap detected."))
                          (store w) in
                      let s2 :=
                        addToast toastError
                          (orElse (validationError validation)
                                  "Edit rejected due to overlap.")
                          4000%Z (editToast d) s1 in
                      (mkWorld s2 h' (layerToFeatureMap w) (group w), editCount, None)
                    else
                      match trimmedGeometry validation with
                      | Some (Some trimmed) =>
                          commitEdited featureId trimmed
                            (mkWorld
                               (addToast toastWarning
                                  "Shape was auto-trimmed after edit." 4000%Z
                                  (editToast d) (store w))
                               h' (layerToFeatureMap w) (group w))
                            editCount
                      | _ =>
                          commitEdited featureId g
                            (mkWorld (store w) h' (layerToFeatureMap w) (group w))
                            editCount
                      end
                end
              else commitEdited featureId g w editCount
          end
      end
  end.

(** The loop of [handleEdited]; an exception ends it. *)
Fixpoint editLoop (rendered : list GeoFeature) (layers : list (Layer * EditDraw))
    (w : World) (editCount : nat) : World * nat * option string :=
  match layers with
  | [] => (w, editCount, None)
  | (layer, d) :: rest =>
      match editOne rendered layer d w editCount with
      | (w', n, None) => editLoop rendered rest w' n
      | raised => raised
      end
  end.

Definition handleEdited (layers : list (Layer * EditDraw)) (newToastId : string)
    (w : World) : World * option string :=
  match editLoop (features (store w)) layers w 0 with
  | (w', editCount, None) =>
      if 0 <? editCount then
        let s1 := setError None (store w') in
        let s2 :=
          addToast toastSuccess
            (natToString editCount ++ " shape(s) updated successfully.")%string
            4000%Z newToastId s1 in
        (mkWorld s2 (hook w') (layerToFeatureMap w') (group w'), None)
      else (w', None)
  | (w', _, Some e) => (w', Some e)
  end.

End WithTurf.

End Drawing.

(* ------------------------------------------------------------------ *)
(** ** Concrete drawings, over the small Turf *)

Module DrawCases.
Import Drawing.

(** A stand-in for [turf.circle]: the ring of the center alone. *)
Definition dot (center : Position) (radiusKm : float) (steps : nat) : Geometry :=
  Polygon [[center]].

(** The unit square [[1, 2] x [0, 1]] drawn as a rectangle, layer 11. *)
Definition rectangle1 : Layer :=
  LRectangle 11 [mkLatLng 0 1; mkLatLng 0 2; mkLatLng 1 2; mkLatLng 1 1]%float.

(** A triangle drawn as a polygon, layer 12. *)
Definition triangle : Layer :=
  LPolygon 12 [mkLatLng 0 0; mkLatLng 0 5; mkLatLng 5 5]%float.

Definition draw1 : CreateDraw :=
  mkCreateDraw "toast-a" "toast-b" "feature-r1" 5000%Z 5001%Z.

(** The store holds the square 0; the validation cache is empty. *)
Definition world1 : World :=
  mkWorld Scenario.onePolygon OverlapValidation.emptyHook [] (Some [11]).

Definition afterRectangle : World :=
  fst (handleCreated (turf := Strip.turf) dot HookInv.keyOf rectangle1
         "rectangle" draw1 world1).

End DrawCases.

(* ================================================================== *)
(** * Properties *)

Lemma ShapeType_eqb_eq (a b : ShapeType) : ShapeType_eqb a b = true <-> a = b.
Proof. destruct a, b; simpl; split; intro H; try reflexivity; discriminate H. Qed.

Lemma ShapeType_eqb_refl (a : ShapeType) : ShapeType_eqb a a = true.
Proof. destruct a; reflexivity. Qed.

(* ------------------------------------------------------------------ *)
(** ** The store *)

Module StoreProps.
Import FeatureStore.

Lemma sliceLast_length {A : Type} (n : nat) (a : list A) :
  List.length (sliceLast n a) = Nat.min n (List.length a).
Proof. unfold sliceLast. rewrite length_skipn. lia. Qed.

Lemma sliceLast_suffix {A : Type} (n : nat) (a : list A) :
  firstn (List.length a - n) a ++ sliceLast n a = a.
Proof. unfold sliceLast. apply firstn_skipn. Qed.

Lemma pushToHistory_past_length (h : HistoryState) (fs : list GeoFeature) :
  List.length (past (pushToHistory h fs))
  = Nat.min 50 (List.length (past h) + 1).
Proof.
  unfold pushToHistory. simpl. rewrite sliceLast_length, length_app. reflexivity.
Qed.

Section WithTurf.
Context {turf : Turf}.

(** Every call either leaves the collection and the history alone or ends
    with [present] being the collection. *)
Lemma step_features_present (s : FeatureState) (a : Action) :
  (features (step s a) = features s /\ history (step s a) = history s)
  \/ features (step s a) = present (history (step s a)).
Proof.
  destruct a; simpl; try (left; split; reflexivity); try (right; reflexivity).
  - unfold addFeature.
    destruct (shapeLimits k <=? _); [left; split; reflexivity|].
    destruct (calculateMetadata g k); simpl; [right; reflexivity | left; split; reflexivity].
  - unfold updateFeature.
    destruct (find (hasId x) (features s)); [|left; split; reflexivity].
    destruct (calculateMetadata g _); simpl; [right; reflexivity | left; split; reflexivity].
  - unfold undo. destruct (past (history s)); [left; split; reflexivity | right; reflexivity].
  - unfold redo. destruct (future (history s)); [left; split; reflexivity | right; reflexivity].
Qed.

Lemma settled_step (s : FeatureState) (a : Action) :
  settled s -> settled (step s a).
Proof.
  intros Hs. destruct (step_features_present s a) as [[Hf Hh] | Hp].
  - unfold settled. rewrite Hf, Hh. exact Hs.
  - right. exact Hp.
Qed.

Lemma settled_run (acts : list Action) (s : FeatureState) :
  settled s -> settled (run s acts).
Proof.
  revert s. induction acts as [|a acts IH]; intros s Hs; simpl.
  - exact Hs.
  - apply IH, settled_step, Hs.
Qed.

Lemma reachable_settled (s : FeatureState) : reachable s -> settled s.
Proof.
  intros (fs & cs & acts & ->). apply settled_run. left. split; reflexivity.
Qed.

Lemma undo_redo_settled (s : FeatureState) :
  past (history s) <> [] -> features s = present (history s) ->
  redo (undo s) = s.
Proof.
  intros Hpast Hpres. unfold undo.
  destruct (past (history s)) as [|p0 ps] eqn:E; [congruence|].
  assert (R : removelast (p0 :: ps) ++ [last (p0 :: ps) p0] = p0 :: ps)
    by (symmetry; apply app_removelast_last; discriminate).
  unfold redo. simpl. simpl in R. rewrite R.
  destruct s as [fs sel err ts [pa pr fu] cs]. simpl in *. subst. reflexivity.
Qed.

(** C10. In every state the store can reach with a non-empty [past], [undo]
    followed by [redo] gives the state back: the features, [history.past],
    [history.present], [history.future] and every other field are what they
    were before the [undo]. *)
Theorem undo_then_redo_restores (s : FeatureState) :
  reachable s -> past (history s) <> [] -> redo (undo s) = s.
Proof.
  intros Hr Hpast. apply undo_redo_settled; [exact Hpast|].
  destruct (reachable_settled s Hr) as [[Hp _] | Hp]; [contradiction | exact Hp].
Qed.

Lemma mutates_pushes (s : FeatureState) (a : Action) :
  mutates s a = true ->
  history (step s a) = pushToHistory (history s) (features (step s a)).
Proof.
  destruct a; simpl; try discriminate; try reflexivity.
  - unfold addFeature.
    destruct (shapeLimits k <=? _); [discriminate|].
    destruct (calculateMetadata g k); simpl; [reflexivity | discriminate].
  - unfold updateFeature.
    destruct (find (hasId x) (features s)); [|discriminate].
    destruct (calculateMetadata g _); simpl; [reflexivity | discriminate].
Qed.

Lemma allMutate_past_length (acts : list Action) (s : FeatureState) :
  allMutate s acts = true -> acts <> [] ->
  List.length (past (history (run s acts)))
  = Nat.min 50 (List.length (past (history s)) + List.length acts).
Proof.
  revert s. induction acts as [|a acts IH]; intros s Hall Hne; [congruence|].
  simpl in Hall. apply andb_prop in Hall as [Ha Hrest].
  pose proof (mutates_pushes s a Ha) as Hh.
  assert (H1 : List.length (past (history (step s a)))
               = Nat.min 50 (List.length (past (history s)) + 1))
    by (rewrite Hh; apply pushToHistory_past_length).
  destruct acts as [|b acts'].
  - simpl. exact H1.
  - change (run s (a :: b :: acts')) with (run (step s a) (b :: acts')).
    rewrite (IH (step s a) Hrest) by discriminate.
    rewrite H1. simpl List.length. lia.
Qed.

(** C4. A mutating call ([addFeature] that succeeds, [updateFeature] of a
    known id, [removeFeature], [clearFeatures], [setFeatures],
    [importFeatures]) leaves [past] as the last 50 entries of the old [past]
    followed by the old [present] (what is dropped is dropped from the old
    end), and an empty [future]; [undo] with something to undo puts the
    collection in front of [future] and [redo] only takes the first entry
    off it; [past] never holds more than 50 entries after a mutating call,
    and holds exactly 50 after more than 50 mutating calls in a row. *)
Theorem history_push_and_bound (s : FeatureState) :
  (forall a, mutates s a = true ->
     past (history (step s a))
       = sliceLast MAX_HISTORY_LENGTH (past (history s) ++ [present (history s)])
     /\ (exists evicted,
           past (history s) ++ [present (history s)]
           = evicted ++ past (history (step s a)))
     /\ future (history (step s a)) = []
     /\ List.length (past (history (step s a))) <= MAX_HISTORY_LENGTH)
  /\ (past (history s) <> [] ->
        future (history (undo s)) = features s :: future (history s))
  /\ future (history (redo s)) = tl (future (history s))
  /\ (forall acts, allMutate s acts = true ->
        MAX_HISTORY_LENGTH < List.length acts ->
        List.length (past (history (run s acts))) = MAX_HISTORY_LENGTH).
Proof.
  repeat split.
  - rewrite (mutates_pushes s a H). reflexivity.
  - rewrite (mutates_pushes s a H). simpl.
    eexists. symmetry. apply sliceLast_suffix.
  - rewrite (mutates_pushes s a H). reflexivity.
  - rewrite (mutates_pushes s a H), pushToHistory_past_length.
    unfold MAX_HISTORY_LENGTH. lia.
  - intros Hne. unfold undo. destruct (past (history s)); [congruence | reflexivity].
  - unfold redo. destruct (future (history s)) eqn:E; simpl; rewrite ?E; reflexivity.
  - intros acts Hall Hlen. unfold MAX_HISTORY_LENGTH in *.
    rewrite (allMutate_past_length acts s Hall).
    + lia.
    + intros ->. simpl in Hlen. lia.
Qed.

(** C6. When the collection already holds as many features of a kind as the
    kind's cap allows, [addFeature] of that kind returns [null], records the
    limit error and its toast, and leaves the collection, the history and
    the shape counters alone; the number of features of the kind stays what
    it was. *)
Theorem addFeature_at_cap (g : Geometry) (k : ShapeType)
    (props : PartialProperties) (tid fid : string) (now : Z) (s : FeatureState) :
  shapeLimits k <= getFeatureCount k s ->
  exists s',
    addFeature g k props tid fid now s = Ret (None, s')
    /\ error s' = Some (limitError k)
    /\ toasts s' = toasts s ++ [mkToast tid toastError (limitToast k) (Some 4000%Z)]
    /\ features s' = features s
    /\ history s' = history s
    /\ shapeCounts s' = shapeCounts s
    /\ selectedFeatureId s' = selectedFeatureId s
    /\ getFeatureCount k s' = getFeatureCount k s.
Proof.
  intros Hcap. unfold addFeature. unfold getFeatureCount in Hcap.
  apply Nat.leb_le in Hcap. rewrite Hcap.
  eexists. split; [reflexivity|]. repeat split.
Qed.

(** [removeFeature] never writes the counters. *)
Lemma removeFeature_counts (x : string) (s : FeatureState) :
  shapeCounts (removeFeature x s) = shapeCounts s.
Proof. reflexivity. Qed.

Lemma filter_none_id {A : Type} (p : A -> bool) (l : list A) :
  find p l = None -> filter (fun a => negb (p a)) l = l.
Proof.
  induction l as [|a l IH]; simpl; [reflexivity|].
  destruct (p a); [discriminate|]. intros H. simpl. f_equal. apply IH, H.
Qed.

(** C8, as the code has it. For an id the collection does not hold,
    [updateFeature] returns with the whole store unchanged (so no error is
    recorded either), and [removeFeature] leaves the collection, the shape
    counters, the error and the toasts unchanged, and the selection too
    unless the stale id was the selected one. *)
Theorem stale_id_update_remove (x : string) (g : Geometry) (s : FeatureState) :
  find (hasId x) (features s) = None ->
  updateFeature x g s = Ret s
  /\ features (removeFeature x s) = features s
  /\ shapeCounts (removeFeature x s) = shapeCounts s
  /\ error (removeFeature x s) = error s
  /\ toasts (removeFeature x s) = toasts s
  /\ (selectedFeatureId s <> Some x ->
      selectedFeatureId (removeFeature x s) = selectedFeatureId s).
Proof.
  intros Hnone. repeat split.
  - unfold updateFeature. rewrite Hnone. reflexivity.
  - simpl. apply filter_none_id, Hnone.
  - intros Hsel. simpl. destruct (selectedFeatureId s) as [y|]; simpl; [|reflexivity].
    destruct (String.eqb_spec y x) as [->|]; [congruence | reflexivity].
Qed.

End WithTurf.

Lemma undo_then_redo_restores_witness :
  redo (undo Scenario.twoPolygons) = Scenario.twoPolygons.
Proof.
  apply (undo_then_redo_restores (turf := Strip.turf)).
  - exists [], zeroCounts, [Scenario.addPolygon 1; Scenario.addPolygon 2].
    reflexivity.
  - vm_compute. discriminate.
Defined.

Lemma history_push_and_bound_witness :
  allMutate (turf := Strip.turf) initialState Scenario.fiftyOneCalls = true
  /\ List.length Scenario.fiftyOneCalls = 51
  /\ List.length
       (past (history (run (turf := Strip.turf) initialState Scenario.fiftyOneCalls)))
     = 50.
Proof.
  split; [vm_compute; reflexivity|]. split; [vm_compute; reflexivity|].
  apply (proj2 (proj2 (proj2
           (history_push_and_bound (turf := Strip.turf) initialState)))).
  - vm_compute. reflexivity.
  - unfold MAX_HISTORY_LENGTH. vm_compute. lia.
Defined.

Lemma addFeature_at_cap_witness :
  getFeatureCount polygon Scenario.tenPolygons = 10
  /\ exists s',
       addFeature (turf := Strip.turf) (Strip.square 0%float) polygon noProps
         "toast-11" "feature-11" 11%Z Scenario.tenPolygons = Ret (None, s')
       /\ error s' = Some (limitError polygon)
       /\ toasts s'
          = toasts Scenario.tenPolygons
              ++ [mkToast "toast-11" toastError (limitToast polygon) (Some 4000%Z)]
       /\ features s' = features Scenario.tenPolygons
       /\ history s' = history Scenario.tenPolygons
       /\ shapeCounts s' = shapeCounts Scenario.tenPolygons
       /\ selectedFeatureId s' = selectedFeatureId Scenario.tenPolygons
       /\ getFeatureCount polygon s' = getFeatureCount polygon Scenario.tenPolygons.
Proof.
  split; [vm_compute; reflexivity|].
  apply (addFeature_at_cap (turf := Strip.turf)).
  vm_compute. lia.
Defined.

(** C8 as stated fails: [removeFeature] of an id that no feature has, on the
    initial store, pushes the (empty) present onto [past]. *)
Lemma stale_remove_pushes_history :
  find (hasId "ghost") (features initialState) = None
  /\ past (history initialState) = []
  /\ past (history (removeFeature "ghost" initialState)) = [[]]
  /\ removeFeature "ghost" initialState <> initialState.
Proof. repeat split. discriminate. Qed.

Lemma stale_id_update_remove_witness :
  updateFeature (turf := Strip.turf) "ghost" (Strip.square 0%float)
    Scenario.onePolygon = Ret Scenario.onePolygon
  /\ features (removeFeature "ghost" Scenario.onePolygon)
     = features Scenario.onePolygon.
Proof.
  destruct (stale_id_update_remove (turf := Strip.turf) "ghost"
              (Strip.square 0%float) Scenario.onePolygon) as (Hu & Hf & _).
  - vm_compute. reflexivity.
  - split; [exact Hu | exact Hf].
Defined.

(** C3 at its failing input. [removeFeature] never writes [shapeCounts]:
    after one polygon is added to the initial store and removed again, the
    collection holds no polygon and the polygon counter still reads 1. *)
Theorem removeFeature_leaves_counter :
  (forall x s, shapeCounts (removeFeature x s) = shapeCounts s)
  /\ getFeatureCount polygon Scenario.onePolygon = 1
  /\ getCount (shapeCounts Scenario.onePolygon) polygon = 1
  /\ getFeatureCount polygon (removeFeature "feature-1" Scenario.onePolygon) = 0
  /\ getCount (shapeCounts (removeFeature "feature-1" Scenario.onePolygon)) polygon = 1.
Proof. repeat split. Qed.

End StoreProps.

(* ------------------------------------------------------------------ *)
(** ** The overlap validation *)

Module OverlapProps.
Import PolygonUtils Loop.

Section WithTurf.
Context {turf : Turf}.

Lemma overlapLoop_advance (pre rest : list (string * option PolyFeature))
    (cur c : PolyFeature) (t t' : bool) :
  advance pre cur t = Some (c, t') ->
  overlapLoop (pre ++ rest) cur t = overlapLoop rest c t'.
Proof.
  revert cur t. induction pre as [|[x [e|]] pre IH]; intros cur t; simpl.
  - intros [= -> ->]. reflexivity.
  - destruct (turf_intersect cur e) as [[i|]|]; try discriminate.
    + destruct (threshold <? _)%float; [discriminate|].
      destruct (threshold <? _)%float; [discriminate|].
      destruct (turf_difference cur e) as [[d|]|]; try discriminate. apply IH.
    + apply IH.
  - apply IH.
Qed.

Lemma overlapLoop_ends (ps : list (string * option PolyFeature))
    (cur c : PolyFeature) (t t' : bool) :
  advance ps cur t = Some (c, t') -> overlapLoop ps cur t = accepted c t'.
Proof.
  intros H. rewrite <- (app_nil_r ps). rewrite (overlapLoop_advance ps [] cur c t t' H).
  reflexivity.
Qed.

Lemma overlapLoop_valid (ps : list (string * option PolyFeature))
    (cur : PolyFeature) (t : bool) :
  isValid (overlapLoop ps cur t) = true ->
  exists c t', advance ps cur t = Some (c, t').
Proof.
  revert cur t. induction ps as [|[x [e|]] ps IH]; intros cur t; simpl.
  - intros _. eauto.
  - destruct (turf_intersect cur e) as [[i|]|]; try discriminate.
    + destruct (threshold <? _)%float; [discriminate|].
      destruct (threshold <? _)%float; [discriminate|].
      destruct (turf_difference cur e) as [[d|]|]; try discriminate. apply IH.
    + apply IH.
  - apply IH.
Qed.

Lemma mapPolygons_ids (fs : list GeoFeature)
    (ps : list (string * option PolyFeature)) :
  mapPolygons fs = Ret ps ->
  map fst (filter nonNull ps) = map id (filter polygonalGeometry fs).
Proof.
  revert ps. induction fs as [|f fs IH]; intros ps; simpl.
  - intros [= <-]. reflexivity.
  - unfold polygonalGeometry at 1, getPolygonFromGeometry.
    destruct (geometry f) as [c|c|c|ty]; simpl.
    + destruct (turf_polygon c); simpl; [|discriminate].
      destruct (mapPolygons fs) as [qs|]; simpl; [|discriminate].
      intros [= <-]. simpl. f_equal. apply IH. reflexivity.
    + destruct (turf_multiPolygon c); simpl; [|discriminate].
      destruct (mapPolygons fs) as [qs|]; simpl; [|discriminate].
      intros [= <-]. simpl. f_equal. apply IH. reflexivity.
    + destruct (mapPolygons fs) as [qs|]; simpl; [|discriminate].
      intros [= <-]. simpl. apply IH. reflexivity.
    + destruct (mapPolygons fs) as [qs|]; simpl; [|discriminate].
      intros [= <-]. simpl. apply IH. reflexivity.
Qed.

Lemma filter_filter {A : Type} (p q : A -> bool) (l : list A) :
  filter q (filter p l) = filter (fun a => p a && q a) l.
Proof.
  induction l as [|a l IH]; simpl; [reflexivity|].
  destruct (p a); simpl; [destruct (q a)|]; rewrite IH; reflexivity.
Qed.

(** The polygons the loop goes through are those of the committed features
    that take part, in the order of the collection. *)
Lemma existingPolygons_order (fs : list GeoFeature) (ex : option string)
    (ps : list (string * option PolyFeature)) :
  existingPolygons fs ex = Ret ps ->
  map fst ps = map id (filter (takesPart ex) fs).
Proof.
  unfold existingPolygons.
  destruct (mapPolygons _) as [qs|] eqn:E; simpl; [|discriminate].
  intros [= <-]. rewrite (mapPolygons_ids _ _ E), filter_filter. reflexivity.
Qed.

Lemma validate_loop (g : Geometry) (fs : list GeoFeature) (ex : option string)
    (p : PolyFeature) (ps : list (string * option PolyFeature)) :
  getPolygonFromGeometry g = Ret (Some p) ->
  existingPolygons fs ex = Ret ps ->
  validatePolygonOverlap g fs ex = Ret (overlapLoop ps p false).
Proof.
  intros Hg Hps. unfold validatePolygonOverlap. rewrite Hg. simpl.
  rewrite Hps. reflexivity.
Qed.

(** C1. The candidate [g] is a polygon [p], the committed features that take
    part give the polygons [pre ++ (x, e) :: rest] (in the order of the
    collection), the loop comes through [pre] with the running polygon
    [cur], and [cur] meets [e] in [i].  Then: when
    [area i / area cur > 0.99] the validation is the "fully contained"
    rejection, whatever the second ratio and whatever [rest] holds; when it
    is not and [area i / area e > 0.99], the validation is the "fully
    contains" rejection, whatever [rest] holds. *)
Theorem containment_hard_stops (g : Geometry) (fs : list GeoFeature)
    (ex : option string) (p cur e i : PolyFeature) (x : string) (t : bool)
    (pre rest : list (string * option PolyFeature)) :
  getPolygonFromGeometry g = Ret (Some p) ->
  existingPolygons fs ex = Ret (pre ++ (x, Some e) :: rest) ->
  advance pre p false = Some (cur, t) ->
  turf_intersect cur e = Ret (Some i) ->
  map fst (pre ++ (x, Some e) :: rest) = map id (filter (takesPart ex) fs)
  /\ ((threshold <? turf_area i / turf_area cur)%float = true ->
      validatePolygonOverlap g fs ex = Ret (rejected msgContained))
  /\ ((threshold <? turf_area i / turf_area cur)%float = false ->
      (threshold <? turf_area i / turf_area e)%float = true ->
      validatePolygonOverlap g fs ex = Ret (rejected msgContains)).
Proof.
  intros Hg Hps Hpre Hi. split; [apply existingPolygons_order, Hps|].
  rewrite (validate_loop g fs ex p _ Hg Hps).
  rewrite (overlapLoop_advance pre _ p cur false t Hpre). simpl. rewrite Hi.
  split.
  - intros ->. reflexivity.
  - intros -> ->. reflexivity.
Qed.

(** C7, as the code has it. Once the constructors have taken the candidate
    and the committed polygons: an exception of [turf.intersect], or of
    [turf.difference] in a round that gets to it, makes the validation the
    "failed to validate" rejection, and the validation returns (it does not
    raise); and with no committed polygon to go through the candidate is
    reported valid, its coordinates never looked at. *)
Theorem clipping_exception_is_rejection (g : Geometry) (fs : list GeoFeature)
    (ex : option string) (p : PolyFeature)
    (ps : list (string * option PolyFeature)) :
  getPolygonFromGeometry g = Ret (Some p) ->
  existingPolygons fs ex = Ret ps ->
  (exists v, validatePolygonOverlap g fs ex = Ret v)
  /\ (forall pre x e rest cur t,
        ps = pre ++ (x, Some e) :: rest ->
        advance pre p false = Some (cur, t) ->
        (forall m, turf_intersect cur e = Throw m ->
           validatePolygonOverlap g fs ex = Ret (rejected msgFailed))
        /\ (forall i m,
              turf_intersect cur e = Ret (Some i) ->
              (threshold <? turf_area i / turf_area cur)%float = false ->
              (threshold <? turf_area i / turf_area e)%float = false ->
              turf_difference cur e = Throw m ->
              validatePolygonOverlap g fs ex = Ret (rejected msgFailed)))
  /\ (ps = [] -> validatePolygonOverlap g fs ex = Ret (accepted p false)).
Proof.
  intros Hg Hps. rewrite (validate_loop g fs ex p ps Hg Hps).
  split; [eexists; reflexivity|]. split.
  - intros pre x e rest cur t -> Hpre.
    rewrite (overlapLoop_advance pre _ p cur false t Hpre). simpl. split.
    + intros m ->. reflexivity.
    + intros i m -> -> -> ->. reflexivity.
  - intros ->. reflexivity.
Qed.

(** With no committed feature, a polygonal candidate is never rejected:
    either the constructor raises, and the exception leaves
    [validatePolygonOverlap], or the candidate is reported valid. *)
Lemma empty_store_never_rejects (g : Geometry) (ex : option string) :
  (exists m, validatePolygonOverlap g [] ex = Throw m)
  \/ (exists v, validatePolygonOverlap g [] ex = Ret v /\ isValid v = true).
Proof.
  unfold validatePolygonOverlap.
  destruct (getPolygonFromGeometry g) as [[p|]|m]; simpl.
  - right. eexists. split; reflexivity.
  - right. eexists. split; reflexivity.
  - left. eexists. reflexivity.
Qed.

(** C5. A candidate of kind [line] is reported valid by both entry points
    of the hook, whatever its geometry, the committed features, the cache
    and the clock: the result carries no trimmed geometry, so the caller
    commits the geometry it passed in and does not count a trim, and the
    hook is left as it was.  [validatePolygonOverlap] itself reports a line
    string valid without going through the features. *)
Theorem line_is_exempt (stringify : Geometry -> option string -> nat -> string)
    (features : list GeoFeature) (g : Geometry) (featureId : string) (now : Z)
    (h : OverlapValidation.HookState) :
  OverlapValidation.validateNewPolygon stringify features g line now h
    = Ret (validOnly, h)
  /\ OverlapValidation.validateEditedPolygon stringify features g line featureId now h
     = Ret (validOnly, h)
  /\ (forall c ex, validatePolygonOverlap (LineString c) features ex = Ret validOnly)
  /\ isValid validOnly = true
  /\ OverlapValidation.finalGeometry g validOnly = g
  /\ OverlapValidation.wasTrimmed validOnly = false.
Proof. repeat split. Qed.

End WithTurf.

End OverlapProps.

(* ------------------------------------------------------------------ *)
(** ** The order of doubles *)

Module FloatOrder.

Lemma SFltb_trans (x y z : spec_float) :
  SFltb x y = true -> SFltb y z = true -> SFltb x z = true.
Proof.
  unfold SFltb, SFcompare.
  destruct x as [sx|sx| |sx mx ex], y as [sy|sy| |sy my ey],
           z as [sz|sz| |sz mz ez];
    try discriminate; try (destruct sx, sy; discriminate);
    try (destruct sy, sz; discriminate);
    try (destruct sx, sy, sz; (discriminate || reflexivity)).
  all: change (PosDef.Pos.compare_cont Eq) with Pos.compare.
  all: destruct sx, sy, sz; try discriminate; try reflexivity.
  all: destruct (Z.compare_spec ex ey); try discriminate;
       destruct (Z.compare_spec ey ez); try discriminate;
       destruct (Z.compare_spec ex ez); try reflexivity; try lia; subst.
  all: repeat match goal with
       | |- context [Pos.compare ?a ?b] => destruct (Pos.compare_spec a b)
       end; simpl; try discriminate; try reflexivity; try lia.
Qed.

Lemma ltb_trans (x y z : float) :
  (x <? y)%float = true -> (y <? z)%float = true -> (x <? z)%float = true.
Proof. rewrite !ltb_spec. apply SFltb_trans. Qed.

End FloatOrder.

(* ------------------------------------------------------------------ *)
(** ** Trimming *)

Module TrimProps.
Import PolygonUtils Loop OverlapProps.

Section WithTurf.
Context {turf : Turf}.

(** [wasTrimmed] is only ever set to [true]. *)
Lemma advance_stays_trimmed (ps : list (string * option PolyFeature))
    (cur c : PolyFeature) (t' : bool) :
  advance ps cur true = Some (c, t') -> t' = true.
Proof.
  revert cur. induction ps as [|[x [e|]] ps IH]; intros cur; simpl.
  - intros [= _ <-]. reflexivity.
  - destruct (turf_intersect cur e) as [[i|]|]; try discriminate.
    + destruct (threshold <? _)%float; [discriminate|].
      destruct (threshold <? _)%float; [discriminate|].
      destruct (turf_difference cur e) as [[d|]|]; try discriminate. apply IH.
    + apply IH.
  - apply IH.
Qed.

Lemma advance_snoc (pre : list (string * option PolyFeature))
    (x : string) (e : PolyFeature) (c0 cur d : PolyFeature) (t0 t : bool) :
  advance pre c0 t0 = Some (cur, t) ->
  advance [(x, Some e)] cur t = Some (d, true) ->
  advance (pre ++ [(x, Some e)]) c0 t0 = Some (d, true).
Proof.
  revert c0 t0. induction pre as [|[y [e'|]] pre IH]; intros c0 t0; simpl.
  - intros [= -> ->] H. exact H.
  - destruct (turf_intersect c0 e') as [[i'|]|]; try discriminate.
    + destruct (threshold <? _)%float; [discriminate|].
      destruct (threshold <? _)%float; [discriminate|].
      destruct (turf_difference c0 e') as [[d'|]|]; try discriminate.
      apply IH.
    + apply IH.
  - apply IH.
Qed.

End WithTurf.

Section WithLaws.
Context {turf : Turf} {laws : TurfLaws turf}.

Lemma advance_area (ps : list (string * option PolyFeature))
    (cur c : PolyFeature) (t t' : bool) :
  advance ps cur t = Some (c, t') ->
  (c = cur /\ t' = t)
  \/ (t' = true /\ (turf_area c <? turf_area cur)%float = true).
Proof.
  revert cur t. induction ps as [|[x [e|]] ps IH]; intros cur t; simpl.
  - intros [= -> ->]. left. split; reflexivity.
  - destruct (turf_intersect cur e) as [[i|]|] eqn:Ei; try discriminate.
    + destruct (threshold <? _)%float; [discriminate|].
      destruct (threshold <? _)%float; [discriminate|].
      destruct (turf_difference cur e) as [[d|]|] eqn:Ed; try discriminate.
      intros H. right.
      pose proof (difference_shrinks cur e i d Ei Ed) as Hd.
      destruct (IH d true H) as [[-> ->] | [-> Hlt]].
      * split; [reflexivity | exact Hd].
      * split; [reflexivity | exact (FloatOrder.ltb_trans _ _ _ Hlt Hd)].
    + apply IH.
  - apply IH.
Qed.

Lemma advance_keeps_disjoint (ps : list (string * option PolyFeature))
    (cur c e : PolyFeature) (t t' : bool) :
  advance ps cur t = Some (c, t') ->
  turf_intersect cur e = Ret None -> turf_intersect c e = Ret None.
Proof.
  revert cur t. induction ps as [|[x [e'|]] ps IH]; intros cur t; simpl.
  - intros [= -> ->] H. exact H.
  - destruct (turf_intersect cur e') as [[i|]|] eqn:Ei; try discriminate.
    + destruct (threshold <? _)%float; [discriminate|].
      destruct (threshold <? _)%float; [discriminate|].
      destruct (turf_difference cur e') as [[d|]|] eqn:Ed; try discriminate.
      intros H Hdis. apply (IH d true H).
      exact (difference_keeps_disjoint cur e' e d Hdis Ed).
    + apply IH.
  - apply IH.
Qed.

Lemma advance_member_disjoint (ps : list (string * option PolyFeature))
    (cur c e : PolyFeature) (x : string) (t t' : bool) :
  advance ps cur t = Some (c, t') ->
  In (x, Some e) ps -> turf_intersect c e = Ret None.
Proof.
  revert cur t. induction ps as [|[y [e'|]] ps IH]; intros cur t; simpl.
  - intros _ [].
  - destruct (turf_intersect cur e') as [[i|]|] eqn:Ei; try discriminate.
    + destruct (threshold <? _)%float; [discriminate|].
      destruct (threshold <? _)%float; [discriminate|].
      destruct (turf_difference cur e') as [[d|]|] eqn:Ed; try discriminate.
      intros H [[= _ <-] | Hin].
      * apply (advance_keeps_disjoint ps d c e' true t' H).
        exact (difference_disjoint cur e' d Ed).
      * exact (IH d true H Hin).
    + intros H [[= _ <-] | Hin].
      * exact (advance_keeps_disjoint ps cur c e' t t' H Ei).
      * exact (IH cur t H Hin).
  - intros H [[=] | Hin]. exact (IH cur t H Hin).
Qed.

End WithLaws.


End TrimProps.

(* ------------------------------------------------------------------ *)
(** ** The validation at concrete inputs *)

Module StripProps.
Import PolygonUtils Loop.

Ltac by_cells a :=
  destruct (Strip.cells a) as [[[] []] []].

Ltac close_cells :=
  simpl; intros; try discriminate;
  repeat match goal with
         | H : Ret (Some _) = Ret (Some _) |- _ => injection H as <-
         end;
  try reflexivity.

#[export] Instance laws : TurfLaws Strip.turf.
Proof.
  constructor.
  - intros a b i d. cbn [turf_intersect turf_difference turf_area Strip.turf].
    by_cells a; by_cells b; close_cells.
  - intros a b d. cbn [turf_intersect turf_difference turf_area Strip.turf].
    by_cells a; by_cells b; close_cells.
  - intros a b e d. cbn [turf_intersect turf_difference turf_area Strip.turf].
    by_cells a; by_cells b; by_cells e; close_cells.
Qed.

(** The square 0 drawn over the committed squares 0 and 1 is fully
    contained; the squares 0 and 1 drawn over the committed square 0 fully
    contain it.  In both runs a second committed feature follows and is
    never looked at. *)
Lemma containment_hard_stops_witness :
  validatePolygonOverlap (turf := Strip.turf) (Strip.square 0%float)
    [Scenario.featureOf "a" Scenario.squares01 rectangle;
     Scenario.featureOf "b" Scenario.squares2 circle] None
  = Ret (rejected msgContained)
  /\ validatePolygonOverlap (turf := Strip.turf) Scenario.squares01
       [Scenario.featureOf "a" (Strip.square 0%float) polygon;
        Scenario.featureOf "b" Scenario.squares2 circle] None
     = Ret (rejected msgContains).
Proof.
  split.
  - apply (proj1 (proj2 (OverlapProps.containment_hard_stops (turf := Strip.turf)
             (Strip.square 0%float)
             [Scenario.featureOf "a" Scenario.squares01 rectangle;
              Scenario.featureOf "b" Scenario.squares2 circle] None
             (Strip.square 0%float) (Strip.square 0%float) Scenario.squares01
             (Strip.mosaic (true, false, false)) "a" false
             [] [("b"%string, Some Scenario.squares2)]
             eq_refl eq_refl eq_refl eq_refl))).
    reflexivity.
  - apply (proj2 (proj2 (OverlapProps.containment_hard_stops (turf := Strip.turf)
             Scenario.squares01
             [Scenario.featureOf "a" (Strip.square 0%float) polygon;
              Scenario.featureOf "b" Scenario.squares2 circle] None
             Scenario.squares01 Scenario.squares01 (Strip.square 0%float)
             (Strip.mosaic (true, false, false)) "a" false
             [] [("b"%string, Some Scenario.squares2)]
             eq_refl eq_refl eq_refl eq_refl))); reflexivity.
Defined.



(** C7 as stated fails. With no committed feature, the ring with a [NaN]
    vertex and the multi-polygon with an open ring are reported valid, and
    the ring of two points makes the constructor raise out of
    [validatePolygonOverlap]; none is rejected. *)
Lemma malformed_candidate_not_rejected :
  Malformed.malformed Scenario.nanRing = true
  /\ validatePolygonOverlap (turf := Strip.turf) Scenario.nanRing [] None
     = Ret (mkValidation true (Some None) None)
  /\ Malformed.malformed Scenario.openRing = true
  /\ validatePolygonOverlap (turf := Strip.turf) Scenario.openRing [] None
     = Ret (mkValidation true (Some None) None)
  /\ Malformed.malformed Scenario.shortRing = true
  /\ validatePolygonOverlap (turf := Strip.turf) Scenario.shortRing [] None
     = Throw "Each LinearRing of a Polygon must have 4 or more Positions.".
Proof. repeat split. Qed.

(** Over the kernel that gives up on a region of none of the squares, the
    triangle drawn next to the committed square 0 is the "failed to
    validate" rejection. *)
Lemma clipping_exception_is_rejection_witness :
  turf_intersect (Turf := Strip.brittle) Scenario.triangle (Strip.square 0%float)
  = Throw "Unable to complete output ring"
  /\ validatePolygonOverlap (turf := Strip.brittle) Scenario.triangle
       [Scenario.featureOf "a" (Strip.square 0%float) polygon] None
     = Ret (rejected msgFailed).
Proof.
  split; [reflexivity|].
  apply (proj1 (proj1 (proj2 (OverlapProps.clipping_exception_is_rejection
                         (turf := Strip.brittle) Scenario.triangle
                         [Scenario.featureOf "a" (Strip.square 0%float) polygon] None
                         Scenario.triangle
                         [("a"%string, Some (Strip.square 0%float))]
                         eq_refl eq_refl))
                 [] "a"%string (Strip.square 0%float) [] Scenario.triangle false
                 eq_refl eq_refl)
           "Unable to complete output ring"%string).
  reflexivity.
Defined.


End StripProps.

(* ------------------------------------------------------------------ *)
(** ** The import *)

Module ImportProps.
Import ImportButton.

Section WithTurf.
Context {turf : Turf}.
Variable stringify : Geometry -> option string -> nat -> string.
Variable store : FeatureStore.FeatureState.

(** The cap is checked against the store and the batch together. *)
Lemma importOne_at_cap (st : LoopState) (feature : FileFeature) (d : Draw)
    (g : Geometry) (k : ShapeType) :
  fileGeometry feature = Some g ->
  detectShapeType g = Some k ->
  shapeLimits k
    <= FeatureStore.getFeatureCount k store
       + List.length (filter (FeatureStore.ofKind k) (importedFeatures st)) ->
  importOne stringify store st feature d = Ret (skip st).
Proof.
  intros Hg Hk Hcap. unfold importOne. rewrite Hg, Hk.
  apply Nat.leb_le in Hcap. rewrite Hcap. reflexivity.
Qed.

(** A polygonal feature below the cap is validated against the store's
    collection alone; when that validation is valid the feature joins the
    batch, whatever the batch already holds. *)
Lemma importOne_commits (st : LoopState) (feature : FileFeature) (d : Draw)
    (g : Geometry) (k : ShapeType) (v : ValidationResult)
    (h' : OverlapValidation.HookState) :
  fileGeometry feature = Some g ->
  detectShapeType g = Some k ->
  PolygonUtils.isPolygonalShape k = true ->
  FeatureStore.getFeatureCount k store
    + List.length (filter (FeatureStore.ofKind k) (importedFeatures st))
    < shapeLimits k ->
  OverlapValidation.validateNewPolygon stringify (FeatureStore.features store)
    g k (validationNow d) (hook st) = Ret (v, h') ->
  isValid v = true ->
  exists st' f,
    importOne stringify store st feature d = Ret st'
    /\ importedFeatures st' = importedFeatures st ++ [f]
    /\ geometry f = OverlapValidation.finalGeometry g v
    /\ shapeType f = k
    /\ skippedCount st' = skippedCount st
    /\ trimmedCount st'
       = (if OverlapValidation.wasTrimmed v then S (trimmedCount st)
          else trimmedCount st).
Proof.
  intros Hg Hk Hpoly Hcap Hv Hvalid. unfold importOne. rewrite Hg, Hk.
  apply Nat.leb_gt in Hcap. rewrite Hcap, Hpoly, Hv. simpl. rewrite Hvalid. simpl.
  unfold OverlapValidation.finalGeometry, OverlapValidation.wasTrimmed.
  destruct (trimmedGeometry v) as [[trimmed|]|];
    do 2 eexists; repeat split; reflexivity.
Qed.

End WithTurf.

(** C9 at its failing input. The store is empty, the file holds the same
    unit square twice.  Both features are imported, untrimmed, none is
    skipped, and the toast says so; the collection now holds two identical
    polygons, although the second, validated against the first, is the
    "fully contained" rejection. *)
Theorem import_does_not_validate_against_batch
    (stringify : Geometry -> option string -> nat -> string)
    (draws : nat -> Draw) (newToastId : string) :
  map geometry
      (FeatureStore.features (Scenario.afterImport stringify draws newToastId))
    = [Strip.square 0%float; Strip.square 0%float]
  /\ map shapeType
         (FeatureStore.features (Scenario.afterImport stringify draws newToastId))
     = [polygon; polygon]
  /\ map FeatureStore.message
         (FeatureStore.toasts (Scenario.afterImport stringify draws newToastId))
     = ["Successfully imported 2 feature(s)."%string]
  /\ PolygonUtils.validatePolygonOverlap (turf := Strip.turf)
       (Strip.square 0%float)
       (firstn 1
          (FeatureStore.features (Scenario.afterImport stringify draws newToastId)))
       None
     = Ret (PolygonUtils.rejected PolygonUtils.msgContained).
Proof.
  unfold Scenario.afterImport, Scenario.squareTwice, onload. cbn.
  unfold OverlapValidation.cacheHit, OverlapValidation.mapGet.
  cbn [OverlapValidation.validationCache OverlapValidation.lastValidationTime].
  rewrite String.eqb_refl.
  destruct (Z.ltb _ _); cbn; repeat split.
Qed.

End ImportProps.

(* ------------------------------------------------------------------ *)
(** ** More on the store *)

Module StoreExtra.
Import FeatureStore StoreInv.

Lemma count_app (k : ShapeType) (a b : list GeoFeature) :
  List.length (filter (ofKind k) (a ++ b))
  = List.length (filter (ofKind k) a) + List.length (filter (ofKind k) b).
Proof. rewrite filter_app, length_app. reflexivity. Qed.

Lemma last_sliceLast {A : Type} (n : nat) (l : list A) (x d : A) :
  0 < n -> last (sliceLast n (l ++ [x])) d = x.
Proof.
  intros Hn. unfold sliceLast. rewrite length_app. simpl.
  assert (Hk : List.length l + 1 - n <= List.length l) by lia.
  rewrite skipn_app.
  replace (List.length l + 1 - n - List.length l) with 0 by lia. simpl.
  apply last_last.
Qed.

Lemma removelast_sliceLast {A : Type} (n : nat) (l : list A) (x : A) :
  removelast (sliceLast (S n) (l ++ [x])) = sliceLast n l.
Proof.
  unfold sliceLast. rewrite length_app. simpl.
  rewrite skipn_app.
  replace (List.length l + 1 - S n - List.length l) with 0 by lia. simpl.
  replace (List.length l + 1 - S n) with (List.length l - n) by lia.
  apply removelast_last.
Qed.

Lemma sliceLast_all {A : Type} (n : nat) (l : list A) :
  List.length l <= n -> sliceLast n l = l.
Proof.
  intros H. unfold sliceLast. replace (List.length l - n) with 0 by lia.
  reflexivity.
Qed.

Section WithTurf.
Context {turf : Turf}.

Lemma calculateMetadata_keys (g : Geometry) (k : ShapeType) (m : PartialProperties) :
  calculateMetadata g k = Ret m ->
  part_id m = None /\ part_shapeType m = None /\ part_createdAt m = None
  /\ part_name m = None /\ part_radius m = None /\ part_center m = None.
Proof.
  unfold calculateMetadata.
  destruct k.
  1-3: destruct (PolygonUtils.calculateArea g); simpl; [|discriminate];
       intros [= <-]; repeat split.
  destruct (PolygonUtils.calculateLength g); simpl; [|discriminate];
    intros [= <-]; repeat split.
Qed.

Lemma addFeature_appends (g : Geometry) (k : ShapeType)
    (props m : PartialProperties) (tid fid : string) (now : Z)
    (s : FeatureState) :
  canAddFeature k s = true ->
  calculateMetadata g k = Ret m ->
  exists f s',
    addFeature g k props tid fid now s = Ret (Some fid, s')
    /\ features s' = features s ++ [f]
    /\ id f = fid /\ geometry f = g /\ shapeType f = k
    /\ prop_name (properties f)
       = Some (over (generateShapeName k (getFeatureCount k s)) (part_name props))
    /\ error s' = None
    /\ (forall k', getFeatureCount k' s'
                   = getFeatureCount k' s + (if ShapeType_eqb k k' then 1 else 0)).
Proof.
  intros Hcan Hm. unfold canAddFeature, getFeatureCount in Hcan.
  apply Nat.ltb_lt in Hcan. unfold addFeature.
  destruct (shapeLimits k <=? _) eqn:E; [apply Nat.leb_le in E; lia|].
  rewrite Hm. simpl. do 2 eexists. split; [reflexivity|]. simpl.
  destruct (calculateMetadata_keys g k m Hm) as (_ & _ & _ & Hn & _).
  repeat split.
  - unfold spread. simpl. rewrite Hn. simpl. unfold getFeatureCount.
    destruct (part_name props); reflexivity.
  - intros k'. unfold getFeatureCount. simpl. rewrite count_app. f_equal.
    cbn [filter]. unfold ofKind at 1. cbn [shapeType].
    destruct (ShapeType_eqb k k'); reflexivity.
Qed.

(** X1. Below the cap, and when the metadata computes, [addFeature] returns
    the new id and appends one feature with that id, the kind and the
    geometry passed in; its name is the generated one unless the additional
    properties carry one.  The kind has one feature more, every other kind
    as many as before; the error is cleared. *)
Theorem addFeature_below_cap (g : Geometry) (k : ShapeType)
    (props m : PartialProperties) (tid fid : string) (now : Z)
    (s : FeatureState) :
  canAddFeature k s = true ->
  calculateMetadata g k = Ret m ->
  exists f s',
    addFeature g k props tid fid now s = Ret (Some fid, s')
    /\ features s' = features s ++ [f]
    /\ id f = fid /\ geometry f = g /\ shapeType f = k
    /\ prop_name (properties f)
       = Some (over (generateShapeName k (getFeatureCount k s)) (part_name props))
    /\ error s' = None
    /\ (forall k', getFeatureCount k' s'
                   = getFeatureCount k' s + (if ShapeType_eqb k k' then 1 else 0)).
Proof. exact (addFeature_appends g k props m tid fid now s). Qed.

Lemma Forall_skip {A : Type} (P : A -> Prop) (n : nat) (l : list A) :
  Forall P l -> Forall P (skipn n l).
Proof.
  intros H. rewrite <- (firstn_skipn n l) in H.
  apply Forall_app in H. apply H.
Qed.

Lemma Forall_nonempty_last {A : Type} (P : A -> Prop) (l : list A) (d : A) :
  Forall P l -> l <> [] -> P (last l d) /\ Forall P (removelast l).
Proof.
  intros H Hne. rewrite (app_removelast_last d Hne) in H.
  apply Forall_app in H as [H1 H2]. split; [|exact H1].
  inversion H2; assumption.
Qed.

Lemma count_filter_le (k : ShapeType) (q : GeoFeature -> bool)
    (fs : list GeoFeature) :
  List.length (filter (ofKind k) (filter q fs))
  <= List.length (filter (ofKind k) fs).
Proof.
  induction fs as [|f fs IH]; simpl; [lia|].
  destruct (q f); simpl; destruct (ofKind k f); simpl; lia.
Qed.

Lemma count_map_same (k : ShapeType) (u : GeoFeature -> GeoFeature)
    (fs : list GeoFeature) :
  (forall f, shapeType (u f) = shapeType f) ->
  List.length (filter (ofKind k) (map u fs))
  = List.length (filter (ofKind k) fs).
Proof.
  intros Hu. induction fs as [|f fs IH]; simpl; [reflexivity|].
  assert (E : ofKind k (u f) = ofKind k f) by (unfold ofKind; rewrite Hu; reflexivity).
  rewrite E. destruct (ofKind k f); simpl; rewrite IH; reflexivity.
Qed.

Lemma pushToHistory_caps (h : HistoryState) (fs : list GeoFeature) :
  withinCaps (present h) -> Forall withinCaps (past h) -> withinCaps fs ->
  withinCaps (present (pushToHistory h fs))
  /\ Forall withinCaps (past (pushToHistory h fs))
  /\ Forall withinCaps (future (pushToHistory h fs)).
Proof.
  intros Hp Hpast Hfs. simpl. repeat split; [exact Hfs | | constructor].
  unfold sliceLast. apply Forall_skip, Forall_app. split; [exact Hpast|].
  constructor; [exact Hp | constructor].
Qed.

Lemma step_capsKept (s : FeatureState) (a : Action) :
  bulk a = false -> capsKept s -> capsKept (step s a).
Proof.
  intros Hb (Hf & Hp & Hpast & Hfut).
  assert (Hpush : forall fs sel err ts cs, withinCaps fs ->
            capsKept (mkState fs sel err ts (pushToHistory (history s) fs) cs)).
  { intros fs sel err ts cs Hfs.
    destruct (pushToHistory_caps (history s) fs Hp Hpast Hfs) as (H1 & H2 & H3).
    repeat split; assumption. }
  destruct a; simpl in *; try discriminate;
    try (repeat split; assumption).
  - unfold addFeature.
    destruct (shapeLimits k <=? _) eqn:E; [repeat split; assumption|].
    destruct (calculateMetadata g k); simpl; [|repeat split; assumption].
    apply Hpush. intros k'. rewrite count_app. simpl.
    unfold ofKind at 2. simpl. apply Nat.leb_gt in E.
    destruct (ShapeType_eqb k k') eqn:Ek; simpl.
    + apply ShapeType_eqb_eq in Ek. subst k'. lia.
    + specialize (Hf k'). lia.
  - unfold updateFeature.
    destruct (find (hasId x) (features s)); [|repeat split; assumption].
    destruct (calculateMetadata g _); simpl; [|repeat split; assumption].
    apply Hpush. intros k'. rewrite count_map_same; [apply Hf|].
    intros f. destruct (hasId x f); reflexivity.
  - apply Hpush. intros k'.
    eapply Nat.le_trans; [apply count_filter_le | apply Hf].
  - apply Hpush. intros k'. simpl. lia.
  - unfold undo. destruct (past (history s)) as [|p0 ps] eqn:E;
      [repeat split; try assumption; rewrite E; constructor|].
    rewrite <- E in *.
    assert (Hne : past (history s) <> []) by (rewrite E; discriminate).
    destruct (Forall_nonempty_last withinCaps (past (history s)) p0 Hpast Hne)
      as [Hl Hr].
    simpl. repeat split; try assumption. constructor; assumption.
  - unfold redo. destruct (future (history s)) as [|next rest] eqn:E;
      [repeat split; try assumption; rewrite E; constructor|].
    inversion Hfut; subst. simpl. repeat split; try assumption.
    apply Forall_app. split; [assumption | constructor; [assumption|constructor]].
Qed.

Lemma run_capsKept (acts : list Action) (s : FeatureState) :
  forallb (fun a => negb (bulk a)) acts = true ->
  capsKept s -> capsKept (run s acts).
Proof.
  revert s. induction acts as [|a acts IH]; intros s Hall Hs; simpl; [exact Hs|].
  simpl in Hall. apply andb_prop in Hall as [Ha Hrest].
  apply IH; [exact Hrest|]. apply step_capsKept; [|exact Hs].
  destruct (bulk a); [discriminate | reflexivity].
Qed.

(** X2. Through any calls other than [setFeatures] and [importFeatures],
    a store that starts empty never holds more features of a kind than the
    kind's cap, and neither does any snapshot an undo or redo can bring
    back. *)
Theorem caps_hold_without_bulk (acts : list Action) :
  forallb (fun a => negb (bulk a)) acts = true ->
  (forall k, getFeatureCount k (run initialState acts) <= shapeLimits k)
  /\ capsKept (run initialState acts).
Proof.
  intros Hall.
  assert (H0 : capsKept initialState).
  { repeat split; try constructor; intros k; simpl; lia. }
  pose proof (run_capsKept acts initialState Hall H0) as H.
  split; [|exact H]. intros k. apply H.
Qed.

Lemma updateFeature_shape (x : string) (g : Geometry) (f0 : GeoFeature)
    (m : PartialProperties) (s : FeatureState) :
  find (hasId x) (features s) = Some f0 ->
  calculateMetadata g (shapeType f0) = Ret m ->
  exists s',
    updateFeature x g s = Ret s'
    /\ map id (features s') = map id (features s)
    /\ map shapeType (features s') = map shapeType (features s)
    /\ map (fun f => prop_name (properties f)) (features s')
       = map (fun f => prop_name (properties f)) (features s)
    /\ shapeCounts s' = shapeCounts s
    /\ selectedFeatureId s' = selectedFeatureId s.
Proof.
  intros Hfind Hm. unfold updateFeature. rewrite Hfind, Hm. simpl.
  destruct (calculateMetadata_keys g _ m Hm) as (_ & _ & _ & Hn & _).
  eexists. split; [reflexivity|]. simpl. repeat split.
  - rewrite map_map. apply map_ext. intros f. destruct (hasId x f); reflexivity.
  - rewrite map_map. apply map_ext. intros f. destruct (hasId x f); reflexivity.
  - rewrite map_map. apply map_ext. intros f. destruct (hasId x f); [|reflexivity].
    simpl. rewrite Hn. reflexivity.
Qed.

(** X3. [updateFeature] of an id the collection holds keeps the order, the
    ids, the kinds and the names of all features, and so the number of
    features of each kind; every feature with that id now has the geometry
    passed in, every other feature is as it was.  Selection, error, toasts
    and counters are not touched. *)
Theorem updateFeature_known (x : string) (g : Geometry) (f0 : GeoFeature)
    (m : PartialProperties) (s : FeatureState) :
  find (hasId x) (features s) = Some f0 ->
  calculateMetadata g (shapeType f0) = Ret m ->
  exists s',
    updateFeature x g s = Ret s'
    /\ map id (features s') = map id (features s)
    /\ map shapeType (features s') = map shapeType (features s)
    /\ map (fun f => prop_name (properties f)) (features s')
       = map (fun f => prop_name (properties f)) (features s)
    /\ (forall f, In f (features s') -> hasId x f = true -> geometry f = g)
    /\ (forall f, hasId x f = false -> In f (features s') <-> In f (features s))
    /\ (forall k, getFeatureCount k s' = getFeatureCount k s)
    /\ selectedFeatureId s' = selectedFeatureId s
    /\ error s' = error s /\ toasts s' = toasts s
    /\ shapeCounts s' = shapeCounts s.
Proof.
  intros Hfind Hm. unfold updateFeature. rewrite Hfind, Hm. simpl.
  destruct (calculateMetadata_keys g _ m Hm) as (_ & _ & _ & Hn & _).
  eexists. split; [reflexivity|]. simpl.
  set (u := fun f : GeoFeature =>
              if hasId x f
              then mkFeature (id f) g (shapeType f) (spread (properties f) m)
              else f).
  assert (Hid : forall f, id (u f) = id f)
    by (intros f; unfold u; destruct (hasId x f); reflexivity).
  assert (Hk : forall f, shapeType (u f) = shapeType f)
    by (intros f; unfold u; destruct (hasId x f); reflexivity).
  assert (Hname : forall f, prop_name (properties (u f)) = prop_name (properties f)).
  { intros f. unfold u. destruct (hasId x f); [|reflexivity].
    simpl. rewrite Hn. reflexivity. }
  repeat split.
  - rewrite map_map. apply map_ext, Hid.
  - rewrite map_map. apply map_ext, Hk.
  - rewrite map_map. apply map_ext, Hname.
  - intros f Hin Hx. apply in_map_iff in Hin as (f' & <- & _).
    unfold u in *. destruct (hasId x f') eqn:E; [reflexivity|].
    rewrite E in Hx. discriminate.
  - intros Hin. apply in_map_iff in Hin as (f' & <- & Hin').
    unfold u in *. destruct (hasId x f') eqn:E; [|exact Hin'].
    unfold hasId in H. simpl in H. unfold hasId in E. congruence.
  - intros Hin. apply in_map_iff. exists f. split; [|exact Hin].
    unfold u. rewrite H. reflexivity.
  - intros k. unfold getFeatureCount. simpl. apply count_map_same, Hk.
Qed.

Lemma undo_after_push (fs : list GeoFeature) (sel err : option string)
    (ts : list ToastMessage) (h : HistoryState) (cs : ShapeCounts) :
  undo (mkState fs sel err ts (pushToHistory h fs) cs)
  = mkState (present h) sel err ts
      (mkHistory (sliceLast 49 (past h)) (present h) [fs]) cs.
Proof.
  unfold undo. simpl.
  pose proof (last_sliceLast 50 (past h) (present h)) as Hl.
  pose proof (removelast_sliceLast 49 (past h) (present h)) as Hr.
  unfold MAX_HISTORY_LENGTH.
  destruct (sliceLast 50 (past h ++ [present h])) as [|p0 ps] eqn:E.
  - exfalso. specialize (Hl (present h) ltac:(lia)).
    assert (Hlen : List.length (sliceLast 50 (past h ++ [present h])) = 0)
      by (rewrite E; reflexivity).
    rewrite StoreProps.sliceLast_length, length_app in Hlen.
    cbn [List.length] in Hlen. lia.
  - rewrite (Hl p0 ltac:(lia)), Hr. reflexivity.
Qed.

Lemma step_mutates_shape (s : FeatureState) (a : Action) :
  mutates s a = true ->
  exists fs sel err ts cs,
    step s a = mkState fs sel err ts (pushToHistory (history s) fs) cs.
Proof.
  destruct a; simpl; try discriminate; try (intros _; do 5 eexists; reflexivity).
  - unfold addFeature.
    destruct (shapeLimits k <=? _); [discriminate|].
    destruct (calculateMetadata g k); simpl; [|discriminate].
    intros _. do 5 eexists. reflexivity.
  - unfold updateFeature.
    destruct (find (hasId x) (features s)); [|discriminate].
    destruct (calculateMetadata g _); simpl; [|discriminate].
    intros _. do 5 eexists. reflexivity.
Qed.

(** X4. One [undo] after a mutating call brings back what [history.present]
    was before the call, as the collection and as [present]; the collection
    the call produced is now the one entry of [future], and [redo] gives
    the state after the call back. *)
Theorem undo_reverts_mutation (s : FeatureState) (a : Action) :
  mutates s a = true ->
  features (undo (step s a)) = present (history s)
  /\ present (history (undo (step s a))) = present (history s)
  /\ past (history (undo (step s a))) = sliceLast 49 (past (history s))
  /\ future (history (undo (step s a))) = [features (step s a)]
  /\ redo (undo (step s a)) = step s a.
Proof.
  intros Hm. destruct (step_mutates_shape s a Hm) as (fs & sel & err & ts & cs & E).
  rewrite E, undo_after_push. simpl. repeat split.
  rewrite <- undo_after_push. apply StoreProps.undo_redo_settled.
  - simpl. intros Hnil.
    assert (Hlen : List.length
              (sliceLast MAX_HISTORY_LENGTH
                 (past (history s) ++ [present (history s)])) = 0)
      by (rewrite Hnil; reflexivity).
    rewrite StoreProps.sliceLast_length, length_app in Hlen.
    unfold MAX_HISTORY_LENGTH in Hlen. cbn [List.length] in Hlen. lia.
  - reflexivity.
Qed.

(** X5. After a reload the history starts empty while the collection is the
    persisted one.  The first mutating call pushes the empty [present], so
    one [undo] after it leaves an empty collection, whatever was persisted,
    and there is nothing further to undo. *)
Theorem undo_after_reload_empties (stored : list GeoFeature) (cs : ShapeCounts)
    (a : Action) :
  mutates (rehydrate stored cs) a = true ->
  features (rehydrate stored cs) = stored
  /\ features (undo (step (rehydrate stored cs) a)) = []
  /\ canUndo (undo (step (rehydrate stored cs) a)) = false.
Proof.
  intros Hm.
  destruct (step_mutates_shape _ a Hm) as (fs & sel & err & ts & cs' & E).
  rewrite E, undo_after_push. repeat split.
Qed.

(** X6. In every state the store can reach with a non-empty [future],
    [redo] followed by [undo] gives the state back. *)
Theorem redo_then_undo_restores (s : FeatureState) :
  reachable s -> future (history s) <> [] -> undo (redo s) = s.
Proof.
  intros Hr Hfut.
  destruct (StoreProps.reachable_settled s Hr) as [[_ Hf] | Hp]; [contradiction|].
  unfold redo. destruct (future (history s)) as [|next rest] eqn:E; [congruence|].
  unfold undo. simpl.
  destruct (past (history s) ++ [features s]) as [|p0 ps] eqn:Ea.
  - destruct (past (history s)); discriminate.
  - rewrite <- Ea, last_last, removelast_last.
    destruct s as [fs sel err ts [pa pr fu] cs]. simpl in *. subst. reflexivity.
Qed.

Lemma step_history_bound (s : FeatureState) (a : Action) :
  List.length (past (history s)) + List.length (future (history s)) <= 50 ->
  List.length (past (history (step s a)))
  + List.length (future (history (step s a))) <= 50.
Proof.
  intros Hb.
  assert (Hpush : forall fs,
            List.length (past (pushToHistory (history s) fs))
            + List.length (future (pushToHistory (history s) fs)) <= 50).
  { intros fs. rewrite StoreProps.pushToHistory_past_length.
    cbn [pushToHistory future List.length]. lia. }
  destruct a; cbn [step removeFeature selectFeature clearFeatures setError
                   addToast removeToast setFeatures importFeatures history];
    try exact Hb; try apply Hpush.
  - unfold addFeature.
    destruct (shapeLimits k <=? _); [exact Hb|].
    destruct (calculateMetadata g k); cbn [bindE history]; [apply Hpush | exact Hb].
  - unfold updateFeature.
    destruct (find (hasId x) (features s)); [|exact Hb].
    destruct (calculateMetadata g _); cbn [bindE history]; [apply Hpush | exact Hb].
  - unfold undo. destruct (past (history s)) as [|p0 ps] eqn:E;
      [rewrite E in *; exact Hb|].
    cbn [history past future List.length]. rewrite <- E. rewrite <- E in Hb.
    assert (Hne : past (history s) <> []) by (rewrite E; discriminate).
    pose proof (app_removelast_last p0 Hne) as Hsplit.
    apply (f_equal (@List.length _)) in Hsplit. rewrite length_app in Hsplit.
    cbn [List.length] in Hsplit. lia.
  - unfold redo. destruct (future (history s)) as [|next rest] eqn:E;
      [rewrite E in *; exact Hb|].
    cbn [history past future List.length] in *. rewrite length_app.
    cbn [List.length]. lia.
Qed.

(** X7. In every state the store can reach, [past] and [future] together
    hold at most 50 snapshots. *)
Theorem history_bounded (s : FeatureState) :
  reachable s ->
  List.length (past (history s)) + List.length (future (history s)) <= 50.
Proof.
  intros (fs & cs & acts & ->).
  assert (H0 : List.length (past (history (rehydrate fs cs)))
               + List.length (future (history (rehydrate fs cs))) <= 50)
    by (simpl; lia).
  revert H0. generalize (rehydrate fs cs) as s.
  induction acts as [|a acts IH]; intros s Hs; simpl; [exact Hs|].
  apply IH, step_history_bound, Hs.
Qed.

Lemma getCount_setCount (c : ShapeCounts) (k k' : ShapeType) (v : nat) :
  getCount (setCount c k v) k' = if ShapeType_eqb k k' then v else getCount c k'.
Proof. destruct k, k'; reflexivity. Qed.

Lemma step_countsAgree (s : FeatureState) (a : Action) :
  skipsCounters a = false -> countsAgree s -> countsAgree (step s a).
Proof.
  intros Ha Hs. destruct a; simpl in Ha; try discriminate; simpl; try exact Hs.
  - unfold addFeature.
    destruct (shapeLimits k <=? _); [exact Hs|].
    destruct (calculateMetadata g k); simpl; [|exact Hs].
    intros k'. unfold getFeatureCount. simpl.
    rewrite getCount_setCount, count_app. cbn [filter]. unfold ofKind at 2.
    cbn [shapeType]. specialize (Hs k'). unfold getFeatureCount in Hs.
    destruct (ShapeType_eqb k k') eqn:E; simpl.
    + apply ShapeType_eqb_eq in E. subst k'. lia.
    + lia.
  - unfold updateFeature.
    destruct (find (hasId x) (features s)); [|exact Hs].
    destruct (calculateMetadata g _); simpl; [|exact Hs].
    intros k'. unfold getFeatureCount. simpl. rewrite count_map_same; [apply Hs|].
    intros f. destruct (hasId x f); reflexivity.
  - intros k'. destruct k'; reflexivity.
Qed.

(** X8. Through [addFeature], [updateFeature], [clearFeatures] and the calls
    that do not change the collection, a store that starts empty keeps every
    shape counter equal to the number of features of its kind. *)
Theorem counters_agree_without_skips (acts : list Action) :
  forallb (fun a => negb (skipsCounters a)) acts = true ->
  countsAgree (run initialState acts).
Proof.
  assert (H0 : countsAgree initialState) by (intros k; destruct k; reflexivity).
  revert H0. generalize initialState as s.
  induction acts as [|a acts IH]; intros s Hs Hall; simpl; [exact Hs|].
  simpl in Hall. apply andb_prop in Hall as [Ha Hrest].
  apply IH; [|exact Hrest]. apply step_countsAgree; [|exact Hs].
  destruct (skipsCounters a); [discriminate | reflexivity].
Qed.

End WithTurf.

Lemma filter_all_false {A : Type} (p : A -> bool) (l : list A) :
  Forall (fun a => p a = true) l -> filter p l = l.
Proof.
  induction 1 as [|a l Ha _ IH]; simpl; [reflexivity|]. rewrite Ha, IH. reflexivity.
Qed.

(** X9. [removeToast] takes away every toast with the id and no other, in
    order; on a store where no toast has the id yet, [addToast] with that id
    followed by [removeToast] of it gives the store back. *)
Theorem removeToast_after_addToast (t : ToastType) (msg : string) (d : Z)
    (x : string) (s : FeatureState) :
  (forall m, In m (toasts (removeToast x s))
             <-> In m (toasts s) /\ toastId m <> x)
  /\ (Forall (fun m => toastId m <> x) (toasts s) ->
      removeToast x (addToast t msg d x s) = s).
Proof.
  split.
  - intros m. simpl. rewrite filter_In. split; intros [Hin Hx]; split; try exact Hin.
    + intros E. rewrite E, String.eqb_refl in Hx. discriminate.
    + destruct (String.eqb_spec (toastId m) x); [contradiction | reflexivity].
  - intros Hfresh. unfold removeToast, addToast. simpl.
    rewrite filter_app. simpl. rewrite String.eqb_refl. simpl.
    rewrite app_nil_r, filter_all_false.
    + destruct s; reflexivity.
    + eapply Forall_impl; [|exact Hfresh]. intros m Hm. simpl in Hm.
      destruct (String.eqb_spec (toastId m) x); [contradiction | reflexivity].
Qed.

Section Gates.
Context {turf : Turf}.

(** X26. The three tests of the cap agree: [canAddFeature] is the negation
    of [isLimitReached] at the kind's feature count; at the limit
    [addFeature] returns [null] whatever it is given, and below the limit it
    never returns [null]. *)
Theorem limit_gates_agree (k : ShapeType) (s : FeatureState) :
  canAddFeature k s = negb (isLimitReached k (getFeatureCount k s))
  /\ (isLimitReached k (getFeatureCount k s) = true ->
      forall g props tid fid now,
        exists s', addFeature g k props tid fid now s = Ret (None, s'))
  /\ (isLimitReached k (getFeatureCount k s) = false ->
      forall g props tid fid now r s',
        addFeature g k props tid fid now s = Ret (r, s') -> r = Some fid).
Proof.
  unfold canAddFeature, isLimitReached, getFeatureCount. repeat split.
  - destruct (Nat.leb_spec (shapeLimits k)
                (List.length (filter (ofKind k) (features s))));
      [apply Nat.ltb_ge | apply Nat.ltb_lt]; assumption.
  - intros Hlim g props tid fid now. unfold addFeature. rewrite Hlim.
    eexists. reflexivity.
  - intros Hlim g props tid fid now r s'. unfold addFeature. rewrite Hlim.
    destruct (calculateMetadata g k); simpl; [|discriminate].
    intros [= <- _]. reflexivity.
Qed.

Lemma existsb_map_id (x : string) (u : GeoFeature -> GeoFeature)
    (fs : list GeoFeature) :
  (forall f, id (u f) = id f) ->
  existsb (hasId x) (map u fs) = existsb (hasId x) fs.
Proof.
  intros Hu. induction fs as [|f fs IH]; simpl; [reflexivity|].
  unfold hasId at 1 3. rewrite Hu, IH. reflexivity.
Qed.

Lemma existsb_filter_other (x y : string) (fs : list GeoFeature) :
  y <> x ->
  existsb (hasId y) (filter (fun f => negb (hasId x f)) fs) = existsb (hasId y) fs.
Proof.
  intros Hne. induction fs as [|f fs IH]; simpl; [reflexivity|].
  destruct (hasId x f) eqn:Ex; simpl.
  - rewrite IH. unfold hasId in *. apply String.eqb_eq in Ex.
    destruct (String.eqb_spec (id f) y); [congruence | reflexivity].
  - rewrite IH. reflexivity.
Qed.

Lemma step_selectionKnown (s : FeatureState) (a : Action) :
  keepsSelection s a = true -> selectionKnown s -> selectionKnown (step s a).
Proof.
  unfold selectionKnown. intros Ha Hs.
  destruct a; simpl in Ha; try discriminate; simpl; try exact Hs.
  - unfold addFeature.
    destruct (shapeLimits k <=? _); [exact Hs|].
    destruct (calculateMetadata g k); simpl; [|exact Hs].
    destruct (selectedFeatureId s) as [y|]; [|exact I].
    rewrite existsb_app, Hs. reflexivity.
  - unfold updateFeature.
    destruct (find (hasId x) (features s)); [|exact Hs].
    destruct (calculateMetadata g _); simpl; [|exact Hs].
    destruct (selectedFeatureId s) as [y|]; [|exact I].
    rewrite existsb_map_id; [exact Hs|].
    intros f. destruct (hasId x f); reflexivity.
  - destruct (selectedFeatureId s) as [y|]; simpl; [|exact I].
    destruct (String.eqb_spec y x) as [->|Hne]; [exact I|].
    rewrite existsb_filter_other; [exact Hs | exact Hne].
  - destruct x as [x|]; [exact Ha | exact I].
  - exact I.
  - destruct (selectedFeatureId s) as [y|]; [|exact I].
    rewrite existsb_app, Hs. reflexivity.
Qed.

(** X27. Through any calls other than [undo], [redo], [setFeatures] and
    [selectFeature] of an id the collection does not hold, a selection that
    is [null] or names a feature of the collection stays so: in particular
    [removeFeature] and [clearFeatures] never leave a removed feature
    selected. *)
Theorem selection_stays_known (acts : list Action) (s : FeatureState) :
  selectionKnown s ->
  allKeepSelection s acts = true ->
  selectionKnown (run s acts).
Proof.
  revert s. induction acts as [|a acts IH]; intros s Hs Hall; simpl; [exact Hs|].
  simpl in Hall. apply andb_prop in Hall as [Ha Hrest].
  apply IH; [|exact Hrest]. apply step_selectionKnown; assumption.
Qed.

End Gates.

Lemma selection_stays_known_witness :
  selectionKnown
    (run (turf := Strip.turf) initialState
       [Scenario.addPolygon 1; Scenario.addPolygon 2;
        SelectFeature (Some "feature-1"%string); RemoveFeature "feature-2";
        RemoveFeature "feature-1"; Scenario.addPolygon 3]).
Proof.
  apply (selection_stays_known (turf := Strip.turf)); [exact I | reflexivity].
Defined.

Lemma addFeature_below_cap_witness :
  exists f s',
    addFeature (turf := Strip.turf) (Strip.square 0%float) polygon noProps
      "toast-2" "feature-2" 2%Z Scenario.onePolygon = Ret (Some "feature-2"%string, s')
    /\ features s' = features Scenario.onePolygon ++ [f]
    /\ id f = "feature-2"%string /\ geometry f = Strip.square 0%float
    /\ shapeType f = polygon
    /\ prop_name (properties f) = Some "Polygon-2"%string
    /\ error s' = None
    /\ (forall k', getFeatureCount k' s'
                   = getFeatureCount k' Scenario.onePolygon
                     + (if ShapeType_eqb polygon k' then 1 else 0)).
Proof.
  apply (addFeature_below_cap (turf := Strip.turf) (Strip.square 0%float) polygon
           noProps
           (mkPartial None None None None (Some 1%float) None None None)
           "toast-2" "feature-2" 2%Z Scenario.onePolygon);
    reflexivity.
Defined.

Lemma caps_hold_without_bulk_witness :
  (forall k,
     getFeatureCount k
       (run (turf := Strip.turf) initialState
          (map Scenario.addPolygon (seq 1 12) ++ [Undo; Redo; RemoveFeature "feature-3"]))
     <= shapeLimits k)
  /\ capsKept
       (run (turf := Strip.turf) initialState
          (map Scenario.addPolygon (seq 1 12) ++ [Undo; Redo; RemoveFeature "feature-3"])).
Proof.
  apply (caps_hold_without_bulk (turf := Strip.turf)). reflexivity.
Defined.

Lemma updateFeature_known_witness :
  exists s',
    updateFeature (turf := Strip.turf) "feature-1" Scenario.squares12
      Scenario.twoPolygons = Ret s'
    /\ map geometry (features s') = [Scenario.squares12; Strip.square 0%float]
    /\ map id (features s') = map id (features Scenario.twoPolygons).
Proof.
  destruct (updateFeature_known (turf := Strip.turf) "feature-1" Scenario.squares12
              (hd (Scenario.featureOf "" (Strip.square 0%float) polygon)
                  (features Scenario.twoPolygons))
              (mkPartial None None None None (Some 2%float) None None None)
              Scenario.twoPolygons eq_refl eq_refl) as (s' & Hu & Hid & _).
  exists s'. repeat split; [exact Hu | | exact Hid].
  vm_compute in Hu. injection Hu as <-. reflexivity.
Defined.

Lemma undo_reverts_mutation_witness :
  features (undo (step (turf := Strip.turf) Scenario.tenPolygons ClearFeatures))
  = features Scenario.tenPolygons
  /\ redo (undo (step (turf := Strip.turf) Scenario.tenPolygons ClearFeatures))
     = step (turf := Strip.turf) Scenario.tenPolygons ClearFeatures.
Proof.
  destruct (undo_reverts_mutation (turf := Strip.turf) Scenario.tenPolygons
              ClearFeatures eq_refl) as (Hf & _ & _ & _ & Hr).
  split; [exact Hf | exact Hr].
Defined.

Lemma undo_after_reload_empties_witness :
  features (rehydrate (features Scenario.tenPolygons) zeroCounts)
  = features Scenario.tenPolygons
  /\ features
       (undo (step (turf := Strip.turf)
                (rehydrate (features Scenario.tenPolygons) zeroCounts)
                (RemoveFeature "feature-1"))) = []
  /\ canUndo
       (undo (step (turf := Strip.turf)
                (rehydrate (features Scenario.tenPolygons) zeroCounts)
                (RemoveFeature "feature-1"))) = false.
Proof.
  apply (undo_after_reload_empties (turf := Strip.turf)). reflexivity.
Defined.

Lemma redo_then_undo_restores_witness :
  undo (redo (undo Scenario.twoPolygons)) = undo Scenario.twoPolygons.
Proof.
  apply (redo_then_undo_restores (turf := Strip.turf)).
  - exists [], zeroCounts, [Scenario.addPolygon 1; Scenario.addPolygon 2; Undo].
    reflexivity.
  - vm_compute. discriminate.
Defined.

Lemma history_bounded_witness :
  List.length
    (past (history (run (turf := Strip.turf) initialState
                      (Scenario.fiftyOneCalls ++ [Undo; Undo]))))
  + List.length
      (future (history (run (turf := Strip.turf) initialState
                          (Scenario.fiftyOneCalls ++ [Undo; Undo])))) <= 50.
Proof.
  apply (history_bounded (turf := Strip.turf)).
  exists [], zeroCounts, (Scenario.fiftyOneCalls ++ [Undo; Undo]). reflexivity.
Defined.

Lemma counters_agree_without_skips_witness :
  countsAgree
    (run (turf := Strip.turf) initialState
       (map Scenario.addPolygon (seq 1 12)
          ++ [UpdateFeature "feature-2" Scenario.squares12; ClearFeatures;
              Scenario.addPolygon 13])).
Proof.
  apply (counters_agree_without_skips (turf := Strip.turf)). reflexivity.
Defined.

Lemma removeToast_after_addToast_witness :
  removeToast "t1" (addToast toastInfo "1 shape(s) deleted." 4000%Z "t1" initialState)
  = initialState.
Proof.
  apply (proj2 (removeToast_after_addToast toastInfo "1 shape(s) deleted." 4000%Z
                  "t1" initialState)).
  constructor.
Defined.

End StoreExtra.

(* ------------------------------------------------------------------ *)
(** ** More on the overlap validation *)

Module OverlapExtra.
Import PolygonUtils Loop OverlapProps.

Section WithTurf.
Context {turf : Turf}.

Lemma advance_no_overlap (ps : list (string * option PolyFeature))
    (cur : PolyFeature) (t : bool) :
  (forall x e, In (x, Some e) ps -> turf_intersect cur e = Ret None) ->
  advance ps cur t = Some (cur, t).
Proof.
  induction ps as [|[x [e|]] ps IH]; intros H; simpl.
  - reflexivity.
  - rewrite (H x e (or_introl eq_refl)). apply IH.
    intros y e' Hin. apply (H y e'). right. exact Hin.
  - apply IH. intros y e' Hin. apply (H y e'). right. exact Hin.
Qed.

(** X10. When the candidate polygon meets none of the committed polygons
    that take part, the validation is valid and carries [null] as trimmed
    geometry: the caller commits the geometry as drawn. *)
Theorem no_overlap_is_accepted_as_drawn (g : Geometry) (fs : list GeoFeature)
    (ex : option string) (p : PolyFeature)
    (ps : list (string * option PolyFeature)) :
  getPolygonFromGeometry g = Ret (Some p) ->
  existingPolygons fs ex = Ret ps ->
  (forall x e, In (x, Some e) ps -> turf_intersect p e = Ret None) ->
  validatePolygonOverlap g fs ex = Ret (mkValidation true (Some None) None)
  /\ OverlapValidation.finalGeometry g (mkValidation true (Some None) None) = g.
Proof.
  intros Hg Hps Hnone. split; [|reflexivity].
  rewrite (validate_loop g fs ex p ps Hg Hps).
  rewrite (overlapLoop_ends ps p p false false (advance_no_overlap ps p false Hnone)).
  reflexivity.
Qed.

(** Features may be filtered off the collection beforehand when the
    validation's own filter drops them anyway. *)
Lemma existingPolygons_filtered (keep : GeoFeature -> bool)
    (fs : list GeoFeature) (ex ex' : option string) :
  (forall f, isPolygonalShape (shapeType f) && notExcluded ex f
             = keep f && (isPolygonalShape (shapeType f) && notExcluded ex' f)) ->
  existingPolygons fs ex = existingPolygons (filter keep fs) ex'.
Proof.
  intros H. unfold existingPolygons. rewrite filter_filter.
  rewrite (filter_ext _ _ H). reflexivity.
Qed.

(** X11. Validating with the id [x] excluded is validating, with nothing
    excluded, against the collection from which every feature of id [x]
    was taken away; and whatever is excluded, the committed features of
    kind line can be taken away from the collection without a change of
    the result. *)
Theorem validation_sees_participants_only (g : Geometry) (fs : list GeoFeature) :
  (forall x,
     validatePolygonOverlap g fs (Some x)
     = validatePolygonOverlap g
         (filter (fun f => negb (String.eqb (id f) x)) fs) None)
  /\ (forall ex,
        validatePolygonOverlap g fs ex
        = validatePolygonOverlap g
            (filter (fun f => negb (ShapeType_eqb (shapeType f) line)) fs) ex).
Proof.
  split.
  - intros x. unfold validatePolygonOverlap.
    rewrite (existingPolygons_filtered
               (fun f => negb (String.eqb (id f) x)) fs (Some x) None).
    + reflexivity.
    + intros f. simpl.
      destruct (isPolygonalShape (shapeType f)), (String.eqb (id f) x); reflexivity.
  - intros ex. unfold validatePolygonOverlap.
    rewrite (existingPolygons_filtered
               (fun f => negb (ShapeType_eqb (shapeType f) line)) fs ex ex).
    + reflexivity.
    + intros f. destruct (shapeType f), (notExcluded ex f); reflexivity.
Qed.

Lemma overlapLoop_shape (ps : list (string * option PolyFeature))
    (cur : PolyFeature) (t : bool) :
  (exists c t', advance ps cur t = Some (c, t')
                /\ overlapLoop ps cur t = accepted c t')
  \/ (advance ps cur t = None
      /\ exists reason,
           overlapLoop ps cur t = rejected reason
           /\ In reason [msgContained; msgContains; msgRemoved; msgFailed]).
Proof.
  revert cur t. induction ps as [|[x [e|]] ps IH]; intros cur t; simpl.
  - left. do 2 eexists. split; reflexivity.
  - destruct (turf_intersect cur e) as [[i|]|].
    + destruct (threshold <? _)%float;
        [right; split; [reflexivity|]; eexists; split; [reflexivity|]; simpl; auto|].
      destruct (threshold <? _)%float;
        [right; split; [reflexivity|]; eexists; split; [reflexivity|]; simpl; auto|].
      destruct (turf_difference cur e) as [[d|]|].
      * apply IH.
      * right; split; [reflexivity|]; eexists; split; [reflexivity|]; simpl; auto.
      * right; split; [reflexivity|]; eexists; split; [reflexivity|]; simpl; auto.
    + apply IH.
    + right; split; [reflexivity|]; eexists; split; [reflexivity|]; simpl; auto.
  - apply IH.
Qed.

(** X12. Whatever [validatePolygonOverlap] returns is of one of three
    shapes: [{ isValid: true }] with no other key, for a candidate that is no
    polygon; valid with a trimmed geometry, [null] or not, and no error; or
    invalid with no trimmed geometry and one of the four reasons. *)
Theorem validation_result_shape (g : Geometry) (fs : list GeoFeature)
    (ex : option string) (v : ValidationResult) :
  validatePolygonOverlap g fs ex = Ret v ->
  v = validOnly
  \/ (exists tg, v = mkValidation true (Some tg) None)
  \/ (exists reason,
        v = mkValidation false None (Some reason)
        /\ In reason [msgContained; msgContains; msgRemoved; msgFailed]).
Proof.
  unfold validatePolygonOverlap.
  destruct (getPolygonFromGeometry g) as [[p|]|]; simpl; try discriminate.
  - destruct (existingPolygons fs ex) as [ps|]; simpl; [|discriminate].
    intros [= <-].
    destruct (overlapLoop_shape ps p false)
      as [(c & t' & _ & ->) | (_ & reason & -> & Hin)].
    + right. left. eexists. reflexivity.
    + right. right. exists reason. split; [reflexivity | exact Hin].
  - intros [= <-]. left. reflexivity.
Qed.

End WithTurf.

Section WithLaws.
Context {turf : Turf} {laws : TurfLaws turf}.

(** X13. Under the laws of exact clipping, a valid result is the running
    polygon the loop ended with, and that polygon meets none of the
    committed polygons that took part: what the caller commits overlaps no
    polygon it was validated against. *)
Theorem accepted_meets_no_committed (g : Geometry) (fs : list GeoFeature)
    (ex : option string) (p : PolyFeature)
    (ps : list (string * option PolyFeature)) (v : ValidationResult) :
  getPolygonFromGeometry g = Ret (Some p) ->
  existingPolygons fs ex = Ret ps ->
  validatePolygonOverlap g fs ex = Ret v ->
  isValid v = true ->
  exists final t,
    advance ps p false = Some (final, t)
    /\ v = accepted final t
    /\ (forall x e, In (x, Some e) ps -> turf_intersect final e = Ret None).
Proof.
  intros Hg Hps. rewrite (validate_loop g fs ex p ps Hg Hps).
  intros [= <-] Hvalid.
  destruct (overlapLoop_valid ps p false Hvalid) as (final & t & Hadv).
  exists final, t. split; [exact Hadv|]. split.
  - apply overlapLoop_ends, Hadv.
  - intros x e Hin.
    exact (TrimProps.advance_member_disjoint ps p final e x false t Hadv Hin).
Qed.

End WithLaws.

Lemma no_overlap_is_accepted_as_drawn_witness :
  validatePolygonOverlap (turf := Strip.turf) Scenario.squares2
    [Scenario.featureOf "a" Scenario.squares01 rectangle] None
  = Ret (mkValidation true (Some None) None)
  /\ OverlapValidation.finalGeometry Scenario.squares2
       (mkValidation true (Some None) None) = Scenario.squares2.
Proof.
  apply (no_overlap_is_accepted_as_drawn (turf := Strip.turf) Scenario.squares2
           [Scenario.featureOf "a" Scenario.squares01 rectangle] None
           Scenario.squares2 [("a"%string, Some Scenario.squares01)]
           eq_refl eq_refl).
  intros x e [[= _ <-] | []]. reflexivity.
Defined.

(** The square 0 redrawn inside its own committed rectangle "a", beside a
    committed line: with "a" excluded the validation has nothing to
    compare with; with nothing excluded it is the "fully contained"
    rejection. *)
Lemma validation_sees_participants_only_witness :
  validatePolygonOverlap (turf := Strip.turf) (Strip.square 0%float)
    [Scenario.featureOf "a" Scenario.squares01 rectangle;
     Scenario.featureOf "l" (LineString [[0; 0]; [3; 1]]%float) line]
    (Some "a"%string)
  = Ret (mkValidation true (Some None) None)
  /\ validatePolygonOverlap (turf := Strip.turf) (Strip.square 0%float)
       [Scenario.featureOf "a" Scenario.squares01 rectangle;
        Scenario.featureOf "l" (LineString [[0; 0]; [3; 1]]%float) line]
       None
     = Ret (rejected msgContained).
Proof.
  split.
  - rewrite (proj1 (validation_sees_participants_only (turf := Strip.turf)
               (Strip.square 0%float)
               [Scenario.featureOf "a" Scenario.squares01 rectangle;
                Scenario.featureOf "l" (LineString [[0; 0]; [3; 1]]%float) line])
             "a"%string).
    rewrite (proj2 (validation_sees_participants_only (turf := Strip.turf)
               (Strip.square 0%float) _) None).
    reflexivity.
  - reflexivity.
Defined.

Lemma validation_result_shape_witness :
  mkValidation true (Some (Some Scenario.squares2)) None = validOnly
  \/ (exists tg, mkValidation true (Some (Some Scenario.squares2)) None
                 = mkValidation true (Some tg) None)
  \/ (exists reason,
        mkValidation true (Some (Some Scenario.squares2)) None
        = mkValidation false None (Some reason)
        /\ In reason [msgContained; msgContains; msgRemoved; msgFailed]).
Proof.
  apply (validation_result_shape (turf := Strip.turf) Scenario.squares12
           [Scenario.featureOf "r1" Scenario.squares01 rectangle] None).
  reflexivity.
Defined.

Lemma accepted_meets_no_committed_witness :
  exists final t,
    advance (turf := Strip.turf)
      [("r1"%string, Some Scenario.squares01);
       ("r0"%string, Some (Strip.square 0%float))]
      Scenario.squares12 false = Some (final, t)
    /\ mkValidation true (Some (Some Scenario.squares2)) None
       = accepted (turf := Strip.turf) final t
    /\ (forall x e,
          In (x, Some e)
             [("r1"%string, Some Scenario.squares01);
              ("r0"%string, Some (Strip.square 0%float))] ->
          turf_intersect (Turf := Strip.turf) final e = Ret None).
Proof.
  apply (accepted_meets_no_committed (laws := StripProps.laws) Scenario.squares12
           [Scenario.featureOf "r1" Scenario.squares01 rectangle;
            Scenario.featureOf "r0" (Strip.square 0%float) polygon] None
           Scenario.squares12
           [("r1"%string, Some Scenario.squares01);
            ("r0"%string, Some (Strip.square 0%float))]
           (mkValidation true (Some (Some Scenario.squares2)) None)
           eq_refl eq_refl eq_refl eq_refl).
Defined.

End OverlapExtra.

(* ------------------------------------------------------------------ *)
(** ** The validation cache *)

Module HookExtra.
Import OverlapValidation HookInv.

Lemma mapGet_mapSet {V : Type} (key : string) (v : V) (m : list (string * V)) :
  mapGet key (mapSet key v m) = Some v.
Proof.
  induction m as [|[k w] m IH]; simpl.
  - rewrite String.eqb_refl. reflexivity.
  - destruct (String.eqb k key) eqn:E; simpl; rewrite E; [reflexivity | exact IH].
Qed.

Lemma mapSet_length {V : Type} (key : string) (v : V) (m : list (string * V)) :
  List.length m <= List.length (mapSet key v m) <= S (List.length m).
Proof.
  induction m as [|[k w] m IH]; simpl; [lia|].
  destruct (String.eqb k key); simpl; lia.
Qed.

Lemma mapSet_keys {V : Type} (key : string) (v : V) (m : list (string * V)) :
  key <> EmptyString ->
  Forall (fun kv => fst kv <> EmptyString) m ->
  Forall (fun kv => fst kv <> EmptyString) (mapSet key v m).
Proof.
  intros Hk. induction 1 as [|[k w] m Hkw Hm IH]; simpl.
  - constructor; [exact Hk | constructor].
  - destruct (String.eqb k key); constructor; assumption.
Qed.

Lemma evictOldest_small {V : Type} (m : list (string * V)) :
  List.length m <= 100 -> evictOldest m = m.
Proof.
  intros H. unfold evictOldest.
  destruct (100 <? List.length m) eqn:E; [|reflexivity].
  apply Nat.ltb_lt in E. lia.
Qed.

Lemma evictOldest_ok {V : Type} (m : list (string * V)) :
  List.length m <= 101 ->
  Forall (fun kv => fst kv <> EmptyString) m ->
  List.length (evictOldest m) <= 100
  /\ Forall (fun kv => fst kv <> EmptyString) (evictOldest m).
Proof.
  intros Hlen Hkeys. unfold evictOldest.
  destruct (100 <? List.length m) eqn:E.
  - destruct m as [|[k w] m]; [simpl in *; split; [lia | constructor]|].
    inversion Hkeys as [|? ? Hk Hrest]; subst. simpl in Hk.
    destruct k as [|c k']; [contradiction|].
    cbn [mapDelete]. rewrite String.eqb_refl. simpl in Hlen.
    split; [lia | exact Hrest].
  - apply Nat.ltb_ge in E. split; [exact E | exact Hkeys].
Qed.

Section WithTurf.
Context {turf : Turf}.
Variable stringify : Geometry -> option string -> nat -> string.

(** X14. The cache is keyed by the geometry and the number of committed
    features only.  After a validation that was computed, a second one of
    the same geometry less than 50 ms later, against any collection of the
    same length, is served the first result without a look at that
    collection; from 50 ms on it is computed against it. *)
Theorem cached_result_is_served (features1 features2 : list GeoFeature)
    (g : Geometry) (k : ShapeType) (now1 now2 : Z) (h h1 : HookState)
    (r : ValidationResult) :
  PolygonUtils.isPolygonalShape k = true ->
  List.length (validationCache h) < 100 ->
  cacheHit h (getCacheKey stringify features1 g None) now1 = None ->
  validateNewPolygon stringify features1 g k now1 h = Ret (r, h1) ->
  List.length features2 = List.length features1 ->
  ((now2 - now1 < 50)%Z ->
   validateNewPolygon stringify features2 g k now2 h1 = Ret (r, h1))
  /\ ((50 <= now2 - now1)%Z ->
      validateNewPolygon stringify features2 g k now2 h1
      = (r' <- PolygonUtils.validatePolygonOverlap g features2 None ;;
         Ret (r', mkHook
                    (evictOldest
                       (mapSet (getCacheKey stringify features2 g None) r'
                               (validationCache h1)))
                    now2))).
Proof.
  intros Hk Hlen Hmiss Hfirst Hsame.
  unfold validateNewPolygon in Hfirst. rewrite Hk, Hmiss in Hfirst. simpl in Hfirst.
  destruct (PolygonUtils.validatePolygonOverlap g features1 None) as [r0|];
    simpl in Hfirst; [|discriminate].
  injection Hfirst as <- <-.
  assert (Hkey : getCacheKey stringify features2 g None
                 = getCacheKey stringify features1 g None)
    by (unfold getCacheKey; rewrite Hsame; reflexivity).
  pose proof (mapSet_length (getCacheKey stringify features1 g None) r0
                (validationCache h)) as Hl.
  unfold validateNewPolygon. rewrite Hk. simpl. unfold cacheHit. simpl.
  rewrite Hkey, evictOldest_small by lia. rewrite mapGet_mapSet.
  unfold VALIDATION_DEBOUNCE_MS. split; intros Ht.
  - apply Z.ltb_lt in Ht. rewrite Ht. reflexivity.
  - apply Z.ltb_ge in Ht. rewrite Ht. reflexivity.
Qed.

(** X15. When keys are never empty, [validateNewPolygon] leaves a cache of
    at most 100 entries at most 100 entries long.  [validateEditedPolygon] has
    no eviction: its cache is never shorter after the call, and at most one
    entry longer. *)
Theorem cache_stays_bounded (features : list GeoFeature) (g : Geometry)
    (k : ShapeType) (featureId : string) (now : Z) (h h' : HookState)
    (r : ValidationResult) :
  (forall g' e n, stringify g' e n <> EmptyString) ->
  cacheOk h ->
  (validateNewPolygon stringify features g k now h = Ret (r, h') -> cacheOk h')
  /\ (validateEditedPolygon stringify features g k featureId now h = Ret (r, h') ->
      List.length (validationCache h) <= List.length (validationCache h')
      <= S (List.length (validationCache h))).
Proof.
  intros Hne [Hlen Hkeys]. split.
  - unfold validateNewPolygon.
    destruct (negb (PolygonUtils.isPolygonalShape k));
      [intros [= _ <-]; split; assumption|].
    destruct (cacheHit h _ now); [intros [= _ <-]; split; assumption|].
    destruct (PolygonUtils.validatePolygonOverlap g features None) as [r0|];
      simpl; [|discriminate].
    intros [= _ <-]. unfold cacheOk. simpl.
    pose proof (mapSet_length (getCacheKey stringify features g None) r0
                  (validationCache h)) as Hl.
    apply evictOldest_ok; [lia|]. apply mapSet_keys; [apply Hne | exact Hkeys].
  - unfold validateEditedPolygon.
    destruct (negb (PolygonUtils.isPolygonalShape k)); [intros [= _ <-]; lia|].
    destruct (cacheHit h _ now); [intros [= _ <-]; lia|].
    destruct (PolygonUtils.validatePolygonOverlap g features (Some featureId))
      as [r0|]; simpl; [|discriminate].
    intros [= _ <-]. simpl. apply mapSet_length.
Qed.

End WithTurf.

Lemma keyOf_not_empty (g : Geometry) (e : option string) (n : nat) :
  keyOf g e n <> EmptyString.
Proof. unfold keyOf. simpl. discriminate. Qed.

(** The square 0 validated against a collection of one line, then 20 ms
    later against a collection of one rectangle that covers it. *)
Lemma cached_result_is_served_witness :
  validateNewPolygon (turf := Strip.turf) keyOf
    [Scenario.featureOf "r" Scenario.squares01 rectangle]
    (Strip.square 0%float) polygon 1020%Z
    (mkHook [(keyOf (Strip.square 0%float) None 1,
              mkValidation true (Some None) None)] 1000%Z)
  = Ret (mkValidation true (Some None) None,
         mkHook [(keyOf (Strip.square 0%float) None 1,
                  mkValidation true (Some None) None)] 1000%Z)
  /\ PolygonUtils.validatePolygonOverlap (turf := Strip.turf)
       (Strip.square 0%float)
       [Scenario.featureOf "r" Scenario.squares01 rectangle] None
     = Ret (PolygonUtils.rejected PolygonUtils.msgContained).
Proof.
  split; [|reflexivity].
  apply (proj1 (cached_result_is_served (turf := Strip.turf) keyOf
                  [Scenario.featureOf "l" (LineString [[0; 0]; [1; 1]]%float) line]
                  [Scenario.featureOf "r" Scenario.squares01 rectangle]
                  (Strip.square 0%float) polygon 1000%Z 1020%Z emptyHook
                  (mkHook [(keyOf (Strip.square 0%float) None 1,
                            mkValidation true (Some None) None)] 1000%Z)
                  (mkValidation true (Some None) None)
                  eq_refl ltac:(simpl; lia) eq_refl eq_refl eq_refl)).
  lia.
Defined.

Lemma cache_stays_bounded_witness :
  cacheOk
    (mkHook [(keyOf (Strip.square 0%float) None 0,
              mkValidation true (Some None) None)] 7%Z).
Proof.
  apply (proj1 (cache_stays_bounded (turf := Strip.turf) keyOf []
                  (Strip.square 0%float) polygon "f" 7%Z emptyHook
                  (mkHook [(keyOf (Strip.square 0%float) None 0,
                            mkValidation true (Some None) None)] 7%Z)
                  (mkValidation true (Some None) None)
                  keyOf_not_empty
                  (conj (Nat.le_0_l 100) (Forall_nil _)))).
  reflexivity.
Defined.

End HookExtra.

(* ------------------------------------------------------------------ *)
(** ** More on the import *)

Module ImportExtra.
Import ImportButton.

Section WithTurf.
Context {turf : Turf}.
Variable stringify : Geometry -> option string -> nat -> string.
Variable store : FeatureStore.FeatureState.

(** One round of the loop either skips the feature or appends one. *)
Lemma importOne_shape (st st' : LoopState) (feature : FileFeature) (d : Draw) :
  importOne stringify store st feature d = Ret st' ->
  (importedFeatures st' = importedFeatures st
   /\ skippedCount st' = S (skippedCount st)
   /\ trimmedCount st' = trimmedCount st)
  \/ (exists f k g,
        fileGeometry feature = Some g
        /\ detectShapeType g = Some k
        /\ FeatureStore.getFeatureCount k store
           + List.length (filter (FeatureStore.ofKind k) (importedFeatures st))
           < shapeLimits k
        /\ importedFeatures st' = importedFeatures st ++ [f]
        /\ skippedCount st' = skippedCount st
        /\ trimmedCount st <= trimmedCount st' <= S (trimmedCount st)
        /\ id f = newId d
        /\ shapeType f = k
        /\ properties f
           = let base :=
               mkProps (newId d) k (createdNow d)
                 (Some (importName (fileProperties feature) k
                          (List.length (importedFeatures st))))
                 None None None None in
             match fileProperties feature with
             | Some p => spread base p
             | None => base
             end).
Proof.
  unfold importOne.
  destruct (fileGeometry feature) as [g|]; [|intros [= <-]; left; repeat split].
  destruct (detectShapeType g) as [k|] eqn:Ek; [|intros [= <-]; left; repeat split].
  destruct (shapeLimits k <=? _) eqn:Ecap; [intros [= <-]; left; repeat split|].
  apply Nat.leb_gt in Ecap.
  destruct (PolygonUtils.isPolygonalShape k).
  - destruct (OverlapValidation.validateNewPolygon _ _ _ _ _ _) as [[v h]|];
      simpl; [|discriminate].
    destruct (isValid v); simpl; [|intros [= <-]; left; repeat split].
    destruct (trimmedGeometry v) as [[trimmed|]|]; intros [= <-]; right;
      eexists; exists k, g; simpl; repeat split;
      try reflexivity; try exact Ecap; try exact Ek; lia.
  - intros [= <-]. right. eexists. exists k, g. simpl.
    repeat split; try reflexivity; try exact Ecap; try exact Ek; lia.
Qed.

Lemma detectShapeType_kinds (g : Geometry) (k : ShapeType) :
  detectShapeType g = Some k -> k = polygon \/ k = line.
Proof. destruct g; intros [= <-]; auto. Qed.

(** X16. When the loop comes through a file, every feature of the file was
    either imported or skipped, and no more features were trimmed than
    imported. *)
Theorem import_counts_add_up (st st' : LoopState)
    (fs : list (FileFeature * Draw)) (h' : OverlapValidation.HookState) :
  importLoop stringify store st fs = (Ret st', h') ->
  List.length (importedFeatures st') + skippedCount st'
  = List.length (importedFeatures st) + skippedCount st + List.length fs
  /\ trimmedCount st' + List.length (importedFeatures st)
     <= trimmedCount st + List.length (importedFeatures st')
  /\ trimmedCount st <= trimmedCount st'.
Proof.
  revert st. induction fs as [|[feature d] fs IH]; intros st; simpl.
  - intros [= <- _]. lia.
  - destruct (importOne stringify store st feature d) as [st1|] eqn:E1;
      [|discriminate].
    intros Hrest. specialize (IH st1 Hrest).
    destruct (importOne_shape st st1 feature d E1)
      as [(Hi & Hs & Ht) | (f & k & g & _ & _ & _ & Hi & Hs & Ht & _)];
      rewrite Hi, ?length_app in *; simpl in *; lia.
Qed.

(** X17. The loop never takes a kind past its cap: for every kind, the
    store's features and the batch together are within the cap, or as many
    as they were when the loop started.  So a batch built from scratch, on
    a store within the caps, leaves [importFeatures] a store within the
    caps. *)
Theorem import_respects_caps (st st' : LoopState)
    (fs : list (FileFeature * Draw)) (h' : OverlapValidation.HookState) :
  importLoop stringify store st fs = (Ret st', h') ->
  (forall k,
     FeatureStore.getFeatureCount k store
     + List.length (filter (FeatureStore.ofKind k) (importedFeatures st'))
     <= Nat.max (shapeLimits k)
          (FeatureStore.getFeatureCount k store
           + List.length (filter (FeatureStore.ofKind k) (importedFeatures st))))
  /\ (importedFeatures st = [] ->
      StoreInv.withinCaps (FeatureStore.features store) ->
      StoreInv.withinCaps
        (FeatureStore.features
           (FeatureStore.importFeatures (importedFeatures st') store))).
Proof.
  intros Hloop.
  assert (Hall : forall k,
     FeatureStore.getFeatureCount k store
     + List.length (filter (FeatureStore.ofKind k) (importedFeatures st'))
     <= Nat.max (shapeLimits k)
          (FeatureStore.getFeatureCount k store
           + List.length (filter (FeatureStore.ofKind k) (importedFeatures st)))).
  { revert st Hloop. induction fs as [|[feature d] fs IH]; intros st; simpl.
    - intros [= <- _] k. lia.
    - destruct (importOne stringify store st feature d) as [st1|] eqn:E1;
        [|discriminate].
      intros Hrest k. specialize (IH st1 Hrest k).
      destruct (importOne_shape st st1 feature d E1)
        as [(Hi & _) | (f & k0 & g & _ & _ & Hcap & Hi & _ & _ & _ & Hk & _)].
      + rewrite Hi in IH. exact IH.
      + rewrite Hi, StoreExtra.count_app in IH. cbn [filter] in IH.
        unfold FeatureStore.ofKind at 3 in IH. rewrite Hk in IH.
        destruct (ShapeType_eqb k0 k) eqn:Ek; simpl in IH.
        * apply ShapeType_eqb_eq in Ek. subst k0. lia.
        * lia. }
  split; [exact Hall|].
  intros Hnil Hstore k. simpl. rewrite StoreExtra.count_app.
  specialize (Hall k). rewrite Hnil in Hall. simpl in Hall.
  specialize (Hstore k). unfold FeatureStore.getFeatureCount in Hall. lia.
Qed.

(** X18. A feature the loop imports gets the id drawn for it and the kind
    read off its geometry, which is polygon or line and never rectangle or
    circle; its properties are the file's wherever the file has them, so
    [properties.id] and [properties.shapeType] are the file's and may differ
    from the feature's own id and kind. *)
Theorem imported_feature_identity (st st' : LoopState) (feature : FileFeature)
    (d : Draw) (f : GeoFeature) :
  importOne stringify store st feature d = Ret st' ->
  importedFeatures st' = importedFeatures st ++ [f] ->
  id f = newId d
  /\ (shapeType f = polygon \/ shapeType f = line)
  /\ (exists g, fileGeometry feature = Some g
                /\ detectShapeType g = Some (shapeType f))
  /\ (forall p, fileProperties feature = Some p ->
        prop_id (properties f) = over (newId d) (part_id p)
        /\ prop_shapeType (properties f) = over (shapeType f) (part_shapeType p)
        /\ prop_createdAt (properties f) = over (createdNow d) (part_createdAt p))
  /\ (fileProperties feature = None ->
      prop_id (properties f) = newId d
      /\ prop_shapeType (properties f) = shapeType f).
Proof.
  intros H1 Happ.
  destruct (importOne_shape st st' feature d H1)
    as [(Hi & _) | (f' & k & g & Hg & Hk & _ & Hi & _ & _ & Hid & Hkind & Hprops)].
  - rewrite Hi in Happ. exfalso.
    apply (f_equal (@List.length _)) in Happ. rewrite length_app in Happ.
    simpl in Happ. lia.
  - rewrite Hi in Happ. apply app_inv_head in Happ. injection Happ as ->.
    rewrite Hkind. repeat split.
    + exact Hid.
    + exact (detectShapeType_kinds g k Hk).
    + exists g. split; assumption.
    + rewrite Hprops, H. reflexivity.
    + rewrite Hprops, H. reflexivity.
    + rewrite Hprops, H. reflexivity.
    + rewrite Hprops, H. reflexivity.
    + rewrite Hprops, H. reflexivity.
Qed.

End WithTurf.

(** X19. Whatever the file holds, handling it adds exactly one toast, never
    writes the shape counters, the selection or the error, and either leaves
    the collection and the history alone or commits a non-empty batch with
    one history entry. *)
Theorem import_is_one_step {turf : Turf}
    (stringify : Geometry -> option string -> nat -> string)
    (content : FileContent) (draws : nat -> Draw) (newToastId : string)
    (h : OverlapValidation.HookState) (store : FeatureStore.FeatureState) :
  (exists t msg,
     FeatureStore.toasts (fst (onload stringify content draws newToastId h store))
     = FeatureStore.toasts store
         ++ [FeatureStore.mkToast newToastId t msg (Some 4000%Z)])
  /\ FeatureStore.shapeCounts (fst (onload stringify content draws newToastId h store))
     = FeatureStore.shapeCounts store
  /\ FeatureStore.selectedFeatureId
       (fst (onload stringify content draws newToastId h store))
     = FeatureStore.selectedFeatureId store
  /\ FeatureStore.error (fst (onload stringify content draws newToastId h store))
     = FeatureStore.error store
  /\ ((FeatureStore.features (fst (onload stringify content draws newToastId h store))
       = FeatureStore.features store
       /\ FeatureStore.history (fst (onload stringify content draws newToastId h store))
          = FeatureStore.history store)
      \/ (exists batch,
            batch <> []
            /\ FeatureStore.features
                 (fst (onload stringify content draws newToastId h store))
               = FeatureStore.features store ++ batch
            /\ FeatureStore.history
                 (fst (onload stringify content draws newToastId h store))
               = FeatureStore.pushToHistory (FeatureStore.history store)
                   (FeatureStore.features store ++ batch))).
Proof.
  assert (Hload : forall fs,
    let r := match importLoop stringify store (mkLoop [] 0 0 h)
                     (combine fs (map draws (seq 0 (List.length fs)))) with
             | (Throw _, h') =>
                 (FeatureStore.addToast FeatureStore.toastError msgParseFailed
                    4000%Z newToastId store, h')
             | (Ret st, _) =>
                 match importedFeatures st with
                 | [] =>
                     (FeatureStore.addToast FeatureStore.toastWarning
                        msgNoFeatures 4000%Z newToastId store, hook st)
                 | _ :: _ =>
                     (FeatureStore.addToast FeatureStore.toastSuccess
                        (importMessage (List.length (importedFeatures st))
                           (skippedCount st) (trimmedCount st)) 4000%Z newToastId
                        (FeatureStore.importFeatures (importedFeatures st) store),
                      hook st)
                 end
             end in
    (exists t msg,
       FeatureStore.toasts (fst r)
       = FeatureStore.toasts store
           ++ [FeatureStore.mkToast newToastId t msg (Some 4000%Z)])
    /\ FeatureStore.shapeCounts (fst r) = FeatureStore.shapeCounts store
    /\ FeatureStore.selectedFeatureId (fst r) = FeatureStore.selectedFeatureId store
    /\ FeatureStore.error (fst r) = FeatureStore.error store
    /\ ((FeatureStore.features (fst r) = FeatureStore.features store
         /\ FeatureStore.history (fst r) = FeatureStore.history store)
        \/ (exists batch,
              batch <> []
              /\ FeatureStore.features (fst r) = FeatureStore.features store ++ batch
              /\ FeatureStore.history (fst r)
                 = FeatureStore.pushToHistory (FeatureStore.history store)
                     (FeatureStore.features store ++ batch)))).
  { intros fs. cbv zeta.
    destruct (importLoop stringify store (mkLoop [] 0 0 h) _) as [[st|e] h'].
    - destruct (importedFeatures st) as [|f0 rest] eqn:E; simpl.
      + repeat split; [do 2 eexists; reflexivity | left; split; reflexivity].
      + repeat split; [do 2 eexists; reflexivity|].
        right. exists (f0 :: rest). repeat split. discriminate.
    - simpl. repeat split; [do 2 eexists; reflexivity | left; split; reflexivity]. }
  unfold onload. destruct content as [fs|f| |].
  - apply Hload.
  - apply (Hload [f]).
  - simpl. repeat split; [do 2 eexists; reflexivity | left; split; reflexivity].
  - simpl. repeat split; [do 2 eexists; reflexivity | left; split; reflexivity].
Qed.

(** Four features in the file: the square and the line are imported, the
    point and the feature without geometry are skipped. *)
Lemma import_counts_add_up_witness :
  List.length (importedFeatures Cases.mixedEnd) = 2
  /\ skippedCount Cases.mixedEnd = 2
  /\ List.length (importedFeatures Cases.mixedEnd) + skippedCount Cases.mixedEnd
     = List.length (importedFeatures Cases.start) + skippedCount Cases.start
       + List.length Cases.mixedRounds.
Proof.
  split; [reflexivity|]. split; [reflexivity|].
  apply (proj1 (import_counts_add_up (turf := Strip.turf) HookInv.keyOf
                  FeatureStore.initialState Cases.start Cases.mixedEnd
                  Cases.mixedRounds (hook Cases.mixedEnd) eq_refl)).
Defined.

Lemma import_respects_caps_witness :
  StoreInv.withinCaps
    (FeatureStore.features
       (FeatureStore.importFeatures (importedFeatures Cases.mixedEnd)
          FeatureStore.initialState)).
Proof.
  apply (proj2 (import_respects_caps (turf := Strip.turf) HookInv.keyOf
                  FeatureStore.initialState Cases.start Cases.mixedEnd
                  Cases.mixedRounds (hook Cases.mixedEnd) eq_refl)).
  - reflexivity.
  - intros k. simpl. lia.
Defined.

(** The line of the file comes in as kind line under the drawn id, while its
    properties keep the file's id and say rectangle. *)
Lemma imported_feature_identity_witness :
  importedFeatures Cases.lineEnd <> []
  /\ id (hd (Scenario.featureOf "" (Strip.square 0%float) polygon)
            (importedFeatures Cases.lineEnd)) = "imported-0"%string
  /\ shapeType (hd (Scenario.featureOf "" (Strip.square 0%float) polygon)
                   (importedFeatures Cases.lineEnd)) = line
  /\ prop_id (properties
                (hd (Scenario.featureOf "" (Strip.square 0%float) polygon)
                    (importedFeatures Cases.lineEnd))) = "old-7"%string
  /\ prop_shapeType
       (properties (hd (Scenario.featureOf "" (Strip.square 0%float) polygon)
                       (importedFeatures Cases.lineEnd))) = rectangle.
Proof.
  destruct (imported_feature_identity (turf := Strip.turf) HookInv.keyOf
              FeatureStore.initialState Cases.start Cases.lineEnd Cases.fileLine
              (Cases.draws 0)
              (hd (Scenario.featureOf "" (Strip.square 0%float) polygon)
                  (importedFeatures Cases.lineEnd))
              eq_refl eq_refl) as (Hid & _ & _ & Hp & _).
  destruct (Hp _ eq_refl) as (Hpid & Hpk & _).
  split; [discriminate|]. split; [exact Hid|]. split; [reflexivity|].
  split; [exact Hpid | exact Hpk].
Defined.

End ImportExtra.

(* ------------------------------------------------------------------ *)
(** ** Coordinates *)

Module GeojsonProps.
Import Geojson.

Lemma between_finite (lo hi x : float) (s1 s2 : bool) (m1 m2 : positive)
    (e1 e2 : Z) :
  Prim2SF lo = S754_finite s1 m1 e1 ->
  Prim2SF hi = S754_finite s2 m2 e2 ->
  (lo <=? x)%float = true -> (x <=? hi)%float = true ->
  PrimFloat.is_finite x = true.
Proof.
  intros Hlo Hhi. unfold PrimFloat.is_finite, PrimFloat.is_nan, PrimFloat.is_infinity.
  rewrite !leb_spec, !eqb_spec, abs_spec, Hlo, Hhi.
  assert (Hinf : Prim2SF infinity = S754_infinity false) by reflexivity.
  rewrite Hinf. unfold SFleb, SFeqb, SFcompare.
  destruct (Prim2SF x) as [s|s| |s m e]; simpl.
  - intros _ _. reflexivity.
  - destruct s, s1, s2; discriminate.
  - discriminate.
  - intros _ _. change (PosDef.Pos.compare_cont Eq) with Pos.compare.
    rewrite Z.compare_refl, Pos.compare_refl. destruct s; reflexivity.
Qed.

(** X20. A coordinate [isValidCoordinate] takes has at least two entries,
    and its longitude and latitude are finite numbers: never [NaN], never
    an infinity. *)
Theorem valid_coordinate_is_finite (coord : Position) :
  isValidCoordinate coord = true ->
  exists lng lat rest,
    coord = lng :: lat :: rest
    /\ PrimFloat.is_finite lng = true /\ PrimFloat.is_finite lat = true
    /\ (-180 <=? lng)%float = true /\ (lng <=? 180)%float = true
    /\ (-90 <=? lat)%float = true /\ (lat <=? 90)%float = true.
Proof.
  destruct coord as [|lng [|lat rest]]; try discriminate. simpl.
  intros H. apply andb_prop in H as [H H4]. apply andb_prop in H as [H H3].
  apply andb_prop in H as [H1 H2].
  exists lng, lat, rest. repeat split; try assumption.
  - eapply (between_finite (-180) 180 lng); try eassumption; reflexivity.
  - eapply (between_finite (-90) 90 lat); try eassumption; reflexivity.
Qed.

Lemma valid_coordinate_is_finite_witness :
  exists lng lat rest,
    [78.5; 20.5]%float = lng :: lat :: rest
    /\ PrimFloat.is_finite lng = true /\ PrimFloat.is_finite lat = true
    /\ (-180 <=? lng)%float = true /\ (lng <=? 180)%float = true
    /\ (-90 <=? lat)%float = true /\ (lat <=? 90)%float = true.
Proof.
  apply (valid_coordinate_is_finite [78.5; 20.5]%float). reflexivity.
Defined.

End GeojsonProps.

(* ------------------------------------------------------------------ *)
(** ** Drawing *)

Module DrawingProps.
Import FeatureStore StoreInv Drawing.

Lemma closeRing_closed (c : list Position) :
  c <> [] ->
  List.length (closeRing c) = S (List.length c)
  /\ last (closeRing c) [] = hd [] (closeRing c).
Proof.
  destruct c as [|p c]; [congruence|]. intros _. unfold closeRing. split.
  - rewrite length_app. simpl. lia.
  - rewrite last_last. reflexivity.
Qed.

(** X21. What is read off a drawn polygon or rectangle of [n >= 1] vertices
    is one ring of [n + 1] positions that ends with its first position, each
    position being longitude then latitude.  With three vertices or more and
    no [NaN] in the first, the ring is neither too short nor open. *)
Theorem drawn_ring_is_closed
    (turf_circle : Position -> float -> nat -> Geometry)
    (layer : Layer) (layerType : string) (n : nat) (ring : list LatLng) :
  layer = LPolygon n ring \/ layer = LRectangle n ring ->
  ring <> [] ->
  exists r,
    extractGeometryFromLayer turf_circle layer layerType
    = Some (Polygon [r], noProps)
    /\ r = map toPosition ring ++ [toPosition (hd (mkLatLng 0 0) ring)]
    /\ List.length r = S (List.length ring)
    /\ last r [] = hd [] r
    /\ (3 <= List.length ring ->
        Malformed.isNaN (lng (hd (mkLatLng 0 0) ring)) = false ->
        Malformed.isNaN (lat (hd (mkLatLng 0 0) ring)) = false ->
        Malformed.ringTooShort r = false /\ Malformed.ringOpen r = false).
Proof.
  intros Hlayer Hne.
  assert (Hmap : map toPosition ring <> [])
    by (destruct ring; [congruence | discriminate]).
  destruct (closeRing_closed (map toPosition ring) Hmap) as [Hlen Hlast].
  rewrite length_map in Hlen.
  exists (closeRing (map toPosition ring)).
  split; [destruct Hlayer as [-> | ->]; reflexivity|].
  split; [destruct ring; [congruence | reflexivity]|].
  split; [exact Hlen|]. split; [exact Hlast|].
  intros H3 Hlng Hlat. unfold Malformed.ringTooShort, Malformed.ringOpen.
  rewrite Hlen, Hlast. split.
  - apply Nat.ltb_ge. lia.
  - destruct ring as [|ll ring]; [congruence|]. simpl in *.
    unfold Malformed.isNaN in Hlng, Hlat.
    apply negb_false_iff in Hlng, Hlat. rewrite Hlng, Hlat. reflexivity.
Qed.

Section WithTurf.
Context {turf : Turf}.
Variable turf_circle : Position -> float -> nat -> Geometry.
Variable stringify : Geometry -> option string -> nat -> string.

(** What [commitCreated] leaves of the collection and the history. *)
Lemma commitCreated_shape (layer : Layer) (k : ShapeType) (final : Geometry)
    (props : PartialProperties) (trimmed : bool) (d : CreateDraw) (w : World) :
  canAddFeature k (store w) = true ->
  (features (store (fst (commitCreated layer k final props trimmed d w)))
   = features (store w)
   /\ history (store (fst (commitCreated layer k final props trimmed d w)))
      = history (store w))
  \/ (exists f,
        features (store (fst (commitCreated layer k final props trimmed d w)))
        = features (store w) ++ [f]
        /\ history (store (fst (commitCreated layer k final props trimmed d w)))
           = pushToHistory (history (store w)) (features (store w) ++ [f])
        /\ id f = idDraw d /\ shapeType f = k /\ geometry f = final
        /\ snd (commitCreated layer k final props trimmed d w) = None).
Proof.
  intros Hcan. unfold commitCreated.
  destruct (calculateMetadata final k) as [m|e] eqn:Em.
  - destruct (StoreExtra.addFeature_appends final k props m (limitToastDraw d)
                (idDraw d) (createdClock d) (store w) Hcan Em)
      as (f & s' & Hadd & Hf & Hid & Hg & Hk & _).
    rewrite Hadd. right. exists f.
    assert (Hh : history s' = pushToHistory (history (store w)) (features (store w) ++ [f])).
    { unfold addFeature in Hadd. unfold canAddFeature, getFeatureCount in Hcan.
      apply Nat.ltb_lt in Hcan.
      destruct (shapeLimits k <=? _) eqn:E; [apply Nat.leb_le in E; lia|].
      rewrite Em in Hadd. simpl in Hadd. injection Hadd as <-.
      simpl in Hf. apply app_inv_head in Hf. injection Hf as <-. reflexivity. }
    destruct (idDraw d) as [|c rest]; simpl;
      [repeat split; assumption|].
    destruct trimmed; simpl; repeat split; assumption.
  - left. unfold addFeature. unfold canAddFeature, getFeatureCount in Hcan.
    apply Nat.ltb_lt in Hcan.
    destruct (shapeLimits k <=? _) eqn:E; [apply Nat.leb_le in E; lia|].
    rewrite Em. simpl. split; reflexivity.
Qed.

(** X22. [handleCreated] either leaves the collection and the history as
    they were, or appends one feature with one history entry; the feature
    has the drawn id and the kind of the layer type, and its kind was below
    its cap. *)
Theorem handleCreated_adds_at_most_one (layer : Layer) (layerType : string)
    (d : CreateDraw) (w : World) :
  (features (store (fst (handleCreated turf_circle stringify layer layerType d w)))
   = features (store w)
   /\ history (store (fst (handleCreated turf_circle stringify layer layerType d w)))
      = history (store w))
  \/ (exists f,
        features (store (fst (handleCreated turf_circle stringify layer layerType d w)))
        = features (store w) ++ [f]
        /\ history
             (store (fst (handleCreated turf_circle stringify layer layerType d w)))
           = pushToHistory (history (store w)) (features (store w) ++ [f])
        /\ id f = idDraw d
        /\ shapeType f = mapLayerTypeToShapeType layerType
        /\ snd (handleCreated turf_circle stringify layer layerType d w) = None
        /\ getFeatureCount (shapeType f) (store w) < shapeLimits (shapeType f)).
Proof.
  unfold handleCreated.
  destruct (canAddFeature _ (store w)) eqn:Hcan; simpl;
    [|left; split; reflexivity].
  assert (Hlt : getFeatureCount (mapLayerTypeToShapeType layerType) (store w)
                < shapeLimits (mapLayerTypeToShapeType layerType))
    by (apply Nat.ltb_lt; exact Hcan).
  assert (Hcommit : forall final props trimmed w0,
            features (store w0) = features (store w) ->
            history (store w0) = history (store w) ->
            (features (store (fst (commitCreated layer
                 (mapLayerTypeToShapeType layerType) final props trimmed d w0)))
             = features (store w)
             /\ history (store (fst (commitCreated layer
                 (mapLayerTypeToShapeType layerType) final props trimmed d w0)))
                = history (store w))
            \/ (exists f,
                  features (store (fst (commitCreated layer
                     (mapLayerTypeToShapeType layerType) final props trimmed d w0)))
                  = features (store w) ++ [f]
                  /\ history (store (fst (commitCreated layer
                       (mapLayerTypeToShapeType layerType) final props trimmed d w0)))
                     = pushToHistory (history (store w)) (features (store w) ++ [f])
                  /\ id f = idDraw d
                  /\ shapeType f = mapLayerTypeToShapeType layerType
                  /\ snd (commitCreated layer (mapLayerTypeToShapeType layerType)
                            final props trimmed d w0) = None
                  /\ getFeatureCount (shapeType f) (store w)
                     < shapeLimits (shapeType f))).
  { intros final props trimmed w0 Hf Hh.
    assert (Hcan0 : canAddFeature (mapLayerTypeToShapeType layerType) (store w0) = true)
      by (unfold canAddFeature, getFeatureCount in *; rewrite Hf; exact Hcan).
    destruct (commitCreated_shape layer _ final props trimmed d w0 Hcan0)
      as [[H1 H2] | (f & H1 & H2 & H3 & H4 & _ & H6)].
    - left. rewrite H1, H2, Hf, Hh. split; reflexivity.
    - right. exists f. rewrite H1, H2, Hf, Hh, H4. repeat split; assumption. }
  destruct (extractGeometryFromLayer turf_circle layer layerType) as [[g props]|];
    [|left; split; reflexivity].
  destruct (PolygonUtils.isPolygonalShape _).
  - destruct (OverlapValidation.validateNewPolygon _ _ _ _ _ _) as [[v h']|];
      [|left; split; reflexivity].
    destruct (isValid v); simpl; [|left; split; reflexivity].
    destruct (trimmedGeometry v) as [[trimmed|]|]; apply Hcommit; reflexivity.
  - apply Hcommit; reflexivity.
Qed.

End WithTurf.

Lemma layerGet_In (k : nat) (x : string) (m : LayerMap) :
  layerGet k m = Some x -> In (k, x) m.
Proof.
  induction m as [|[k' v] m IH]; simpl; [discriminate|].
  destruct (Nat.eqb_spec k' k) as [->|].
  - intros [= ->]. left. reflexivity.
  - intros H. right. apply IH, H.
Qed.

Lemma layerDelete_In (k k' : nat) (x : string) (m : LayerMap) :
  In (k, x) (layerDelete k' m) -> In (k, x) m.
Proof.
  induction m as [|[k0 v] m IH]; simpl; [intros []|].
  destruct (Nat.eqb k0 k'); [intros H; right; exact H|].
  intros [H | H]; [left; exact H | right; apply IH, H].
Qed.

Lemma deletedIds_mapped (layers : list Layer) (m : LayerMap) (x : string) :
  In x (deletedIds layers m) ->
  x <> EmptyString
  /\ exists layer, In layer layers /\ In (stampOf layer, x) m.
Proof.
  revert m. induction layers as [|layer layers IH]; intros m; simpl; [intros []|].
  assert (Hskip : In x (deletedIds layers m) ->
                  x <> EmptyString
                  /\ exists layer0, (layer = layer0 \/ In layer0 layers)
                                    /\ In (stampOf layer0, x) m).
  { intros H. destruct (IH m H) as (Hx & l & Hl & Hm).
    split; [exact Hx|]. exists l. split; [right; exact Hl | exact Hm]. }
  destruct (layerGet (stampOf layer) m) as [[|c y]|] eqn:E; try exact Hskip.
  intros [<- | H].
  - split; [discriminate|]. exists layer. split; [left; reflexivity|].
    apply layerGet_In, E.
  - destruct (IH _ H) as (Hx & l & Hl & Hm). split; [exact Hx|].
    exists l. split; [right; exact Hl | exact (layerDelete_In _ _ _ _ Hm)].
Qed.

Lemma fold_deleteOne (layers : list Layer) (w : World) (c : nat) :
  exists w',
    fold_left deleteOne layers (w, c)
    = (w', c + List.length (deletedIds layers (layerToFeatureMap w)))
    /\ features (store w')
       = filter (keptAfter (deletedIds layers (layerToFeatureMap w)))
                (features (store w))
    /\ error (store w') = error (store w)
    /\ toasts (store w') = toasts (store w)
    /\ shapeCounts (store w') = shapeCounts (store w)
    /\ (deletedIds layers (layerToFeatureMap w) = [] ->
        history (store w') = history (store w))
    /\ (deletedIds layers (layerToFeatureMap w) <> [] ->
        List.length (past (history (store w')))
        = Nat.min 50 (List.length (past (history (store w)))
                      + List.length (deletedIds layers (layerToFeatureMap w)))
        /\ future (history (store w')) = []).
Proof.
  revert w c. induction layers as [|layer layers IH]; intros w c.
  - exists w. simpl. rewrite Nat.add_0_r.
    repeat split; try reflexivity; try congruence.
    symmetry. apply StoreExtra.filter_all_false. apply Forall_forall. reflexivity.
  - cbn [fold_left deletedIds]. unfold deleteOne at 2.
    destruct (layerGet (stampOf layer) (layerToFeatureMap w)) as [[|ch y]|] eqn:E;
      try apply IH.
    set (x := String ch y) in *.
    set (w1 := mkWorld (removeFeature x (store w)) (hook w)
                 (layerDelete (stampOf layer) (layerToFeatureMap w)) (group w)).
    destruct (IH w1 (S c)) as (w' & Hfold & Hf & He & Ht & Hc & Hnil & Hcons).
    exists w'. cbn [layerToFeatureMap w1] in *.
    split; [rewrite Hfold; f_equal; simpl; lia|].
    split.
    { rewrite Hf. cbn [w1 store removeFeature features].
      rewrite OverlapProps.filter_filter. apply filter_ext. intros f.
      unfold keptAfter. simpl. unfold hasId.
      destruct (String.eqb (id f) x); reflexivity. }
    split; [rewrite He; reflexivity|].
    split; [rewrite Ht; reflexivity|].
    split; [rewrite Hc; reflexivity|].
    split; [discriminate|]. intros _.
    destruct (deletedIds layers (layerDelete (stampOf layer) (layerToFeatureMap w)))
      as [|y0 ys] eqn:Eids.
    + rewrite (Hnil eq_refl). cbn [w1 store removeFeature history].
      rewrite StoreProps.pushToHistory_past_length. split; [simpl; lia | reflexivity].
    + destruct (Hcons ltac:(discriminate)) as [Hlen Hfut].
      rewrite Hlen. cbn [w1 store removeFeature history].
      rewrite StoreProps.pushToHistory_past_length. split; [|exact Hfut].
      cbn [List.length]. lia.
Qed.

(** X23. [handleDeleted] removes from the collection exactly the features
    whose id the map gives for one of the layers, keeps the others in
    order, and clears the error.  Every removed id is its own history
    entry; with nothing to remove the history and the toasts are left
    alone, otherwise one toast tells how many shapes went. *)
Theorem handleDeleted_removes_mapped (layers : list Layer) (newToastId : string)
    (w : World) :
  features (store (handleDeleted layers newToastId w))
  = filter (keptAfter (deletedIds layers (layerToFeatureMap w)))
           (features (store w))
  /\ error (store (handleDeleted layers newToastId w)) = None
  /\ shapeCounts (store (handleDeleted layers newToastId w)) = shapeCounts (store w)
  /\ (forall x, In x (deletedIds layers (layerToFeatureMap w)) ->
        x <> EmptyString
        /\ exists layer, In layer layers /\ In (stampOf layer, x) (layerToFeatureMap w))
  /\ (deletedIds layers (layerToFeatureMap w) = [] ->
      history (store (handleDeleted layers newToastId w)) = history (store w)
      /\ toasts (store (handleDeleted layers newToastId w)) = toasts (store w))
  /\ (deletedIds layers (layerToFeatureMap w) <> [] ->
      List.length (past (history (store (handleDeleted layers newToastId w))))
      = Nat.min 50 (List.length (past (history (store w)))
                    + List.length (deletedIds layers (layerToFeatureMap w)))
      /\ toasts (store (handleDeleted layers newToastId w))
         = toasts (store w)
             ++ [mkToast newToastId toastInfo
                   (natToString (List.length (deletedIds layers (layerToFeatureMap w)))
                      ++ " shape(s) deleted.")%string (Some 4000%Z)]).
Proof.
  unfold handleDeleted.
  destruct (fold_deleteOne layers w 0) as (w' & Hfold & Hf & He & Ht & Hc & Hnil & Hcons).
  rewrite Hfold. cbn [Nat.add].
  split.
  { destruct (0 <? _); simpl; exact Hf. }
  split; [destruct (0 <? _); reflexivity|].
  split; [destruct (0 <? _); simpl; exact Hc|].
  split; [intros x; apply deletedIds_mapped|].
  split.
  - intros Hempty. rewrite Hempty. simpl. split; [apply Hnil, Hempty | exact Ht].
  - intros Hne. destruct (Hcons Hne) as [Hlen _].
    destruct (deletedIds layers (layerToFeatureMap w)) as [|y ys] eqn:E;
      [congruence|].
    cbn [List.length Nat.ltb Nat.leb]. simpl. rewrite Ht.
    split; [exact Hlen | reflexivity].
Qed.


Lemma not_grown {A : Type} (l : list A) (a : A) : l <> l ++ [a].
Proof.
  intros H. apply (f_equal (@List.length _)) in H. rewrite length_app in H.
  simpl in H. lia.
Qed.

Section WithLaws.
Context {turf : Turf} {laws : Loop.TurfLaws turf}.
Variable turf_circle : Position -> float -> nat -> Geometry.
Variable stringify : Geometry -> option string -> nat -> string.

(** X24. Under the laws of exact clipping: when [handleCreated] commits a
    polygonal shape whose validation was computed and not served from the
    cache, the committed geometry is that of the running polygon the
    validation ended with (the drawn geometry itself when nothing was
    trimmed), and that polygon meets none of the committed polygons. *)
Theorem created_polygon_meets_no_committed (layer : Layer) (layerType : string)
    (d : CreateDraw) (w : World) (g : Geometry) (props : PartialProperties)
    (p : PolyFeature) (f : GeoFeature) :
  PolygonUtils.isPolygonalShape (mapLayerTypeToShapeType layerType) = true ->
  extractGeometryFromLayer turf_circle layer layerType = Some (g, props) ->
  PolygonUtils.getPolygonFromGeometry g = Ret (Some p) ->
  OverlapValidation.cacheHit (hook w)
    (OverlapValidation.getCacheKey stringify (features (store w)) g None)
    (validationClock d) = None ->
  features (store (fst (handleCreated turf_circle stringify layer layerType d w)))
  = features (store w) ++ [f] ->
  exists ps final t,
    PolygonUtils.existingPolygons (features (store w)) None = Ret ps
    /\ Loop.advance ps p false = Some (final, t)
    /\ geometry f = (if t then feature_geometry final else g)
    /\ (forall x e, In (x, Some e) ps -> turf_intersect final e = Ret None).
Proof.
  intros Hpoly Hext Hp Hmiss. unfold handleCreated.
  destruct (canAddFeature _ (store w)) eqn:Hcan; simpl;
    [|intros H; exfalso; exact (not_grown _ _ H)].
  rewrite Hext, Hpoly. unfold OverlapValidation.validateNewPolygon.
  rewrite Hpoly, Hmiss. simpl.
  unfold PolygonUtils.validatePolygonOverlap. rewrite Hp. simpl.
  destruct (PolygonUtils.existingPolygons (features (store w)) None) as [ps|e] eqn:Eps;
    simpl; [|intros H; exfalso; exact (not_grown _ _ H)].
  destruct (isValid (PolygonUtils.overlapLoop ps p false)) eqn:Hvalid; simpl;
    [|intros H; exfalso; exact (not_grown _ _ H)].
  destruct (OverlapProps.overlapLoop_valid ps p false Hvalid) as (final & t & Hadv).
  rewrite (OverlapProps.overlapLoop_ends ps p final false t Hadv).
  intros Hgrow. exists ps, final, t. split; [reflexivity|]. split; [exact Hadv|].
  split.
  - destruct t; simpl in Hgrow.
    + match type of Hgrow with
      | features (store (fst (commitCreated ?l ?k ?fin ?pr ?tr ?dd ?w0))) = _ =>
          destruct (commitCreated_shape l k fin pr tr dd w0 Hcan)
            as [[H1 _] | (f' & H1 & _ & _ & _ & Hg & _)]
      end.
      * rewrite H1 in Hgrow. simpl in Hgrow. exfalso. exact (not_grown _ _ Hgrow).
      * rewrite H1 in Hgrow. simpl in Hgrow. apply app_inv_head in Hgrow.
        injection Hgrow as <-. exact Hg.
    + match type of Hgrow with
      | features (store (fst (commitCreated ?l ?k ?fin ?pr ?tr ?dd ?w0))) = _ =>
          destruct (commitCreated_shape l k fin pr tr dd w0 Hcan)
            as [[H1 _] | (f' & H1 & _ & _ & _ & Hg & _)]
      end.
      * rewrite H1 in Hgrow. simpl in Hgrow. exfalso. exact (not_grown _ _ Hgrow).
      * rewrite H1 in Hgrow. simpl in Hgrow. apply app_inv_head in Hgrow.
        injection Hgrow as <-. exact Hg.
  - intros x e Hin.
    exact (TrimProps.advance_member_disjoint ps p final e x false t Hadv Hin).
Qed.

End WithLaws.


Section Edited.
Context {turf : Turf}.
Variable turf_circle : Position -> float -> nat -> Geometry.
Variable stringify : Geometry -> option string -> nat -> string.

Lemma sameFeatures_refl (s : FeatureState) : sameFeatures s s.
Proof. repeat split. Qed.

Lemma sameFeatures_trans (a b c : FeatureState) :
  sameFeatures a b -> sameFeatures b c -> sameFeatures a c.
Proof.
  intros (H1 & H2 & H3 & H4 & H5) (K1 & K2 & K3 & K4 & K5).
  repeat split; congruence.
Qed.

Lemma updateFeature_sameFeatures (x : string) (g : Geometry) (s s' : FeatureState) :
  updateFeature x g s = Ret s' -> sameFeatures s s'.
Proof.
  intros H. destruct (find (hasId x) (features s)) as [f0|] eqn:Ef.
  - destruct (calculateMetadata g (shapeType f0)) as [m|] eqn:Em.
    + destruct (StoreExtra.updateFeature_shape x g f0 m s Ef Em)
        as (s1 & Hu & H1 & H2 & H3 & H4 & H5).
      rewrite Hu in H. injection H as <-. repeat split; assumption.
    + unfold updateFeature in H. rewrite Ef, Em in H. discriminate.
  - unfold updateFeature in H. rewrite Ef in H. injection H as <-.
    apply sameFeatures_refl.
Qed.

Lemma commitEdited_sameFeatures (x : string) (g : Geometry) (w : World) (n : nat) :
  sameFeatures (store w) (store (fst (fst (commitEdited x g w n)))).
Proof.
  unfold commitEdited. destruct (updateFeature x g (store w)) as [s'|] eqn:E; simpl.
  - exact (updateFeature_sameFeatures x g (store w) s' E).
  - apply sameFeatures_refl.
Qed.

Lemma editOne_sameFeatures (rendered : list GeoFeature) (layer : Layer)
    (d : EditDraw) (w : World) (n : nat) :
  sameFeatures (store w)
    (store (fst (fst (editOne turf_circle stringify rendered layer d w n)))).
Proof.
  unfold editOne.
  destruct (layerGet _ _) as [[|c x]|]; try apply sameFeatures_refl.
  destruct (find _ _) as [feature|]; [|apply sameFeatures_refl].
  destruct (extractGeometryFromLayer _ _ _) as [[g props]|];
    [|apply sameFeatures_refl].
  destruct (PolygonUtils.isPolygonalShape _); [|apply commitEdited_sameFeatures].
  destruct (OverlapValidation.validateEditedPolygon _ _ _ _ _ _ _) as [[v h']|];
    [|apply sameFeatures_refl].
  destruct (isValid v); simpl; [|repeat split].
  destruct (trimmedGeometry v) as [[trimmed|]|].
  - eapply sameFeatures_trans; [|apply commitEdited_sameFeatures]. repeat split.
  - eapply sameFeatures_trans; [|apply commitEdited_sameFeatures]. repeat split.
  - eapply sameFeatures_trans; [|apply commitEdited_sameFeatures]. repeat split.
Qed.

Lemma editLoop_sameFeatures (rendered : list GeoFeature)
    (layers : list (Layer * EditDraw)) (w : World) (n : nat) :
  sameFeatures (store w)
    (store (fst (fst (editLoop turf_circle stringify rendered layers w n)))).
Proof.
  revert w n. induction layers as [|[layer d] layers IH]; intros w n; simpl.
  - apply sameFeatures_refl.
  - pose proof (editOne_sameFeatures rendered layer d w n) as H1.
    destruct (editOne turf_circle stringify rendered layer d w n) as [[w1 n1] [e|]];
      simpl in *; [exact H1|].
    eapply sameFeatures_trans; [exact H1 | apply IH].
Qed.

(** X25. [handleEdited] never adds, removes or reorders features: whatever
    the layers and however the validations go, also when a round raises,
    the collection afterwards lists the same ids, kinds and names in the
    same order, and the counters and the selection are untouched. *)
Theorem handleEdited_keeps_features (layers : list (Layer * EditDraw))
    (newToastId : string) (w : World) :
  sameFeatures (store w)
    (store (fst (handleEdited turf_circle stringify layers newToastId w))).
Proof.
  unfold handleEdited.
  pose proof (editLoop_sameFeatures (features (store w)) layers w 0) as H.
  destruct (editLoop turf_circle stringify (features (store w)) layers w 0)
    as [[w1 n1] [e|]]; simpl in *; [exact H|].
  destruct (0 <? n1); simpl; [|exact H].
  eapply sameFeatures_trans; [exact H|]. repeat split.
Qed.

End Edited.

Lemma drawn_ring_is_closed_witness :
  exists r,
    extractGeometryFromLayer DrawCases.dot DrawCases.triangle "polygon"
    = Some (Polygon [r], noProps)
    /\ r = [[0; 0]; [5; 0]; [5; 5]; [0; 0]]%float
    /\ Malformed.ringTooShort r = false /\ Malformed.ringOpen r = false.
Proof.
  destruct (drawn_ring_is_closed DrawCases.dot DrawCases.triangle "polygon" 12
              [mkLatLng 0 0; mkLatLng 0 5; mkLatLng 5 5]%float
              (or_introl eq_refl) ltac:(discriminate))
    as (r & He & Hr & _ & _ & Hok).
  exists r. split; [exact He|]. split; [exact Hr|].
  apply Hok; [simpl; lia | reflexivity | reflexivity].
Defined.

(** The rectangle over the square 1 drawn next to the committed square 0 is
    committed as drawn and meets nothing. *)
Lemma created_polygon_meets_no_committed_witness :
  map geometry (features (store DrawCases.afterRectangle))
  = [Strip.square 0%float; Strip.square 1%float]
  /\ exists ps final t,
       PolygonUtils.existingPolygons (turf := Strip.turf)
         (features (store DrawCases.world1)) None = Ret ps
       /\ Loop.advance (turf := Strip.turf) ps (Strip.square 1%float) false
          = Some (final, t)
       /\ Strip.square 1%float = (if t then final else Strip.square 1%float)
       /\ (forall x e, In (x, Some e) ps ->
             turf_intersect (Turf := Strip.turf) final e = Ret None).
Proof.
  split; [reflexivity|].
  apply (created_polygon_meets_no_committed (laws := StripProps.laws)
           DrawCases.dot HookInv.keyOf DrawCases.rectangle1 "rectangle"
           DrawCases.draw1 DrawCases.world1 (Strip.square 1%float) noProps
           (Strip.square 1%float)
           (last (features (store DrawCases.afterRectangle))
                 (Scenario.featureOf "" (Strip.square 0%float) polygon))
           eq_refl eq_refl eq_refl eq_refl eq_refl).
Defined.

End DrawingProps.
